(** * flujo-caja-v2: the statement pipeline of [app.py]

    A shallow embedding of [process_transactions], [validate_balances],
    [load_and_process_bank_statement] and [cargar_datos_historicos], with the
    properties of the normalisation and balance-validation pipeline.

    Conventions of the embedding.
    - A pandas [float64] cell is an IEEE 754 binary64 value, taken from the
      Standard Library's executable specification [SpecFloat] at precision 53
      and maximal exponent 1024 (round to nearest, ties to even).
    - A Python [str] is the Rocq [string] of its UTF-8 encoding; its
      characters are the code points that the encoding spells.
    - A cell of a raw table is a text or is missing (NaN). A missing cell
      stays missing through [astype(str)] and the [str] methods, and
      [astype(float)] makes NaN of it, as pandas 3 does.
    - A [DataFrame] is a list of column labels and a list of rows, in row
      order; every operation of the source used here is positional on rows
      that share one index, so the index itself is not represented. *)

From Stdlib Require Import ZArith List String Ascii Bool Lia Permutation Sorted.
From Stdlib Require Import SpecFloat.
Import ListNotations.

Local Open Scope string_scope.
Local Open Scope list_scope.

(** ** binary64 arithmetic, as used by numpy and pandas *)

Definition float : Type := spec_float.

Module F64.

Definition prec : Z := 53.
Definition emax : Z := 1024.

Definition zero : float := S754_zero false.
Definition nan : float := S754_nan.

Definition add : float -> float -> float := SFadd prec emax.
Definition sub : float -> float -> float := SFsub prec emax.
Definition div : float -> float -> float := SFdiv prec emax.
Definition abs : float -> float := SFabs.
Definition opp : float -> float := SFopp.

(** [x == y], [x < y] and [x > y] of Python floats: false on NaN. *)
Definition eqb : float -> float -> bool := SFeqb.
Definition ltb : float -> float -> bool := SFltb.
Definition gtb (x y : float) : bool := SFltb y x.

(** The float nearest to an integer (exact up to 2^53). *)
Definition of_Z (z : Z) : float := binary_normalize prec emax z 0 false.

Definition one : float := of_Z 1.

Definition isna (x : float) : bool :=
  match x with S754_nan => true | _ => false end.

Definition is_finite (x : float) : bool :=
  match x with S754_zero _ | S754_finite _ _ _ => true | _ => false end.

(** The value of a float under [==]: the two zeros are one value. *)
Definition float_key (x : float) : float :=
  match x with
  | S754_zero _ => S754_zero false
  | _ => x
  end.

End F64.

(** ** Tables *)

(** [Timestamp]: a point on the time line (the unit does not matter here). *)
Definition Timestamp : Type := Z.

(** One row of the normalised table, with the columns that
    [process_transactions] and [load_and_process_bank_statement] create. *)
Record Transaction : Type := mkTransaction {
  Fecha : Timestamp;
  Descripcion : option string;   (* [None] is a missing cell (NaN) *)
  Sucursal : option string;
  Doc : option string;
  Valor : float;
  Saldo : float;
  Categoria : string;
  Ingresos : float;
  Egresos : float;
  Flujo_Neto : float;
  Saldo_Acumulado : float;
  FechaStr : string
}.

(** A table of transactions: [columns] are the labels present; a field of a
    row whose label is absent from [columns] carries no information. *)
Record DataFrame : Type := mkDataFrame {
  columns : list string;
  rows : list Transaction
}.

(** [pd.DataFrame()] *)
Definition empty_DataFrame : DataFrame := mkDataFrame [] [].

(** [df.empty]: some axis has length zero. *)
Definition empty (df : DataFrame) : bool :=
  match columns df, rows df with
  | [], _ => true
  | _, [] => true
  | _, _ => false
  end.

(** [name in df.columns] *)
Definition has_column (name : string) (df : DataFrame) : bool :=
  existsb (String.eqb name) (columns df).

(** ** [validate_balances] *)

(** [np.cumsum] on a float array: sequential accumulation from the left,
    the first element taken as it is. *)
Fixpoint np_cumsum_from (acc : float) (l : list float) : list float :=
  match l with
  | [] => []
  | x :: xs => let acc' := F64.add acc x in acc' :: np_cumsum_from acc' xs
  end.

Definition np_cumsum (l : list float) : list float :=
  match l with
  | [] => []
  | x :: xs => x :: np_cumsum_from x xs
  end.

(** [Series.cumsum()] (skipna): NaN entries count as 0.0 in the running sum
    and give NaN at their own position. *)
Fixpoint mask_where (mask : list bool) (v : float) (l : list float) : list float :=
  match mask, l with
  | m :: ms, x :: xs => (if m then v else x) :: mask_where ms v xs
  | _, _ => []
  end.

Definition cumsum (l : list float) : list float :=
  let mask := map F64.isna l in
  mask_where mask F64.nan (np_cumsum (mask_where mask F64.zero l)).

(** [s.iloc[0]]; the default is never used: the callers test [df.empty]. *)
Definition iloc0 (l : list float) : float := hd F64.nan l.

(** [df["Valor"].cumsum() + df["Saldo"].iloc[0] - df["Valor"].iloc[0]] *)
Definition calculated (df : DataFrame) : list float :=
  let valor := map Valor (rows df) in
  let saldo := map Saldo (rows df) in
  map (fun c => F64.sub (F64.add c (iloc0 saldo)) (iloc0 valor)) (cumsum valor).

(** [abs(calculated - df["Saldo"]) > 1], element by element. *)
Fixpoint exceeds (calc saldo : list float) : list bool :=
  match calc, saldo with
  | c :: cs, s :: ss => F64.gtb (F64.abs (F64.sub c s)) F64.one :: exceeds cs ss
  | _, _ => []
  end.

Definition discrepancy_mask (df : DataFrame) : list bool :=
  exceeds (calculated df) (map Saldo (rows df)).

(** [df[mask]]: the rows whose mask entry is [True], in order. *)
Fixpoint boolean_index {A : Type} (l : list A) (mask : list bool) : list A :=
  match l, mask with
  | x :: xs, m :: ms => if m then x :: boolean_index xs ms else boolean_index xs ms
  | _, _ => []
  end.

Definition validate_balances (df : DataFrame) : DataFrame :=
  if empty df || negb (has_column "Valor" df) || negb (has_column "Saldo" df)
  then empty_DataFrame
  else mkDataFrame (columns df) (boolean_index (rows df) (discrepancy_mask df)).

(** ** Strings, regular expressions and [float()] *)

Definition is_ascii_digit (c : ascii) : bool :=
  (48 <=? nat_of_ascii c)%nat && (nat_of_ascii c <=? 57)%nat.

Fixpoint filter_chars (keep : ascii -> bool) (s : string) : string :=
  match s with
  | EmptyString => EmptyString
  | String c s' =>
      if keep c then String c (filter_chars keep s') else filter_chars keep s'
  end.

(** *** The characters of a text

    A character is spelt by a byte below 128, or by a leading byte from 192
    on with the one, two or three continuation bytes (128 to 191) it
    announces. *)
Definition byte (c : ascii) : Z := Z.of_N (N_of_ascii c).

Definition is_continuation (c : ascii) : bool :=
  (128 <=? byte c)%Z && (byte c <? 192)%Z.

Definition continuation_bytes (c : ascii) : nat :=
  if (byte c <? 192)%Z then 0
  else if (byte c <? 224)%Z then 1
  else if (byte c <? 240)%Z then 2
  else 3.

(** Takes up to [k] continuation bytes off the front of a list of
    characters. *)
Fixpoint take_continuation (k : nat) (chars : list string) : string * list string :=
  match k, chars with
  | S k', String c EmptyString :: chars' =>
      if is_continuation c
      then let '(t, r) := take_continuation k' chars' in (String c t, r)
      else (EmptyString, chars)
  | _, _ => (EmptyString, chars)
  end.

(** [list(s)]: the characters of a text, each as the bytes that spell it. *)
Fixpoint characters (s : string) : list string :=
  match s with
  | EmptyString => []
  | String c s' =>
      let '(t, r) := take_continuation (continuation_bytes c) (characters s') in
      String c t :: r
  end.

(** ["".join(chars)] *)
Definition join (chars : list string) : string :=
  fold_right String.append EmptyString chars.

(** [ord(ch)]; [-1] for bytes that spell no character. *)
Definition code_point (ch : string) : Z :=
  match ch with
  | String a t =>
      if is_continuation a || negb (Nat.eqb (String.length t) (continuation_bytes a))
      then (-1)%Z
      else
        match t with
        | EmptyString => byte a
        | String b EmptyString => ((byte a - 192) * 64 + (byte b - 128))%Z
        | String b (String c EmptyString) =>
            (((byte a - 224) * 64 + (byte b - 128)) * 64 + (byte c - 128))%Z
        | String b (String c (String d _)) =>
            ((((byte a - 240) * 64 + (byte b - 128)) * 64 + (byte c - 128)) * 64
             + (byte d - 128))%Z
        end
  | EmptyString => (-1)%Z
  end.

Section Digits.

(** The decimal digits of the interpreter's Unicode database beyond ASCII
    (category Nd): every script has its ten digits in a row from its zero,
    and [digit_zeros] lists the code points of these zeros (1632 for
    ARABIC-INDIC DIGIT ZERO, 65296 for FULLWIDTH DIGIT ZERO, ...). Which
    scripts there are depends on the version of the database. *)
Variable digit_zeros : list Z.

(** [Py_UNICODE_TODECIMAL(cp)]: the value of a decimal digit. Both [\d] of
    [re] on a [str] pattern and [float()] go by it. *)
Definition decimal (cp : Z) : option Z :=
  if ((48 <=? cp) && (cp <=? 57))%Z then Some (cp - 48)%Z
  else if (cp <? 128)%Z then None
  else match find (fun z => ((z <=? cp) && (cp <? z + 10))%Z) digit_zeros with
       | Some z => Some (cp - z)%Z
       | None => None
       end.

(** [\d] *)
Definition is_decimal (ch : string) : bool :=
  match decimal (code_point ch) with
  | Some _ => true
  | None => false
  end.

(** The character class [[\d\-.,]]. *)
Definition currency_char (ch : string) : bool :=
  is_decimal ch || String.eqb ch "-" || String.eqb ch "." || String.eqb ch ",".

(** [s.str.replace(r"[^\d\-.,]", "", regex=True)] on one text. *)
Definition strip_non_currency (s : string) : string :=
  join (filter currency_char (characters s)).

(** [float()] first writes every decimal digit as an ASCII digit; any
    other character beyond ASCII becomes ["?"] (white space, which becomes a
    blank, is never left in a currency cell). *)
Definition ascii_of_digit (d : Z) : ascii := ascii_of_N (Z.to_N (48 + d)).

Definition transform_decimal (ch : string) : string :=
  match decimal (code_point ch) with
  | Some d => String (ascii_of_digit d) EmptyString
  | None =>
      match ch with
      | String c EmptyString => if (byte c <? 127)%Z then ch else "?"
      | _ => "?"
      end
  end.

Definition to_ascii_decimal (s : string) : string :=
  join (map transform_decimal (characters s)).

End Digits.

(** [s.str.replace(",", "")] on one text. *)
Definition strip_commas (s : string) : string :=
  filter_chars (fun c => negb (Ascii.eqb c ",")) s.

(** [lit in s] *)
Fixpoint contains (lit s : string) : bool :=
  String.prefix lit s ||
  match s with
  | EmptyString => false
  | String _ s' => contains lit s'
  end.

(** The alternatives of a pattern [a|b|c]. *)
Fixpoint alternatives_aux (acc : string) (pat : string) : list string :=
  match pat with
  | EmptyString => [acc]
  | String c pat' =>
      if Ascii.eqb c "|" then acc :: alternatives_aux EmptyString pat'
      else alternatives_aux (acc ++ String c EmptyString) pat'
  end.

Definition alternatives (pat : string) : list string :=
  alternatives_aux EmptyString pat.

(** [re.search(pat, s)] as a truth value, for the patterns of this program:
    alternations of literal texts, none with a metacharacter of its own. *)
Definition re_search (pat s : string) : bool :=
  existsb (fun lit => contains lit s) (alternatives pat).

(** The decimal value of a string of ASCII digits; [None] on anything else. *)
Fixpoint digits_value (acc : Z) (s : string) : option Z :=
  match s with
  | EmptyString => Some acc
  | String c s' =>
      if is_ascii_digit c
      then digits_value (10 * acc + (Z.of_nat (nat_of_ascii c) - 48)) s'
      else None
  end.

(** Splits at the first ["."], if there is one. *)
Fixpoint split_point (s : string) : string * option string :=
  match s with
  | EmptyString => (EmptyString, None)
  | String c s' =>
      if Ascii.eqb c "."
      then (EmptyString, Some s')
      else let '(i, f) := split_point s' in (String c i, f)
  end.

(** The binary64 value nearest to [m / 10^k] with sign [neg]: one correctly
    rounded division of the two integers. *)
Definition decimal_to_float (neg : bool) (m : Z) (k : nat) : float :=
  match m with
  | Zpos p =>
      let '(q, e, l) :=
        SFdiv_core_binary F64.prec F64.emax (Zpos p) 0 (10 ^ Z.of_nat k) 0 in
      binary_round_aux F64.prec F64.emax neg q e l
  | _ => S754_zero neg
  end.

(** The number that an ASCII text of digits, ["-"] and ["."] writes: an
    optional sign, then digits with at most one point and at least one
    digit. *)
Definition parse_decimal (s : string) : option float :=
  let '(neg, body) :=
    match s with
    | String "-" rest => (true, rest)
    | _ => (false, s)
    end in
  let '(int_part, frac) := split_point body in
  let frac_part := match frac with Some f => f | None => EmptyString end in
  match (String.length int_part + String.length frac_part)%nat with
  | O => None
  | _ =>
      match digits_value 0 (int_part ++ frac_part) with
      | Some m => Some (decimal_to_float neg m (String.length frac_part))
      | None => None
      end
  end.

(** Python's [float(s)] on a text made of decimal digits, ["-"] and ["."]
    (what is left of a currency cell). [None] stands for [ValueError]. *)
Definition python_float (digit_zeros : list Z) (s : string) : option float :=
  parse_decimal (to_ascii_decimal digit_zeros s).

(** ** Exceptions, diagnostics and the objects a call can change *)

Inductive Exn : Type :=
  | ValueError (msg : string)
  | KeyError (msg : string)
  | ImportError (msg : string)
  | OSError (msg : string).

(** [str(e)] *)
Definition str_exn (e : Exn) : string :=
  match e with
  | ValueError m | KeyError m | ImportError m | OSError m => m
  end.

(** What the program hands to the presentation layer. *)
Inductive Diagnostic : Type :=
  | st_error (msg : string)
  | st_warning (msg : string).

(** A column label: camelot numbers its columns, the normaliser names them. *)
Inductive Label : Type :=
  | LInt (n : nat)
  | LStr (s : string).

Definition Label_eqb (a b : Label) : bool :=
  match a, b with
  | LInt n, LInt m => Nat.eqb n m
  | LStr s, LStr t => String.eqb s t
  | _, _ => false
  end.

(** A raw table as the extractor produces it: a cell is a [str], or is
    missing ([None], NaN) where [pd.concat] had no value to put. A row
    shorter than the labels misses its last cells. *)
Record RawTable : Type := mkRaw {
  raw_columns : list Label;
  raw_rows : list (list (option string))
}.

Definition empty_RawTable : RawTable := mkRaw [] [].

Definition raw_empty (raw : RawTable) : bool :=
  match raw_columns raw, raw_rows raw with
  | [], _ => true
  | _, [] => true
  | _, _ => false
  end.

(** Cells of a DataFrame object that a callee may overwrite with dates. *)
Inductive Cell : Type :=
  | Str (s : string)
  | NaN
  | Datetime (t : option Timestamp).   (* [None] is [NaT] *)

Definition cell_of (c : option string) : Cell :=
  match c with
  | Some s => Str s
  | None => NaN
  end.

(** The DataFrame object itself, as the caller of a function sees it. *)
Record Frame : Type := mkFrame {
  labels : list Label;
  cells : list (list Cell)
}.

Definition frame_of_raw (raw : RawTable) : Frame :=
  mkFrame (raw_columns raw) (map (map cell_of) (raw_rows raw)).

(** The state a call can change: the DataFrame object bound to the
    parameter [raw_df] (shared with the caller), the messages sent to the
    user interface, and the temporary files that exist. *)
Record World : Type := mkWorld {
  arg : Frame;
  diagnostics : list Diagnostic;
  files : list string
}.

Definition with_arg (f : Frame) (w : World) : World :=
  mkWorld f (diagnostics w) (files w).

Definition with_files (fs : list string) (w : World) : World :=
  mkWorld (arg w) (diagnostics w) fs.

(** A computation of the program: it changes the world and either returns
    a value or raises. What was changed before a raise stays changed. *)
Definition Py (A : Type) : Type := World -> (Exn + A) * World.

Definition ret {A : Type} (a : A) : Py A := fun w => (inr a, w).

Definition raise {A : Type} (e : Exn) : Py A := fun w => (inl e, w).

Definition bind {A B : Type} (c : Py A) (k : A -> Py B) : Py B :=
  fun w =>
    match c w with
    | (inl e, w') => (inl e, w')
    | (inr a, w') => k a w'
    end.

(** [try: body except Exception as e: handler(e)] *)
Definition try_except {A : Type} (body : Py A) (handler : Exn -> Py A) : Py A :=
  fun w =>
    match body w with
    | (inl e, w') => handler e w'
    | (inr a, w') => (inr a, w')
    end.

(** [st.error(msg)], [st.warning(msg)] *)
Definition emit (d : Diagnostic) : Py unit :=
  fun w => (inr tt, mkWorld (arg w) (diagnostics w ++ [d]) (files w)).

Declare Scope py_scope.
Delimit Scope py_scope with py.
Notation "x <- c ;; k" := (bind c (fun x => k))
  (at level 61, c at next level, right associativity) : py_scope.
Notation "c ;;; k" := (bind c (fun _ => k))
  (at level 61, right associativity) : py_scope.

(** Decimal text of a natural number, as an f-string prints it. *)
Fixpoint nat_digits (fuel n : nat) (acc : string) : string :=
  match fuel with
  | O => acc
  | S fuel' =>
      let acc' := String (ascii_of_nat (48 + n mod 10)) acc in
      match n / 10 with
      | O => acc'
      | q => nat_digits fuel' q acc'
      end
  end.

Definition str_nat (n : nat) : string := nat_digits (S n) n EmptyString.

(** ** [process_transactions] *)

Definition canonical_names : list string :=
  ["Fecha"; "Descripción"; "Sucursal"; "Doc"; "Valor"; "Saldo"].

Definition derived_names : list string :=
  ["Categoría"; "Ingresos"; "Egresos"; "Flujo Neto"; "Saldo Acumulado"].

(** [raw_df.columns = names], on the caller's object: pandas checks the
    length before it changes anything. *)
Definition set_columns (names : list string) : Py unit :=
  fun w =>
    let n := List.length (labels (arg w)) in
    if Nat.eqb n (List.length names)
    then (inr tt, with_arg (mkFrame (map LStr names) (cells (arg w))) w)
    else (inl (ValueError ("Length mismatch: Expected axis has " ++ str_nat n
                           ++ " elements, new values have "
                           ++ str_nat (List.length names) ++ " elements")), w).

Fixpoint index_of (l : Label) (ls : list Label) : option nat :=
  match ls with
  | [] => None
  | l' :: ls' =>
      if Label_eqb l l' then Some O
      else match index_of l ls' with Some i => Some (S i) | None => None end
  end.

Fixpoint replace_nth {A : Type} (n : nat) (x : A) (l : list A) : list A :=
  match n, l with
  | _, [] => []
  | O, _ :: l' => x :: l'
  | S n', y :: l' => y :: replace_nth n' x l'
  end.

Fixpoint map2 {A B C : Type} (f : A -> B -> C) (la : list A) (lb : list B) : list C :=
  match la, lb with
  | a :: la', b :: lb' => f a b :: map2 f la' lb'
  | _, _ => []
  end.

(** [raw_df[name] = col], on the caller's object: the column is replaced
    where the label exists and appended where it does not. *)
Definition setitem (name : string) (col : list Cell) : Py unit :=
  fun w =>
    let f := arg w in
    match index_of (LStr name) (labels f) with
    | Some i =>
        (inr tt, with_arg (mkFrame (labels f)
                             (map2 (fun c row => replace_nth i c row) col (cells f))) w)
    | None =>
        (inr tt, with_arg (mkFrame (labels f ++ [LStr name])
                             (map2 (fun c row => row ++ [c]) col (cells f))) w)
    end.

(** The cell of a raw row in the column that now carries [name]. *)
Fixpoint position (name : string) (names : list string) : nat :=
  match names with
  | [] => O
  | n :: names' => if String.eqb name n then O else S (position name names')
  end.

Definition cell (row : list (option string)) (name : string) : option string :=
  nth (position name canonical_names) row None.

(** [pd.to_datetime(..., errors='coerce')] on one cell, given what it does
    on a text: a missing cell gives [NaT]. *)
Definition coerce_datetime (to_datetime : string -> option Timestamp) (c : option string)
  : option Timestamp :=
  match c with
  | Some s => to_datetime s
  | None => None
  end.

(** [str(x)] on a cell: a missing cell is the float NaN. *)
Definition str_cell (c : option string) : string :=
  match c with
  | Some s => s
  | None => "nan"
  end.

(** [raw_df.dropna(subset=["Fecha"])]: a new table of the rows with a date. *)
Fixpoint dropna (l : list (option Timestamp * list (option string)))
  : list (Timestamp * list (option string)) :=
  match l with
  | [] => []
  | (Some t, row) :: l' => (t, row) :: dropna l'
  | (None, _) :: l' => dropna l'
  end.

(** [col.astype(float)] on a column of texts: a missing cell gives NaN, and
    the first text that is not a number raises. *)
Fixpoint astype_float (digit_zeros : list Z) (col : list (option string))
  : Py (list float) :=
  match col with
  | [] => ret []
  | None :: col' => bind (astype_float digit_zeros col') (fun xs => ret (F64.nan :: xs))
  | Some s :: col' =>
      match python_float digit_zeros s with
      | None => raise (ValueError ("could not convert string to float: '" ++ s ++ "'"))
      | Some x => bind (astype_float digit_zeros col') (fun xs => ret (x :: xs))
      end
  end.

(** The ordered rule table (a [dict] keeps its insertion order). *)
Definition patterns : list (string * string) :=
  [ ("Ingresos", "PAGO INTERBANC|ABONO|DEPÓSITO|NÓMINA|TRANSFERENCIA A FAVOR");
    ("Egresos", "IMPUESTO|COMISIÓN|RETIRO|PAGO A PROVE|TRANSFERENCIA");
    ("Servicios", "CUOTA MANEJO|SEGUROS|TARJETA|AGUA|LUZ|GAS") ].

(** [next((k for k, v in table.items() if re.search(v, x)), default)] *)
Fixpoint first_match (table : list (string * string)) (default x : string) : string :=
  match table with
  | [] => default
  | (k, v) :: table' => if re_search v x then k else first_match table' default x
  end.

Definition categorize (x : string) : string := first_match patterns "Otros" x.

(** [np.where(v > 0, v, 0)] and [np.where(v < 0, abs(v), 0)] on one cell. *)
Definition inflow (v : float) : float :=
  if F64.gtb v F64.zero then v else F64.zero.

Definition outflow (v : float) : float :=
  if F64.ltb v F64.zero then F64.abs v else F64.zero.

(** [df.sort_values(key)]: rows in non-decreasing order of the key. The
    model is an insertion sort that keeps equal keys in their order; the
    properties proved below use only that the result is ordered and is a
    rearrangement of the rows. *)
Fixpoint insert_sorted {A : Type} (leb : A -> A -> bool) (x : A) (l : list A) : list A :=
  match l with
  | [] => [x]
  | y :: l' => if leb x y then x :: l else y :: insert_sorted leb x l'
  end.

Fixpoint sort_values {A : Type} (leb : A -> A -> bool) (l : list A) : list A :=
  match l with
  | [] => []
  | x :: l' => insert_sorted leb x (sort_values leb l')
  end.

Definition Fecha_leb (a b : Transaction) : bool := (Fecha a <=? Fecha b)%Z.

Fixpoint build_rows (kept : list (Timestamp * list (option string)))
         (valor saldo : list float) : list Transaction :=
  match kept, valor, saldo with
  | (t, row) :: kept', v :: valor', s :: saldo' =>
      mkTransaction t (cell row "Descripción") (cell row "Sucursal") (cell row "Doc")
        v s (categorize (str_cell (cell row "Descripción")))
        (inflow v) (outflow v) v s EmptyString
      :: build_rows kept' valor' saldo'
  | _, _, _ => []
  end.

Section Normalizer.

(** The zeros of the decimal digits of the interpreter beyond ASCII. *)
Variable digit_zeros : list Z.

(** [pd.to_datetime(x, dayfirst=True, errors='coerce')] on one text:
    the date, or [None] for [NaT]. *)
Variable to_datetime : string -> option Timestamp.

Local Open Scope py_scope.

(** [col.astype(str).str.replace(r"[^\d\-.,]", "", regex=True)
       .str.replace(",", "")] on one cell: a missing cell stays missing. *)
Definition replace_currency (c : option string) : option string :=
  option_map (fun s => strip_commas (strip_non_currency digit_zeros s)) c.

(** The body of the [try] block. *)
Definition process_body (raw : RawTable) : Py DataFrame :=
  set_columns canonical_names ;;;
  let fechas :=
    map (fun row => coerce_datetime to_datetime (cell row "Fecha")) (raw_rows raw) in
  setitem "Fecha" (map Datetime fechas) ;;;
  let kept := dropna (combine fechas (raw_rows raw)) in
  valor <- astype_float digit_zeros
             (map (fun r => replace_currency (cell (snd r) "Valor")) kept) ;;
  saldo <- astype_float digit_zeros
             (map (fun r => replace_currency (cell (snd r) "Saldo")) kept) ;;
  ret (mkDataFrame (canonical_names ++ derived_names)
         (sort_values Fecha_leb (build_rows kept valor saldo))).

Definition process_transactions (raw : RawTable) : Py DataFrame :=
  if raw_empty raw then ret empty_DataFrame
  else
    try_except (process_body raw)
      (fun e =>
         emit (st_error ("Error al procesar las transacciones: " ++ str_exn e)) ;;;
         ret empty_DataFrame).

(** A call [process_transactions(raw)]: the parameter is bound to the
    caller's object. *)
Definition call_process_transactions (raw : RawTable) : Py DataFrame :=
  fun w => process_transactions raw (with_arg (frame_of_raw raw) w).

End Normalizer.

(** ** A day-first date reader for cells written [dd/mm/yyyy] *)

(** Days from 1970-01-01 to the given day of the proleptic Gregorian
    calendar. *)
Definition days_from_civil (y m d : Z) : Z :=
  let y' := if (m <=? 2)%Z then (y - 1)%Z else y in
  let era := (y' / 400)%Z in
  let yoe := (y' - era * 400)%Z in
  let mp := if (m >? 2)%Z then (m - 3)%Z else (m + 9)%Z in
  let doy := ((153 * mp + 2) / 5 + d - 1)%Z in
  let doe := (yoe * 365 + yoe / 4 - yoe / 100 + doy)%Z in
  (era * 146097 + doe - 719468)%Z.

Definition is_leap (y : Z) : bool :=
  ((y mod 4 =? 0) && (negb (y mod 100 =? 0) || (y mod 400 =? 0)))%Z.

Definition days_in_month (y m : Z) : Z :=
  if (m =? 2)%Z then (if is_leap y then 29 else 28)%Z
  else if ((m =? 4) || (m =? 6) || (m =? 9) || (m =? 11))%Z then 30%Z
  else 31%Z.

(** Reads exactly [dd/mm/yyyy]; anything else is [NaT]. The result counts
    days, which orders timestamps as pandas does. *)
Definition parse_dmy (s : string) : option Timestamp :=
  match s with
  | String d1 (String d2 (String "/" (String m1 (String m2 (String "/" yyyy))))) =>
      match digits_value 0 (String d1 (String d2 EmptyString)),
            digits_value 0 (String m1 (String m2 EmptyString)),
            digits_value 0 yyyy with
      | Some d, Some m, Some y =>
          if (Nat.eqb (String.length yyyy) 4
              && (1 <=? m)%Z && (m <=? 12)%Z
              && (1 <=? d)%Z && (d <=? days_in_month y m)%Z)%bool
          then Some (days_from_civil y m d)
          else None
      | _, _, _ => None
      end
  | _ => None
  end.

(** ** [extract_bank_data] and [load_and_process_bank_statement] *)

(** What the surroundings of the program answer when it asks. *)
Record Env : Type := mkEnv {
  (** the name [tempfile.NamedTemporaryFile] picks, and whether creating
      the file fails *)
  tmp_name : string;
  create_tmp : option Exn;
  (** whether [tmp_file.write(uploaded_file.getvalue())] fails *)
  write_tmp : option Exn;
  (** whether [import camelot] fails *)
  import_camelot : option Exn;
  (** [[t.df for t in camelot.read_pdf(path, pages="all", ...)]] *)
  read_pdf : string -> Exn + list RawTable;
  (** [t.strftime("%B %Y")] and [t.strftime("%Y-%m-%d")] *)
  strftime_B_Y : Timestamp -> string;
  strftime_Y_m_d : Timestamp -> string
}.

Definition fail_if (o : option Exn) : Py unit :=
  match o with
  | Some e => raise e
  | None => ret tt
  end.

Definition lift {A : Type} (r : Exn + A) : Py A :=
  match r with
  | inl e => raise e
  | inr a => ret a
  end.

Definition mem_label (l : Label) (ls : list Label) : bool := existsb (Label_eqb l) ls.

(** Column labels of [pd.concat(tables)]: the union, by first appearance. *)
Fixpoint concat_columns (acc : list Label) (tables : list RawTable) : list Label :=
  match tables with
  | [] => acc
  | t :: tables' =>
      concat_columns
        (acc ++ filter (fun l => negb (mem_label l acc)) (raw_columns t)) tables'
  end.

(** A row of table [t] laid out on the columns [cols]; a column that [t]
    does not have gives a missing cell. *)
Definition reindex_row (cols : list Label) (t : RawTable) (row : list (option string))
  : list (option string) :=
  map (fun l => match index_of l (raw_columns t) with
                | Some i => nth i row None
                | None => None
                end) cols.

(** [pd.concat(tables)] *)
Definition pd_concat (tables : list RawTable) : RawTable :=
  let cols := concat_columns [] tables in
  mkRaw cols (flat_map (fun t => map (reindex_row cols t) (raw_rows t)) tables).

(** [s.str.contains(pat, na=False)] on one cell. *)
Definition str_contains (pat : string) (c : option string) : bool :=
  match c with
  | Some s => re_search pat s
  | None => false
  end.

(** [full_df[~full_df[0].str.contains("FECHA|DESCRIPCIÓN", na=False)]] *)
Definition drop_header_rows (full_df : RawTable) : Py RawTable :=
  match index_of (LInt 0) (raw_columns full_df) with
  | None => raise (KeyError "0")
  | Some i =>
      ret (mkRaw (raw_columns full_df)
             (filter (fun row => negb (str_contains "FECHA|DESCRIPCIÓN" (nth i row None)))
                (raw_rows full_df)))
  end.

(** [os.unlink(path)] *)
Definition os_unlink (path : string) : Py unit :=
  fun w =>
    if existsb (String.eqb path) (files w)
    then (inr tt, with_files (filter (fun p => negb (String.eqb path p)) (files w)) w)
    else (inl (OSError ("[Errno 2] No such file or directory: '" ++ path ++ "'")), w).

Section Loader.

Variable digit_zeros : list Z.
Variable to_datetime : string -> option Timestamp.
Variable env : Env.

Local Open Scope py_scope.

(** The [import camelot] statement stands before the [try]. *)
Definition extract_bank_data (pdf_path : string) : Py RawTable :=
  fail_if (import_camelot env) ;;;
  try_except
    (tables <- lift (read_pdf env pdf_path) ;;
     if (0 <? List.length tables)%nat
     then drop_header_rows (pd_concat tables)
     else
       emit (st_error "No se pudieron detectar tablas en el PDF. Intente con otro archivo.") ;;;
       ret empty_RawTable)
    (fun e =>
       emit (st_error ("Error al procesar el PDF: " ++ str_exn e)) ;;;
       ret empty_RawTable).

(** [with tempfile.NamedTemporaryFile(delete=False, suffix='.pdf') as f:
      f.write(uploaded_file.getvalue()); tmp_path = f.name]:
    once created the file stays, whatever the write does. *)
Definition write_temporary_file : Py string :=
  fail_if (create_tmp env) ;;;
  (fun w => (inr tt, with_files (tmp_name env :: files w) w)) ;;;
  fail_if (write_tmp env) ;;;
  ret (tmp_name env).

Definition add_FechaStr (df : DataFrame) : DataFrame :=
  mkDataFrame (columns df ++ ["FechaStr"])
    (map (fun r =>
            mkTransaction (Fecha r) (Descripcion r) (Sucursal r) (Doc r) (Valor r)
              (Saldo r) (Categoria r) (Ingresos r) (Egresos r) (Flujo_Neto r)
              (Saldo_Acumulado r) (strftime_Y_m_d env (Fecha r)))
         (rows df)).

(** [uploaded_file] is [None] or an upload (its bytes do not matter here). *)
Definition load_and_process_bank_statement (uploaded_file : option string)
  : Py (DataFrame * string) :=
  match uploaded_file with
  | None => ret (empty_DataFrame, EmptyString)
  | Some _ =>
      try_except
        (tmp_path <- write_temporary_file ;;
         raw_data <- extract_bank_data tmp_path ;;
         processed_data <- call_process_transactions digit_zeros to_datetime raw_data ;;
         os_unlink tmp_path ;;;
         if negb (empty processed_data)
         then
           let discrepancies := validate_balances processed_data in
           (if negb (empty discrepancies)
            then emit (st_warning ("Se encontraron "
                        ++ str_nat (List.length (rows discrepancies))
                        ++ " registros con discrepancias en saldos. Puede afectar la precisión del análisis."))
            else ret tt) ;;;
           let extracto_mes :=
             match has_column "Fecha" processed_data, rows processed_data with
             | true, r :: _ => strftime_B_Y env (Fecha r)
             | _, _ => "Desconocido"
             end in
           ret (add_FechaStr processed_data, extracto_mes)
         else
           emit (st_error "No se pudieron extraer datos válidos del extracto bancario.") ;;;
           ret (empty_DataFrame, EmptyString))
        (fun e =>
           emit (st_error ("Error procesando el extracto bancario: " ++ str_exn e)) ;;;
           ret (empty_DataFrame, EmptyString))
  end.

End Loader.

(** ** [cargar_datos_historicos] *)

(** A row of a snapshot file as [pd.read_csv] gives it: the three columns
    that identify a movement, and the other cells. [None] is an empty
    (NaN) cell. *)
Record CsvRow : Type := mkCsvRow {
  csv_Fecha : option string;
  csv_Valor : float;
  csv_Descripcion : option string;
  csv_rest : list string
}.

Record CsvTable : Type := mkCsvTable {
  csv_columns : list string;
  csv_rows : list CsvRow
}.

(** The same row once its date is a timestamp ([None] is [NaT]). *)
Record HistRow : Type := mkHistRow {
  hFecha : option Timestamp;
  hValor : float;
  hDescripcion : option string;
  hRest : list string
}.

Record HistTable : Type := mkHistTable {
  hist_columns : list string;
  hist_rows : list HistRow
}.

Definition empty_HistTable : HistTable := mkHistTable [] [].

Definition mem_string (s : string) (l : list string) : bool := existsb (String.eqb s) l.

(** [s.endswith(suffix)] *)
Definition endswith (s suffix : string) : bool :=
  let n := String.length s in
  let k := String.length suffix in
  (k <=? n)%nat && String.eqb (String.substring (n - k) k s) suffix.

(** Column labels of [pd.concat(all_dfs, ignore_index=True)]. *)
Fixpoint union_columns (acc : list string) (tables : list HistTable) : list string :=
  match tables with
  | [] => acc
  | t :: tables' =>
      union_columns
        (acc ++ filter (fun c => negb (mem_string c acc)) (hist_columns t)) tables'
  end.

(** A row of [t] in the concatenation: a key column that [t] lacks is NaN. *)
Definition reindex_hist (t : HistTable) (r : HistRow) : HistRow :=
  mkHistRow
    (if mem_string "Fecha" (hist_columns t) then hFecha r else None)
    (if mem_string "Valor" (hist_columns t) then hValor r else F64.nan)
    (if mem_string "Descripción" (hist_columns t) then hDescripcion r else None)
    (hRest r).

Definition concat_hist (tables : list HistTable) : HistTable :=
  mkHistTable (union_columns [] tables)
    (flat_map (fun t => map (reindex_hist t) (hist_rows t)) tables).

Definition option_eqb {A : Type} (eqb : A -> A -> bool) (a b : option A) : bool :=
  match a, b with
  | Some x, Some y => eqb x y
  | None, None => true
  | _, _ => false
  end.

(** Equality of float cells when pandas looks for duplicates: [==], and
    NaN equal to NaN. *)
Definition same_float (x y : float) : bool :=
  F64.eqb x y || (F64.isna x && F64.isna y).

(** Equality on the subset [["Fecha", "Valor", "Descripción"]]. *)
Definition same_key (a b : HistRow) : bool :=
  option_eqb Z.eqb (hFecha a) (hFecha b)
  && same_float (hValor a) (hValor b)
  && option_eqb String.eqb (hDescripcion a) (hDescripcion b).

(** [keep='first']: a row goes when an earlier row has its key. *)
Fixpoint drop_duplicates_from (seen : list HistRow) (l : list HistRow) : list HistRow :=
  match l with
  | [] => []
  | r :: l' =>
      if existsb (same_key r) seen
      then drop_duplicates_from seen l'
      else r :: drop_duplicates_from (r :: seen) l'
  end.

(** [df.drop_duplicates(subset=subset)]: a label of the subset that the
    table does not have raises. *)
Definition drop_duplicates (subset : list string) (df : HistTable) : Py HistTable :=
  match filter (fun c => negb (mem_string c (hist_columns df))) subset with
  | [] => ret (mkHistTable (hist_columns df) (drop_duplicates_from [] (hist_rows df)))
  | missing => raise (KeyError (String.concat ", " missing))
  end.

(** Order of [sort_values("Fecha")]: dates ascending, NaT last. *)
Definition hFecha_leb (a b : HistRow) : bool :=
  match hFecha a, hFecha b with
  | Some x, Some y => (x <=? y)%Z
  | _, None => true
  | None, Some _ => false
  end.

Fixpoint to_datetime_column (rd : string -> Exn + Timestamp) (rows : list CsvRow)
  : Py (list HistRow) :=
  match rows with
  | [] => ret []
  | r :: rows' =>
      bind (match csv_Fecha r with
            | None => ret None
            | Some s => bind (lift (rd s)) (fun t => ret (Some t))
            end)
        (fun t =>
           bind (to_datetime_column rd rows')
             (fun rs => ret (mkHistRow t (csv_Valor r) (csv_Descripcion r) (csv_rest r) :: rs)))
  end.

Section Historical.

(** [pd.to_datetime(x)] on one text cell: the date, or the exception. *)
Variable to_datetime_strict : string -> Exn + Timestamp.

(** The directory ["datos_bancarios"]: [None] when it does not exist,
    else its entries with what [pd.read_csv] does on each. *)
Variable datos_bancarios : option (list (string * (Exn + CsvTable))).

Local Open Scope py_scope.

(** One turn of the loop: the table to append, or nothing after a
    warning. *)
Definition load_snapshot (entry : string * (Exn + CsvTable)) : Py (option HistTable) :=
  let filename := ("datos_bancarios/" ++ fst entry)%string in
  try_except
    (df <- lift (snd entry) ;;
     rows <- (if mem_string "Fecha" (csv_columns df)
              then to_datetime_column to_datetime_strict (csv_rows df)
              else ret (map (fun r => mkHistRow None (csv_Valor r) (csv_Descripcion r)
                                        (csv_rest r)) (csv_rows df))) ;;
     ret (Some (mkHistTable (csv_columns df) rows)))
    (fun e =>
       emit (st_warning ("Error al cargar " ++ filename ++ ": " ++ str_exn e)) ;;;
       ret None).

Fixpoint load_snapshots (entries : list (string * (Exn + CsvTable))) : Py (list HistTable) :=
  match entries with
  | [] => ret []
  | entry :: entries' =>
      o <- load_snapshot entry ;;
      dfs <- load_snapshots entries' ;;
      ret (match o with Some df => df :: dfs | None => dfs end)
  end.

Definition cargar_datos_historicos : Py HistTable :=
  match datos_bancarios with
  | None => ret empty_HistTable
  | Some listing =>
      match filter (fun entry => endswith (fst entry) ".csv") listing with
      | [] => ret empty_HistTable
      | all_files =>
          all_dfs <- load_snapshots all_files ;;
          match all_dfs with
          | [] => ret empty_HistTable
          | _ =>
              combined_df <- drop_duplicates ["Fecha"; "Valor"; "Descripción"]
                               (concat_hist all_dfs) ;;
              ret (mkHistTable (hist_columns combined_df)
                     (sort_values hFecha_leb (hist_rows combined_df)))
          end
      end
  end.

End Historical.

(** ** The period filter of the dashboard *)

(** The options of the sidebar and the two tables of the filter. *)
Definition meses : list string :=
  ["Enero"; "Febrero"; "Marzo"; "Abril"; "Mayo"; "Junio";
   "Julio"; "Agosto"; "Septiembre"; "Octubre"; "Noviembre"; "Diciembre"].

Definition trimestres : list string :=
  ["1er Trimestre"; "2do Trimestre"; "3er Trimestre"; "4to Trimestre"].

Definition semestres : list string := ["1er Semestre"; "2do Semestre"].

Definition trimestre_map : list (string * list Z) :=
  [ ("1er Trimestre", [1; 2; 3]%Z);
    ("2do Trimestre", [4; 5; 6]%Z);
    ("3er Trimestre", [7; 8; 9]%Z);
    ("4to Trimestre", [10; 11; 12]%Z) ].

Definition semestre_map : list (string * list Z) :=
  [ ("1er Semestre", [1; 2; 3; 4; 5; 6]%Z);
    ("2do Semestre", [7; 8; 9; 10; 11; 12]%Z) ].

(** [l.index(x)]: the first position of [x], or [ValueError]. *)
Fixpoint list_index (x : string) (l : list string) : Exn + nat :=
  match l with
  | [] => inl (ValueError ("'" ++ x ++ "' is not in list"))
  | y :: l' =>
      if String.eqb x y then inr 0%nat
      else match list_index x l' with
           | inl e => inl e
           | inr i => inr (S i)
           end
  end.

(** [d[key]]: the value, or [KeyError]. *)
Fixpoint getitem (key : string) (d : list (string * list Z)) : Exn + list Z :=
  match d with
  | [] => inl (KeyError ("'" ++ key ++ "'"))
  | (k, v) :: d' => if String.eqb key k then inr v else getitem key d'
  end.

(** The truth value of a selection: [None] and the empty text are false. *)
Definition truthy (selection : option string) : bool :=
  match selection with
  | None => false
  | Some s => negb (String.eqb s EmptyString)
  end.

Definition selected (selection : option string) : string :=
  match selection with
  | None => EmptyString
  | Some s => s
  end.

Section PeriodFilter.

(** The rows of [df_dashboard] and their cell of "Fecha", which is a
    date or [NaT] after [pd.to_datetime(..., errors='coerce')]. *)
Variable Row : Type.
Variable Fecha_of : Row -> option Timestamp.

(** [.dt.month] and [.dt.year] on a date. On [NaT] both are NaN, and every
    comparison and [isin] with it is false. *)
Variable dt_month : Timestamp -> Z.
Variable dt_year : Timestamp -> Z.

Definition month_eq (mes_idx : Z) (r : Row) : bool :=
  match Fecha_of r with
  | Some t => Z.eqb (dt_month t) mes_idx
  | None => false
  end.

Definition month_isin (months : list Z) (r : Row) : bool :=
  match Fecha_of r with
  | Some t => existsb (Z.eqb (dt_month t)) months
  | None => false
  end.

Definition year_eq (anio : Z) (r : Row) : bool :=
  match Fecha_of r with
  | Some t => Z.eqb (dt_year t) anio
  | None => false
  end.

Definition df_filtrado (periodo_opcion : string)
           (mes_seleccionado trimestre_seleccionado semestre_seleccionado : option string)
           (anio_seleccionado : Z) (df_dashboard : list Row) : Exn + list Row :=
  if String.eqb periodo_opcion "Mes" && truthy mes_seleccionado then
    match list_index (selected mes_seleccionado) meses with
    | inl e => inl e
    | inr i =>
        let mes_idx := (Z.of_nat i + 1)%Z in
        inr (filter (fun r => month_eq mes_idx r && year_eq anio_seleccionado r) df_dashboard)
    end
  else if String.eqb periodo_opcion "Trimestre" && truthy trimestre_seleccionado then
    match getitem (selected trimestre_seleccionado) trimestre_map with
    | inl e => inl e
    | inr meses_trimestre =>
        inr (filter (fun r => month_isin meses_trimestre r && year_eq anio_seleccionado r)
               df_dashboard)
    end
  else if String.eqb periodo_opcion "Semestre" && truthy semestre_seleccionado then
    match getitem (selected semestre_seleccionado) semestre_map with
    | inl e => inl e
    | inr meses_semestre =>
        inr (filter (fun r => month_isin meses_semestre r && year_eq anio_seleccionado r)
               df_dashboard)
    end
  else
    inr (filter (year_eq anio_seleccionado) df_dashboard).

(** What the sidebar can ask for: a period and, with it, one selection;
    the other selections stay [None]. *)
Definition by_month (mes : string) : Z -> list Row -> Exn + list Row :=
  df_filtrado "Mes" (Some mes) None None.

Definition by_trimester (trimestre : string) : Z -> list Row -> Exn + list Row :=
  df_filtrado "Trimestre" None (Some trimestre) None.

Definition by_semester (semestre : string) : Z -> list Row -> Exn + list Row :=
  df_filtrado "Semestre" None None (Some semestre).

Definition whole_year : Z -> list Row -> Exn + list Row :=
  df_filtrado "Año completo" None None None.

End PeriodFilter.

Arguments month_eq {Row}.
Arguments month_isin {Row}.
Arguments year_eq {Row}.
Arguments df_filtrado {Row}.
Arguments by_month {Row}.
Arguments by_trimester {Row}.
Arguments by_semester {Row}.
Arguments whole_year {Row}.

(** ** Vocabulary of the properties *)

(** The rows of a list with their positions, and those whose position
    satisfies a test. *)
Definition indexed {A : Type} (l : list A) : list (nat * A) :=
  combine (seq 0 (List.length l)) l.

Definition rows_where {A : Type} (f : nat -> bool) (l : list A) : list A :=
  map snd (filter (fun p => f (fst p)) (indexed l)).

(** The recomputed balance of row [i],
    [cumsum(value)[i] + balance[0] - value[0]], and the stated one. *)
Definition recomputed (df : DataFrame) (i : nat) : float :=
  F64.sub
    (F64.add (nth i (cumsum (map Valor (rows df))) F64.nan)
             (iloc0 (map Saldo (rows df))))
    (iloc0 (map Valor (rows df))).

Definition stated (df : DataFrame) (i : nat) : float :=
  nth i (map Saldo (rows df)) F64.nan.

(** Row [i] is off by more than 1.0. *)
Definition off_balance (df : DataFrame) (i : nat) : bool :=
  F64.gtb (F64.abs (F64.sub (recomputed df i) (stated df i))) F64.one.

(** Every stated balance is the running balance:
    [balance[i] == balance[0] + cumsum(value)[i] - value[0]]. *)
Definition consistent (df : DataFrame) : Prop :=
  forall i, (i < List.length (rows df))%nat ->
    F64.eqb (stated df i)
      (F64.sub
         (F64.add (iloc0 (map Saldo (rows df)))
                  (nth i (cumsum (map Valor (rows df))) F64.nan))
         (iloc0 (map Valor (rows df)))) = true.

Definition set_Saldo (b : float) (r : Transaction) : Transaction :=
  mkTransaction (Fecha r) (Descripcion r) (Sucursal r) (Doc r) (Valor r) b
    (Categoria r) (Ingresos r) (Egresos r) (Flujo_Neto r) (Saldo_Acumulado r)
    (FechaStr r).

Fixpoint update_nth {A : Type} (i : nat) (f : A -> A) (l : list A) : list A :=
  match i, l with
  | _, [] => []
  | O, x :: l' => f x :: l'
  | S i', x :: l' => x :: update_nth i' f l'
  end.

(** The table with the stated balance of row [i] replaced by [b]. *)
Definition perturb (df : DataFrame) (i : nat) (b : float) : DataFrame :=
  mkDataFrame (columns df) (update_nth i (set_Saldo b) (rows df)).

(** A table row with the given amount and balance (whole numbers). *)
Definition movement (v s : Z) : Transaction :=
  mkTransaction 0%Z None None None (F64.of_Z v) (F64.of_Z s)
    EmptyString (inflow (F64.of_Z v)) (outflow (F64.of_Z v)) (F64.of_Z v) (F64.of_Z s)
    EmptyString.

(** [lit] occurs in [s]. *)
Definition occurs_in (lit s : string) : Prop :=
  exists pre post : string, s = (pre ++ lit ++ post)%string.

(** The rows that keep a date, with it: what [dropna] leaves. *)
Definition dated_rows (to_datetime : string -> option Timestamp) (raw : RawTable)
  : list (Timestamp * list (option string)) :=
  dropna (combine (map (fun row => coerce_datetime to_datetime (cell row "Fecha"))
                     (raw_rows raw))
            (raw_rows raw)).

(** A currency cell once the characters outside [[\d\-.,]] and the commas
    are gone. *)
Definition currency_text (digit_zeros : list Z) (name : string) (row : list (option string))
  : option string :=
  option_map (fun s => strip_commas (strip_non_currency digit_zeros s)) (cell row name).





(** The float that [astype(float)] makes of a cell of texts: NaN when the
    cell is missing; [None] when it raises. *)
Definition float_cell (digit_zeros : list Z) (c : option string) : option float :=
  match c with
  | Some s => python_float digit_zeros s
  | None => Some F64.nan
  end.

(** The cells of a raw row by their place: date, description, branch,
    document, value, balance. *)
Definition raw_cell (i : nat) (row : list (option string)) : option string :=
  nth i row None.

(** The row has a date: its first cell is a text that reads as one. *)
Definition has_date (to_datetime : string -> option Timestamp) (row : list (option string))
  : bool :=
  match raw_cell 0 row with
  | Some s => match to_datetime s with Some _ => true | None => false end
  | None => false
  end.

(** The amount that a cell writes: what is left of its text once
    everything but digits, ["-"] and ["."] is gone, read as a decimal. *)
Definition written_amount (digit_zeros : list Z) (c : option string) : option float :=
  match c with
  | Some s => python_float digit_zeros (strip_commas (strip_non_currency digit_zeros s))
  | None => None
  end.

(** A valid six-column raw table: not empty, six columns, and the value
    and balance of every row that has a date are written amounts. *)
Definition valid_six_columns (digit_zeros : list Z)
           (to_datetime : string -> option Timestamp) (raw : RawTable) : Prop :=
  raw_empty raw = false
  /\ List.length (raw_columns raw) = 6%nat
  /\ forall row, In row (raw_rows raw) -> has_date to_datetime row = true ->
       written_amount digit_zeros (raw_cell 4 row) <> None
       /\ written_amount digit_zeros (raw_cell 5 row) <> None.

(** The float that [astype(float)] makes of a cell: NaN when the cell is
    missing, else its written amount; [None] when it raises. *)
Definition converted_amount (digit_zeros : list Z) (c : option string) : option float :=
  match c with
  | Some _ => written_amount digit_zeros c
  | None => Some F64.nan
  end.

(** A six-column raw table on which no conversion fails: the value and
    balance of every row that has a date are missing or written amounts. *)
Definition convertible_six_columns (digit_zeros : list Z)
           (to_datetime : string -> option Timestamp) (raw : RawTable) : Prop :=
  List.length (raw_columns raw) = 6%nat
  /\ forall row, In row (raw_rows raw) -> has_date to_datetime row = true ->
       converted_amount digit_zeros (raw_cell 4 row) <> None
       /\ converted_amount digit_zeros (raw_cell 5 row) <> None.

(** The caller's table after a call that got past the renaming: the six
    names as labels, the first cell of each row parsed, the rest as it was. *)
Definition frame_after (to_datetime : string -> option Timestamp) (raw : RawTable) : Frame :=
  mkFrame (map LStr canonical_names)
    (map (fun row => match row with
                     | [] => []
                     | c :: rest =>
                         Datetime (coerce_datetime to_datetime c) :: map cell_of rest
                     end) (raw_rows raw)).

(** [inflow - outflow == net_flow], with the three derived from [value]. *)
Definition flow_invariant (r : Transaction) : Prop :=
  Ingresos r = inflow (Valor r)
  /\ Egresos r = outflow (Valor r)
  /\ Flujo_Neto r = Valor r
  /\ F64.eqb (F64.sub (Ingresos r) (Egresos r)) (Flujo_Neto r) = true.

Definition Fecha_le (a b : Transaction) : Prop := (Fecha a <= Fecha b)%Z.

(** The message of the handler of [process_transactions]. *)
Definition processing_error (e : Exn) : Diagnostic :=
  st_error ("Error al procesar las transacciones: " ++ str_exn e).

(** A row of texts, none missing. *)
Definition texts (l : list string) : list (option string) := map Some l.

(** The raw table of the end-to-end scenario, as camelot labels it. *)
Definition scenario : RawTable :=
  mkRaw [LInt 0; LInt 1; LInt 2; LInt 3; LInt 4; LInt 5]
    [ texts ["01/01/2024"; "ABONO X"; ""; ""; "100,00"; "1.000,00"];
      texts ["02/01/2024"; "COMISIÓN Y"; ""; ""; "-50,00"; "950,00"] ].

(** A raw table with five columns. *)
Definition five_columns : RawTable :=
  mkRaw [LInt 0; LInt 1; LInt 2; LInt 3; LInt 4]
    [ texts ["01/01/2024"; "ABONO X"; ""; ""; "100,00"] ].

(** The zeros of the decimal digits beyond ASCII in version 14.0 of the
    Unicode database (CPython 3.11): from ARABIC-INDIC DIGIT ZERO (U+0660)
    to SEGMENTED DIGIT ZERO (U+1FBF0). *)
Definition digit_zeros_14_0 : list Z :=
  [ 1632; 1776; 1984; 2406; 2534; 2662; 2790; 2918; 3046; 3174; 3302; 3430;
    3558; 3664; 3792; 3872; 4160; 4240; 6112; 6160; 6470; 6608; 6784; 6800;
    6992; 7088; 7232; 7248; 42528; 43216; 43264; 43472; 43504; 43600; 44016;
    65296; 66720; 68912; 69734; 69872; 69942; 70096; 70384; 70736; 70864;
    71248; 71360; 71472; 71904; 72016; 72784; 73040; 73120; 92768; 92864;
    93008; 120782; 120792; 120802; 120812; 120822; 123200; 123632; 125264;
    130032 ]%Z.

(** A world with nothing in it yet. *)
Definition initial_world : World := mkWorld (mkFrame [] []) [] [].

(** The month and the year of a day count, by the inverse of
    [days_from_civil]. *)
Definition civil_from_days (z : Z) : Z * Z * Z :=
  let z' := (z + 719468)%Z in
  let era := (z' / 146097)%Z in
  let doe := (z' - era * 146097)%Z in
  let yoe := ((doe - doe / 1460 + doe / 36524 - doe / 146096) / 365)%Z in
  let doy := (doe - (365 * yoe + yoe / 4 - yoe / 100))%Z in
  let mp := ((5 * doy + 2) / 153)%Z in
  let d := (doy - (153 * mp + 2) / 5 + 1)%Z in
  let m := if (mp <? 10)%Z then (mp + 3)%Z else (mp - 9)%Z in
  let y := (yoe + era * 400)%Z in
  ((if (m <=? 2)%Z then y + 1 else y)%Z, m, d).

Definition month_of_days (z : Z) : Z := snd (fst (civil_from_days z)).

Definition year_of_days (z : Z) : Z := fst (fst (civil_from_days z)).

(** [t.strftime("%Y-%m-%d")] and [t.strftime("%B %Y")] on a day count, in
    the C locale. *)
Definition zero_padded (width : nat) (n : Z) : string :=
  let digits := str_nat (Z.to_nat n) in
  (fix pad (k : nat) : string :=
     match k with
     | O => digits
     | S k' => String "0" (pad k')
     end) (width - String.length digits)%nat.

Definition day_of_days (z : Z) : Z := snd (civil_from_days z).

Definition month_names : list string :=
  ["January"; "February"; "March"; "April"; "May"; "June"; "July"; "August";
   "September"; "October"; "November"; "December"].

Definition strftime_iso (t : Timestamp) : string :=
  zero_padded 4 (year_of_days t) ++ "-" ++ zero_padded 2 (month_of_days t)
  ++ "-" ++ zero_padded 2 (day_of_days t).

Definition strftime_month_year (t : Timestamp) : string :=
  nth (Z.to_nat (month_of_days t - 1)) month_names EmptyString
  ++ " " ++ zero_padded 4 (year_of_days t).

(** Surroundings in which the upload is written but [import camelot]
    fails, and surroundings in which writing the upload fails (disk full).
    Everything else works. *)
Definition env_without_camelot : Env :=
  mkEnv "/tmp/tmpk3x9a1.pdf" None None
    (Some (ImportError "No module named 'camelot'"))
    (fun _ => inr []) strftime_month_year strftime_iso.

Definition env_disk_full : Env :=
  mkEnv "/tmp/tmpk3x9a1.pdf" None
    (Some (OSError "[Errno 28] No space left on device")) None
    (fun _ => inr []) strftime_month_year strftime_iso.



(** A strict reader of dates written [yyyy-mm-dd], as a saved table has
    them, and two snapshot files that share one movement. *)
Definition parse_iso (s : string) : option Timestamp :=
  match s with
  | String y1 (String y2 (String y3 (String y4 (String "-"
      (String m1 (String m2 (String "-" (String d1 (String d2 EmptyString))))))))) =>
      match digits_value 0 (String y1 (String y2 (String y3 (String y4 EmptyString)))),
            digits_value 0 (String m1 (String m2 EmptyString)),
            digits_value 0 (String d1 (String d2 EmptyString)) with
      | Some y, Some m, Some d =>
          if ((1 <=? m)%Z && (m <=? 12)%Z
              && (1 <=? d)%Z && (d <=? days_in_month y m)%Z)%bool
          then Some (days_from_civil y m d)
          else None
      | _, _, _ => None
      end
  | _ => None
  end.

Definition strict_iso (s : string) : Exn + Timestamp :=
  match parse_iso s with
  | Some t => inr t
  | None => inl (ValueError ("Unknown datetime string format, unable to parse: " ++ s))
  end.



(** The texts of the three rules, and a description that has one of them. *)
Definition income_words : list string :=
  ["PAGO INTERBANC"; "ABONO"; "DEPÓSITO"; "NÓMINA"; "TRANSFERENCIA A FAVOR"].

Definition expense_words : list string :=
  ["IMPUESTO"; "COMISIÓN"; "RETIRO"; "PAGO A PROVE"; "TRANSFERENCIA"].

Definition service_words : list string :=
  ["CUOTA MANEJO"; "SEGUROS"; "TARJETA"; "AGUA"; "LUZ"; "GAS"].

Definition mentions (words : list string) (x : string) : Prop :=
  exists lit, In lit words /\ occurs_in lit x.

(** The movement that a raw row stands for: its date, its texts as they
    are, its two amounts converted, and what is derived from them; [None]
    when the row has no date or an amount does not convert. *)
Definition transaction_of (digit_zeros : list Z) (to_datetime : string -> option Timestamp)
           (row : list (option string)) : option Transaction :=
  match coerce_datetime to_datetime (raw_cell 0 row),
        converted_amount digit_zeros (raw_cell 4 row),
        converted_amount digit_zeros (raw_cell 5 row) with
  | Some t, Some v, Some s =>
      Some (mkTransaction t (raw_cell 1 row) (raw_cell 2 row) (raw_cell 3 row) v s
              (categorize (str_cell (raw_cell 1 row)))
              (if F64.gtb v F64.zero then v else F64.zero)
              (if F64.ltb v F64.zero then F64.abs v else F64.zero)
              v s EmptyString)
  | _, _, _ => None
  end.

(** A raw table whose first row has a date and a text without any digit
    as its amount. *)
Definition amount_not_a_number : RawTable :=
  mkRaw [LInt 0; LInt 1; LInt 2; LInt 3; LInt 4; LInt 5]
    [ texts ["01/01/2024"; "ABONO X"; ""; ""; "N/A"; "1,000.00"];
      texts ["SALDO ANTERIOR"; ""; ""; ""; "sin dato"; "sin dato"] ].

(** A raw table with a row that has no date and a row, of a narrower
    page, whose last four cells are missing. *)
Definition page_with_gaps : RawTable :=
  mkRaw [LInt 0; LInt 1; LInt 2; LInt 3; LInt 4; LInt 5]
    [ texts ["02/01/2024"; "COMISIÓN Y"; ""; ""; "-50.00"; "950.00"];
      texts ["SALDO ANTERIOR"; ""; ""; ""; ""; ""];
      [Some "01/01/2024"; Some "ABONO X"; None; None; None; None] ].

(** A page whose first row repeats the header of the statement. *)
Definition page_with_header : RawTable :=
  mkRaw [LInt 0; LInt 1; LInt 2; LInt 3; LInt 4; LInt 5]
    [ texts ["FECHA"; "DESCRIPCIÓN"; "SUCURSAL"; "DCTO."; "VALOR"; "SALDO"];
      texts ["31/12/2023"; "RETIRO CAJERO"; ""; ""; "-200.00"; "900.00"] ].

(** Surroundings in which everything works: the PDF has one table (the
    scenario), or two pages. *)
Definition env_ok : Env :=
  mkEnv "/tmp/tmpk3x9a1.pdf" None None None
    (fun _ => inr [scenario]) strftime_month_year strftime_iso.

Definition env_two_pages : Env :=
  mkEnv "/tmp/tmpk3x9a1.pdf" None None None
    (fun _ => inr [page_with_header; scenario]) strftime_month_year strftime_iso.

(** The normalised table of the scenario, with the day-first reader. *)
Definition scenario_table : DataFrame :=
  match fst (call_process_transactions digit_zeros_14_0 parse_dmy scenario initial_world) with
  | inr df => df
  | inl _ => empty_DataFrame
  end.

(** A snapshot directory whose only file has no "Valor" column. *)
Definition snapshot_without_value : list (string * (Exn + CsvTable)) :=
  [ ("enero.csv",
     inr (mkCsvTable ["Fecha"; "Descripción"]
            [ mkCsvRow (Some "2024-01-01") F64.nan (Some "ABONO X") [] ])) ].

(** A history with rows of four months of 2024, one of 2023 and one
    without a date. *)
Definition history_rows : list HistRow :=
  [ mkHistRow (Some 19417%Z) (F64.of_Z 10) (Some "ABONO A") [];
    mkHistRow (Some 19737%Z) (F64.of_Z 100) (Some "ABONO X") [];
    mkHistRow (Some 19763%Z) (F64.of_Z (-50)) (Some "COMISIÓN Y") [];
    mkHistRow None (F64.of_Z 5) (Some "SIN FECHA") [];
    mkHistRow (Some 19846%Z) (F64.of_Z 70) (Some "ABONO Z") [];
    mkHistRow (Some 19955%Z) (F64.of_Z (-20)) (Some "RETIRO W") [] ].

(** The warning of the historical loader for a file that cannot be read,
    and a directory where no table can. *)
Definition unreadable_warning (entry : string * (Exn + CsvTable)) : Diagnostic :=
  st_warning ("Error al cargar " ++ ("datos_bancarios/" ++ fst entry) ++ ": "
              ++ match snd entry with
                 | inl e => str_exn e
                 | inr _ => EmptyString
                 end).

Definition unreadable_listing : list (string * (Exn + CsvTable)) :=
  [ ("enero.csv", inl (OSError "No columns to parse from file"));
    ("notas.txt", inl (OSError "not a table"));
    ("leeme.md", inr (mkCsvTable ["Fecha"] []));
    ("febrero.csv", inl (ValueError "Error tokenizing data")) ].

(** * Properties *)

(** ** Facts of binary64 arithmetic *)

Module F64Facts.

Lemma add_comm (x y : float) : F64.add x y = F64.add y x.
Proof.
  unfold F64.add, SFadd.
  destruct x as [sx|sx| |sx mx ex], y as [sy|sy| |sy my ey];
    try reflexivity; try (destruct sx, sy; reflexivity).
  rewrite (Z.min_comm ex ey). rewrite Z.add_comm. reflexivity.
Qed.

Lemma binary_round_aux_opp (s : bool) (m e : Z) (l : location) :
  binary_round_aux F64.prec F64.emax (negb s) m e l
  = SFopp (binary_round_aux F64.prec F64.emax s m e l).
Proof.
  unfold binary_round_aux.
  destruct (shr_fexp F64.prec F64.emax m e l) as [mrs' e'].
  destruct (shr_fexp F64.prec F64.emax _ e' loc_Exact) as [mrs'' e''].
  destruct (shr_m mrs''); try reflexivity.
  destruct (Z.leb e'' (F64.emax - F64.prec)); reflexivity.
Qed.

Lemma binary_round_opp (s : bool) (m : positive) (e : Z) :
  binary_round F64.prec F64.emax (negb s) m e
  = SFopp (binary_round F64.prec F64.emax s m e).
Proof.
  unfold binary_round.
  destruct (shl_align m e _) as [mz ez].
  apply binary_round_aux_opp.
Qed.

Lemma abs_opp (x : float) : F64.abs (SFopp x) = F64.abs x.
Proof. destruct x; reflexivity. Qed.

Lemma binary_normalize_abs_opp (z e : Z) :
  F64.abs (binary_normalize F64.prec F64.emax (- z) e false)
  = F64.abs (binary_normalize F64.prec F64.emax z e false).
Proof.
  destruct z as [|p|p]; simpl Z.opp; unfold binary_normalize.
  - reflexivity.
  - rewrite (binary_round_opp false). apply abs_opp.
  - rewrite (binary_round_opp false). symmetry. apply abs_opp.
Qed.

(** [|x - y| = |y - x|]: rounding to nearest is symmetric. *)
Lemma abs_sub_sym (x y : float) : F64.abs (F64.sub x y) = F64.abs (F64.sub y x).
Proof.
  unfold F64.sub, SFsub.
  destruct x as [sx|sx| |sx mx ex], y as [sy|sy| |sy my ey];
    try reflexivity; try (destruct sx, sy; reflexivity).
  rewrite (Z.min_comm ey ex).
  rewrite <- binary_normalize_abs_opp.
  rewrite Z.opp_sub_distr, Z.add_comm, Z.add_opp_r. reflexivity.
Qed.

Lemma compare_cont_Eq_iff (p q : positive) :
  Pos.compare_cont Eq p q = Eq <-> p = q.
Proof. apply Pos.compare_eq_iff. Qed.

Lemma compare_finite_Eq (s1 : bool) (m1 : positive) (e1 : Z)
      (s2 : bool) (m2 : positive) (e2 : Z) :
  SFcompare (S754_finite s1 m1 e1) (S754_finite s2 m2 e2) = Some Eq
  <-> (s1 = s2 /\ m1 = m2 /\ e1 = e2).
Proof.
  simpl. split.
  - intros H. injection H as H.
    destruct s1, s2; try discriminate;
      destruct (Z.compare_spec e1 e2) as [He|He|He]; try discriminate;
      destruct (Pos.compare_cont Eq m1 m2) eqn:Hc; try discriminate;
      apply compare_cont_Eq_iff in Hc; auto.
  - intros [-> [-> ->]]. rewrite Z.compare_refl.
    rewrite (proj2 (compare_cont_Eq_iff m2 m2) eq_refl).
    destruct s2; reflexivity.
Qed.

(** [x == y] holds exactly between non-NaN values with the same key. *)
Lemma eqb_true_iff (x y : float) :
  F64.eqb x y = true <-> (F64.isna x = false /\ F64.float_key x = F64.float_key y).
Proof.
  unfold F64.eqb, SFeqb.
  destruct x as [sx|sx| |sx mx ex], y as [sy|sy| |sy my ey];
    try (simpl; try destruct sx; try destruct sy; simpl;
         (split; [ try discriminate; intros _; split; reflexivity
                 | intros [H1 H2]; try discriminate; reflexivity ])).
  split.
  - intros H. destruct (SFcompare _ _) as [[| |]|] eqn:Hc; try discriminate.
    apply compare_finite_Eq in Hc. destruct Hc as [-> [-> ->]].
    split; reflexivity.
  - intros [_ H]. simpl in H. injection H as -> -> ->.
    rewrite (proj2 (compare_finite_Eq sy my ey sy my ey)); auto.
Qed.

Lemma eqb_refl (x : float) : F64.isna x = false -> F64.eqb x x = true.
Proof. intros H. apply eqb_true_iff. split; [exact H | reflexivity]. Qed.

(** Subtraction sees a zero of either sign alike, up to the sign of a
    zero result. *)
Lemma abs_sub_key_r (z x y : float) :
  F64.float_key x = F64.float_key y -> F64.abs (F64.sub z x) = F64.abs (F64.sub z y).
Proof.
  intros H. destruct x as [sx|sx| |sx mx ex], y as [sy|sy| |sy my ey];
    simpl in H; try discriminate; try (injection H as -> -> ->); try (injection H as ->);
    try reflexivity.
  destruct z as [sz|sz| |sz mz ez]; try reflexivity.
  destruct sz, sx, sy; reflexivity.
Qed.

Lemma abs_sub_key_l (z x y : float) :
  F64.float_key x = F64.float_key y -> F64.abs (F64.sub x z) = F64.abs (F64.sub y z).
Proof.
  intros H. rewrite (abs_sub_sym x z), (abs_sub_sym y z). apply abs_sub_key_r, H.
Qed.

(** A float is never more than 1 away from itself: the difference is a
    zero, or NaN at an infinity. *)
Lemma sub_self_small (x : float) :
  F64.gtb (F64.abs (F64.sub x x)) F64.one = false.
Proof.
  destruct x as [sx|sx| |sx mx ex];
    try reflexivity; try (destruct sx; reflexivity).
  unfold F64.sub, SFsub. cbv beta iota zeta. rewrite Z.sub_diag. reflexivity.
Qed.

Lemma eqb_sub_small (x y : float) :
  F64.eqb x y = true -> F64.gtb (F64.abs (F64.sub x y)) F64.one = false.
Proof.
  intros H. apply eqb_true_iff in H. destruct H as [_ H].
  rewrite <- (abs_sub_key_r x x y H). apply sub_self_small.
Qed.

Lemma gtb_nan_l (y : float) : F64.gtb F64.nan y = false.
Proof. destruct y; reflexivity. Qed.

End F64Facts.

(** ** Lists: masks and positions *)

Section ListFacts.

Context {A : Type}.

Lemma boolean_index_shift (f : nat -> bool) (l : list A) :
  forall (mask : list bool) (k : nat),
    List.length mask = List.length l ->
    (forall i, (i < List.length l)%nat -> nth i mask false = f (k + i)%nat) ->
    boolean_index l mask
    = map snd (filter (fun p => f (fst p)) (combine (seq k (List.length l)) l)).
Proof.
  induction l as [|x l IH]; intros mask k Hlen Hf.
  - reflexivity.
  - destruct mask as [|m mask]; [discriminate|].
    simpl in Hlen. injection Hlen as Hlen.
    assert (Hm : m = f k).
    { specialize (Hf O (Nat.lt_0_succ _)). simpl in Hf.
      rewrite Nat.add_0_r in Hf. exact Hf. }
    assert (Htl : boolean_index l mask
                  = map snd (filter (fun p => f (fst p))
                               (combine (seq (S k) (List.length l)) l))).
    { apply IH; [exact Hlen|].
      intros i Hi. specialize (Hf (S i)). simpl in Hf.
      rewrite Nat.add_succ_r in Hf. apply Hf. simpl. lia. }
    simpl. rewrite <- Hm. destruct m; simpl; rewrite Htl; reflexivity.
Qed.

Lemma boolean_index_rows_where (f : nat -> bool) (l : list A) (mask : list bool) :
  List.length mask = List.length l ->
  (forall i, (i < List.length l)%nat -> nth i mask false = f i) ->
  boolean_index l mask = rows_where f l.
Proof.
  intros Hlen Hf. unfold rows_where, indexed.
  apply boolean_index_shift; assumption.
Qed.

Lemma filter_combine_seq_nil (f : nat -> bool) (l : list A) :
  forall k,
    (forall i, (i < List.length l)%nat -> f (k + i)%nat = false) ->
    filter (fun p => f (fst p)) (combine (seq k (List.length l)) l) = [].
Proof.
  induction l as [|x l IH]; intros k Hf.
  - reflexivity.
  - simpl. pose proof (Hf O (Nat.lt_0_succ _)) as H0.
    rewrite Nat.add_0_r in H0. rewrite H0.
    apply IH. intros i Hi. specialize (Hf (S i)).
    rewrite Nat.add_succ_r in Hf. apply Hf. simpl. lia.
Qed.

Lemma rows_where_nil (f : nat -> bool) (l : list A) :
  (forall i, (i < List.length l)%nat -> f i = false) -> rows_where f l = [].
Proof.
  intros Hf. unfold rows_where, indexed.
  rewrite (filter_combine_seq_nil f l O Hf). reflexivity.
Qed.

Lemma in_combine_seq (l : list A) :
  forall k i x, nth_error l i = Some x -> In ((k + i)%nat, x) (combine (seq k (List.length l)) l).
Proof.
  induction l as [|y l IH]; intros k i x H.
  - destruct i; discriminate.
  - destruct i as [|i]; simpl in H.
    + injection H as ->. left. rewrite Nat.add_0_r. reflexivity.
    + right. rewrite Nat.add_succ_r. apply (IH (S k) i x H).
Qed.

Lemma rows_where_in (f : nat -> bool) (l : list A) (i : nat) (x : A) :
  nth_error l i = Some x -> f i = true -> In x (rows_where f l).
Proof.
  intros Hx Hf. unfold rows_where, indexed.
  apply (in_map snd _ (i, x)). apply filter_In. split.
  - apply (in_combine_seq l O i x Hx).
  - exact Hf.
Qed.

(** Selecting among the rows after the first. *)
Lemma rows_where_cons_false (f : nat -> bool) (x : A) (l : list A) :
  f O = false -> rows_where f (x :: l) = rows_where (fun i => f (S i)) l.
Proof.
  intros H0. unfold rows_where, indexed. simpl. rewrite H0.
  rewrite <- seq_shift.
  generalize (seq 0 (List.length l)). intros s. revert s.
  induction l as [|y l IH]; intros [|n s]; try reflexivity.
  simpl. destruct (f (S n)); simpl; rewrite IH; reflexivity.
Qed.

Lemma update_nth_length (i : nat) (g : A -> A) (l : list A) :
  List.length (update_nth i g l) = List.length l.
Proof.
  revert i. induction l as [|x l IH]; intros [|i]; simpl; try reflexivity.
  rewrite IH. reflexivity.
Qed.

Lemma update_nth_nth_error (i : nat) (g : A -> A) (l : list A) (x : A) :
  nth_error l i = Some x -> nth_error (update_nth i g l) i = Some (g x).
Proof.
  revert i. induction l as [|y l IH]; intros [|i] H; simpl in *; try discriminate.
  - injection H as ->. reflexivity.
  - apply IH, H.
Qed.

Lemma map_update_nth_same {B : Type} (h : A -> B) (i : nat) (g : A -> A) (l : list A) :
  (forall x, h (g x) = h x) -> map h (update_nth i g l) = map h l.
Proof.
  intros Hg. revert i. induction l as [|y l IH]; intros [|i]; simpl; try reflexivity.
  - rewrite Hg. reflexivity.
  - rewrite IH. reflexivity.
Qed.

End ListFacts.

(** ** [validate_balances] *)

Lemma mask_where_length (mask : list bool) (v : float) (l : list float) :
  List.length mask = List.length l -> List.length (mask_where mask v l) = List.length l.
Proof.
  revert l. induction mask as [|m mask IH]; intros [|x l] H; simpl in *; try discriminate.
  - reflexivity.
  - injection H as H. rewrite IH; auto.
Qed.

Lemma np_cumsum_from_length (l : list float) :
  forall acc, List.length (np_cumsum_from acc l) = List.length l.
Proof.
  induction l as [|x l IH]; intros acc; simpl; [reflexivity | rewrite IH; reflexivity].
Qed.

Lemma np_cumsum_length (l : list float) : List.length (np_cumsum l) = List.length l.
Proof. destruct l; simpl; [reflexivity | rewrite np_cumsum_from_length; reflexivity]. Qed.

Lemma cumsum_length (l : list float) : List.length (cumsum l) = List.length l.
Proof.
  unfold cumsum.
  rewrite mask_where_length; rewrite np_cumsum_length, mask_where_length;
    try reflexivity; apply length_map.
Qed.

(** The running sum starts at the first value. *)
Lemma cumsum_head (v : float) (l : list float) : nth 0 (cumsum (v :: l)) F64.nan = v.
Proof. destruct v; reflexivity. Qed.

Lemma exceeds_length (calc saldo : list float) :
  List.length calc = List.length saldo ->
  List.length (exceeds calc saldo) = List.length saldo.
Proof.
  revert saldo. induction calc as [|c calc IH]; intros [|s saldo] H; simpl in *;
    try discriminate; try reflexivity.
  injection H as H. rewrite IH; auto.
Qed.

Lemma exceeds_nth (calc saldo : list float) :
  List.length calc = List.length saldo ->
  forall i, (i < List.length saldo)%nat ->
    nth i (exceeds calc saldo) false
    = F64.gtb (F64.abs (F64.sub (nth i calc F64.nan) (nth i saldo F64.nan))) F64.one.
Proof.
  revert saldo. induction calc as [|c calc IH]; intros [|s saldo] H i Hi; simpl in *;
    try discriminate; try lia.
  injection H as H. destruct i as [|i]; [reflexivity|].
  apply IH; [exact H | lia].
Qed.

Lemma calculated_length (df : DataFrame) :
  List.length (calculated df) = List.length (rows df).
Proof. unfold calculated. rewrite length_map, cumsum_length, length_map. reflexivity. Qed.

Lemma calculated_nth (df : DataFrame) (i : nat) :
  (i < List.length (rows df))%nat -> nth i (calculated df) F64.nan = recomputed df i.
Proof.
  intros Hi. unfold calculated, recomputed.
  set (g := fun c => F64.sub (F64.add c _) _).
  rewrite (nth_indep _ F64.nan (g F64.nan)).
  - rewrite map_nth. reflexivity.
  - rewrite length_map, cumsum_length, length_map. exact Hi.
Qed.

Lemma discrepancy_mask_length (df : DataFrame) :
  List.length (discrepancy_mask df) = List.length (rows df).
Proof.
  unfold discrepancy_mask.
  rewrite exceeds_length; rewrite ?calculated_length, length_map; reflexivity.
Qed.

Lemma discrepancy_mask_nth (df : DataFrame) (i : nat) :
  (i < List.length (rows df))%nat ->
  nth i (discrepancy_mask df) false = off_balance df i.
Proof.
  intros Hi. unfold discrepancy_mask, off_balance, stated.
  rewrite exceeds_nth.
  - rewrite calculated_nth by exact Hi. reflexivity.
  - rewrite calculated_length, length_map. reflexivity.
  - rewrite length_map. exact Hi.
Qed.

(** What [validate_balances] returns once its guard is passed. *)
Lemma validate_balances_rows (df : DataFrame) :
  empty df = false -> has_column "Valor" df = true -> has_column "Saldo" df = true ->
  validate_balances df = mkDataFrame (columns df) (rows_where (off_balance df) (rows df)).
Proof.
  intros He Hv Hs. unfold validate_balances. rewrite He, Hv, Hs. simpl.
  f_equal. apply boolean_index_rows_where.
  - apply discrepancy_mask_length.
  - apply discrepancy_mask_nth.
Qed.

Lemma consistent_off_balance (df : DataFrame) (i : nat) :
  consistent df -> (i < List.length (rows df))%nat -> off_balance df i = false.
Proof.
  intros Hc Hi. specialize (Hc i Hi). rewrite F64Facts.add_comm in Hc.
  fold (recomputed df i) in Hc.
  unfold off_balance. rewrite F64Facts.abs_sub_sym.
  apply F64Facts.eqb_sub_small, Hc.
Qed.

Lemma perturb_empty (df : DataFrame) (i : nat) (b : float) :
  empty (perturb df i b) = empty df.
Proof.
  unfold empty, perturb. simpl. destruct (columns df) as [|c cs]; [reflexivity|].
  destruct (rows df) as [|r l]; destruct i; reflexivity.
Qed.

Lemma perturb_recomputed (df : DataFrame) (i j : nat) (b : float) :
  (0 < i)%nat -> recomputed (perturb df i b) j = recomputed df j.
Proof.
  intros Hi. unfold recomputed, perturb. simpl.
  rewrite (map_update_nth_same Valor) by reflexivity.
  f_equal. f_equal.
  destruct (rows df) as [|r l]; [destruct i; reflexivity|].
  destruct i as [|i]; [lia | reflexivity].
Qed.

Lemma perturb_stated (df : DataFrame) (i : nat) (b : float) :
  (i < List.length (rows df))%nat -> stated (perturb df i b) i = b.
Proof.
  unfold stated, perturb. simpl. generalize (rows df). intros l. revert i.
  induction l as [|r l IH]; intros [|i] Hi; simpl in *; try lia; try reflexivity.
  apply IH. lia.
Qed.

(** A consistent two-row table: 1000 after +100, then 950 after -50. *)
Lemma two_movements_consistent :
  consistent (mkDataFrame ["Valor"; "Saldo"] [movement 100 1000; movement (-50) 950]).
Proof.
  intros i Hi. destruct i as [|[|i]]; [reflexivity | reflexivity | simpl in Hi; lia].
Qed.

(** C1 as stated fails where the balance perturbed is the first one: the
    first balance is the anchor of the recomputation, so moving it from
    1000 to 1005 leaves row 0 unreported and reports only row 1, whose
    own balance was not touched. *)
Lemma perturbing_first_balance_not_reported :
  let df := mkDataFrame ["Valor"; "Saldo"] [movement 100 1000; movement (-50) 950] in
  let df' := perturb df 0 (F64.of_Z 1005) in
  rows (validate_balances df) = []
  /\ F64.gtb (F64.abs (F64.sub (F64.of_Z 1005) (stated df 0))) F64.one = true
  /\ nth_error (rows df') 0 = Some (set_Saldo (F64.of_Z 1005) (movement 100 1000))
  /\ rows (validate_balances df') = [movement (-50) 950]
  /\ ~ In (set_Saldo (F64.of_Z 1005) (movement 100 1000)) (rows (validate_balances df')).
Proof.
  cbv zeta.
  assert (H : rows (validate_balances
                      (perturb (mkDataFrame ["Valor"; "Saldo"]
                                  [movement 100 1000; movement (-50) 950])
                         0 (F64.of_Z 1005)))
              = [movement (-50) 950]) by (vm_compute; reflexivity).
  split; [vm_compute; reflexivity |].
  split; [vm_compute; reflexivity |].
  split; [vm_compute; reflexivity |].
  split; [exact H |].
  rewrite H. intros [E | E]; [| exact E].
  vm_compute in E. discriminate E.
Qed.

(** C1 (amended): for a non-empty table with the value and balance
    columns, [validate_balances] returns exactly the rows at whose index [i]
    the recomputed balance [cumsum(value)[i] + balance[0] - value[0]] and the
    stated [balance[i]] differ by more than 1.0; when every stated balance
    equals the running balance the result is empty; and then replacing the
    balance of a row other than the first by one more than 1.0 away makes
    that row appear in the result. *)
Theorem validate_balances_discrepancies (df : DataFrame) :
  empty df = false ->
  has_column "Valor" df = true ->
  has_column "Saldo" df = true ->
  validate_balances df = mkDataFrame (columns df) (rows_where (off_balance df) (rows df))
  /\ (consistent df -> rows (validate_balances df) = [])
  /\ (forall (i : nat) (b' : float) (r : Transaction),
        consistent df ->
        (0 < i)%nat ->
        nth_error (rows df) i = Some r ->
        F64.gtb (F64.abs (F64.sub b' (stated df i))) F64.one = true ->
        nth_error (rows (perturb df i b')) i = Some (set_Saldo b' r)
        /\ off_balance (perturb df i b') i = true
        /\ In (set_Saldo b' r) (rows (validate_balances (perturb df i b')))).
Proof.
  intros He Hv Hs. split; [| split].
  - apply validate_balances_rows; assumption.
  - intros Hc. rewrite validate_balances_rows by assumption. simpl.
    apply rows_where_nil. intros i Hi. apply consistent_off_balance; assumption.
  - intros i b' r Hc Hpos Hr Hb.
    assert (Hi : (i < List.length (rows df))%nat).
    { apply nth_error_Some. rewrite Hr. discriminate. }
    assert (Hrow : nth_error (rows (perturb df i b')) i = Some (set_Saldo b' r)).
    { unfold perturb. simpl. apply update_nth_nth_error, Hr. }
    assert (Hoff : off_balance (perturb df i b') i = true).
    { unfold off_balance.
      rewrite perturb_recomputed by exact Hpos.
      rewrite perturb_stated by exact Hi.
      rewrite F64Facts.abs_sub_sym.
      pose proof (Hc i Hi) as Hci. rewrite F64Facts.add_comm in Hci.
      fold (recomputed df i) in Hci.
      apply F64Facts.eqb_true_iff in Hci. destruct Hci as [_ Hk].
      rewrite <- (F64Facts.abs_sub_key_r b' _ _ Hk). exact Hb. }
    split; [exact Hrow | split; [exact Hoff |]].
    rewrite validate_balances_rows.
    + simpl. apply (rows_where_in _ _ i); assumption.
    + rewrite perturb_empty. exact He.
    + exact Hv.
    + exact Hs.
Qed.

Lemma validate_balances_discrepancies_witness :
  let df := mkDataFrame ["Valor"; "Saldo"] [movement 100 1000; movement (-50) 950] in
  rows (validate_balances df) = []
  /\ In (set_Saldo (F64.of_Z 960) (movement (-50) 950))
        (rows (validate_balances (perturb df 1 (F64.of_Z 960)))).
Proof.
  cbv zeta.
  destruct (validate_balances_discrepancies
              (mkDataFrame ["Valor"; "Saldo"] [movement 100 1000; movement (-50) 950])
              eq_refl eq_refl eq_refl) as [_ [Hnil Hper]].
  split.
  - apply Hnil, two_movements_consistent.
  - apply (Hper 1%nat (F64.of_Z 960) (movement (-50) 950)).
    + apply two_movements_consistent.
    + lia.
    + reflexivity.
    + reflexivity.
Defined.

(** C10 as stated fails in binary64: with the amount 10^17 and the balance
    3 the sum [value[0] + balance[0]] rounds back to 10^17, the recomputed
    balance is 0.0, and the first (and only) row is reported. *)
Lemma first_row_reported_after_rounding :
  let df := mkDataFrame ["Valor"; "Saldo"] [movement 100000000000000000 3] in
  empty df = false
  /\ has_column "Valor" df = true
  /\ has_column "Saldo" df = true
  /\ recomputed df 0 = F64.zero
  /\ discrepancy_mask df = [true]
  /\ rows (validate_balances df) = [movement 100000000000000000 3].
Proof. cbv zeta. repeat split; reflexivity. Qed.

(** C10 (amended): for a non-empty table with the value and balance
    columns, the first row is reported exactly when the binary64 value of
    [(value[0] + balance[0]) - value[0]] is more than 1.0 away from
    [balance[0]]; whenever that recomputation gives back [balance[0]] (no
    rounding loss) the first row is not in the result, which is then made of
    later rows only. *)
Theorem first_row_discrepancy (df : DataFrame) (r : Transaction) (rest : list Transaction) :
  empty df = false ->
  has_column "Valor" df = true ->
  has_column "Saldo" df = true ->
  rows df = r :: rest ->
  off_balance df 0
  = F64.gtb (F64.abs (F64.sub (F64.sub (F64.add (Valor r) (Saldo r)) (Valor r)) (Saldo r)))
      F64.one
  /\ nth 0 (discrepancy_mask df) false = off_balance df 0
  /\ (F64.eqb (F64.sub (F64.add (Valor r) (Saldo r)) (Valor r)) (Saldo r) = true ->
      off_balance df 0 = false
      /\ rows (validate_balances df) = rows_where (fun i => off_balance df (S i)) rest).
Proof.
  intros He Hv Hs Hrows.
  assert (H0 : off_balance df 0
               = F64.gtb (F64.abs (F64.sub (F64.sub (F64.add (Valor r) (Saldo r)) (Valor r))
                                     (Saldo r))) F64.one).
  { unfold off_balance, recomputed, stated. rewrite Hrows. simpl map.
    rewrite cumsum_head. reflexivity. }
  split; [exact H0 | split].
  - apply discrepancy_mask_nth. rewrite Hrows. simpl. lia.
  - intros Hex.
    assert (Hf : off_balance df 0 = false).
    { rewrite H0. apply F64Facts.eqb_sub_small, Hex. }
    split; [exact Hf |].
    rewrite validate_balances_rows by assumption. simpl. rewrite Hrows.
    apply rows_where_cons_false, Hf.
Qed.

Lemma first_row_discrepancy_witness :
  let df := mkDataFrame ["Valor"; "Saldo"] [movement 100 1000; movement (-50) 950] in
  off_balance df 0 = false
  /\ rows (validate_balances df) = rows_where (fun i => off_balance df (S i)) [movement (-50) 950].
Proof.
  cbv zeta.
  destruct (first_row_discrepancy
              (mkDataFrame ["Valor"; "Saldo"] [movement 100 1000; movement (-50) 950])
              (movement 100 1000) [movement (-50) 950]
              eq_refl eq_refl eq_refl eq_refl) as [_ [_ H]].
  apply H. reflexivity.
Defined.

(** ** Categories *)

Lemma prefix_true_iff (lit s : string) :
  String.prefix lit s = true <-> exists post, s = (lit ++ post)%string.
Proof.
  revert s. induction lit as [|c lit IH]; intros s.
  - split; [intros _; exists s; reflexivity | intros _; destruct s; reflexivity].
  - destruct s as [|c' s]; simpl.
    + split; [discriminate | intros [post H]; discriminate].
    + destruct (Ascii.ascii_dec c c') as [->|Hne].
      * rewrite IH. split; intros [post H]; exists post.
        -- rewrite H. reflexivity.
        -- injection H as H. exact H.
      * split; [discriminate | intros [post H]; injection H as H _; congruence].
Qed.

Lemma contains_true_iff (lit s : string) :
  contains lit s = true <-> occurs_in lit s.
Proof.
  unfold occurs_in. induction s as [|c s IH].
  - cbn [contains]. rewrite orb_false_r, prefix_true_iff. split.
    + intros [post H]. exists EmptyString, post. exact H.
    + intros [pre [post H]]. destruct pre as [|c pre]; [|discriminate].
      exists post. exact H.
  - cbn [contains]. rewrite orb_true_iff, prefix_true_iff, IH. split.
    + intros [[post H] | [pre [post H]]].
      * exists EmptyString, post. exact H.
      * exists (String c pre), post. rewrite H. reflexivity.
    + intros [pre [post H]]. destruct pre as [|c' pre].
      * left. exists post. exact H.
      * right. injection H as _ H. exists pre, post. exact H.
Qed.

Lemma re_search_true_iff (pat s : string) :
  re_search pat s = true <-> exists lit, In lit (alternatives pat) /\ occurs_in lit s.
Proof.
  unfold re_search. rewrite existsb_exists.
  split; intros [lit [Hin H]]; exists lit; (split; [exact Hin |]);
    apply contains_true_iff; exact H.
Qed.

(** First match wins: a rule applies when it matches and no earlier rule
    does. *)
Lemma first_match_at (pre post : list (string * string)) (k v default x : string) :
  (forall kv, In kv pre -> re_search (snd kv) x = false) ->
  re_search v x = true ->
  first_match (pre ++ (k, v) :: post) default x = k.
Proof.
  intros Hpre Hv. induction pre as [|[k' v'] pre IH]; simpl.
  - rewrite Hv. reflexivity.
  - pose proof (Hpre (k', v') (or_introl eq_refl)) as H. cbn [snd] in H.
    rewrite H. apply IH.
    intros kv Hin. apply Hpre. right. exact Hin.
Qed.

Lemma first_match_none (table : list (string * string)) (default x : string) :
  (forall kv, In kv table -> re_search (snd kv) x = false) ->
  first_match table default x = default.
Proof.
  intros H. induction table as [|[k v] table IH]; simpl; [reflexivity|].
  pose proof (H (k, v) (or_introl eq_refl)) as Hk. cbn [snd] in Hk.
  rewrite Hk. apply IH.
  intros kv Hin. apply H. right. exact Hin.
Qed.

(** C3: categorisation is first-match-wins over the ordered rules
    Ingresos (Income), Egresos (Expense), Servicios (Services): a rule
    gives the category when it matches and no earlier rule does; so a
    description in which "TRANSFERENCIA A FAVOR" occurs is Income, the
    description "TRANSFERENCIA BANCARIA" is Expense, as is every description
    in which "TRANSFERENCIA" occurs and no Income text does, and a
    description that no rule matches is Otros (Other). *)
Theorem categorize_first_match_wins (x : string) :
  (forall pre post k v,
      patterns = pre ++ (k, v) :: post ->
      (forall kv, In kv pre -> re_search (snd kv) x = false) ->
      re_search v x = true ->
      categorize x = k)
  /\ (occurs_in "TRANSFERENCIA A FAVOR" x -> categorize x = "Ingresos")
  /\ categorize "TRANSFERENCIA BANCARIA" = "Egresos"
  /\ (occurs_in "TRANSFERENCIA" x ->
      (forall lit, In lit ["PAGO INTERBANC"; "ABONO"; "DEPÓSITO"; "NÓMINA";
                           "TRANSFERENCIA A FAVOR"] -> ~ occurs_in lit x) ->
      categorize x = "Egresos")
  /\ ((forall kv, In kv patterns -> re_search (snd kv) x = false) ->
      categorize x = "Otros").
Proof.
  split; [| split; [| split; [| split]]].
  - intros pre post k v Hp Hpre Hv. unfold categorize. rewrite Hp.
    apply first_match_at; assumption.
  - intros H. unfold categorize, patterns.
    apply (first_match_at [] _ "Ingresos"); [intros kv [] |].
    apply re_search_true_iff. exists "TRANSFERENCIA A FAVOR".
    split; [| exact H]. vm_compute. tauto.
  - reflexivity.
  - intros H Hno. unfold categorize, patterns.
    apply (first_match_at [(_, _)] _ "Egresos").
    + intros kv [<- | []]. cbn [snd].
      destruct (re_search _ x) eqn:Hs; [| reflexivity].
      apply re_search_true_iff in Hs. destruct Hs as [lit [Hin Hocc]].
      exfalso. apply (Hno lit); [| exact Hocc].
      vm_compute in Hin. exact Hin.
    + apply re_search_true_iff. exists "TRANSFERENCIA".
      split; [| exact H]. vm_compute. tauto.
  - intros H. apply first_match_none, H.
Qed.

(** ** [sort_values]: ordered, and a rearrangement *)

Section SortValues.

Context {A : Type}.
Variable leb : A -> A -> bool.
Hypothesis leb_total : forall a b, leb a b = true \/ leb b a = true.

Let le (a b : A) : Prop := leb a b = true.

Lemma insert_sorted_Permutation (x : A) (l : list A) :
  Permutation (x :: l) (insert_sorted leb x l).
Proof.
  induction l as [|y l IH]; simpl.
  - apply Permutation_refl.
  - destruct (leb x y).
    + apply Permutation_refl.
    + apply perm_trans with (y :: x :: l); [apply perm_swap |].
      apply perm_skip, IH.
Qed.

Lemma sort_values_Permutation (l : list A) : Permutation l (sort_values leb l).
Proof.
  induction l as [|x l IH]; simpl.
  - apply perm_nil.
  - apply perm_trans with (x :: sort_values leb l).
    + apply perm_skip, IH.
    + apply insert_sorted_Permutation.
Qed.

Lemma insert_sorted_HdRel (a x : A) (l : list A) :
  le a x -> HdRel le a l -> HdRel le a (insert_sorted leb x l).
Proof.
  intros Hax Hl. destruct l as [|y l]; simpl.
  - constructor. exact Hax.
  - destruct (leb x y); constructor; [exact Hax |].
    inversion Hl; assumption.
Qed.

Lemma insert_sorted_Sorted (x : A) (l : list A) :
  Sorted le l -> Sorted le (insert_sorted leb x l).
Proof.
  induction l as [|y l IH]; intros Hs; simpl.
  - repeat constructor.
  - destruct (leb x y) eqn:Hxy.
    + constructor; [exact Hs | constructor; exact Hxy].
    + inversion Hs as [|? ? Hs' Hhd]; subst.
      constructor; [apply IH, Hs' |].
      apply insert_sorted_HdRel; [| exact Hhd].
      destruct (leb_total x y) as [H | H]; [congruence | exact H].
Qed.

Lemma sort_values_Sorted (l : list A) : Sorted le (sort_values leb l).
Proof.
  induction l as [|x l IH]; simpl.
  - constructor.
  - apply insert_sorted_Sorted, IH.
Qed.

End SortValues.

Lemma sort_values_Fecha (l : list Transaction) :
  StronglySorted Fecha_le (sort_values Fecha_leb l).
Proof.
  apply Sorted_StronglySorted.
  - intros a b c Hab Hbc. unfold Fecha_le in *. lia.
  - pose proof (sort_values_Sorted Fecha_leb) as H.
    assert (Htot : forall a b, Fecha_leb a b = true \/ Fecha_leb b a = true).
    { intros a b. unfold Fecha_leb. lia. }
    specialize (H Htot l).
    eapply Sorted_ind with (P := fun l => Sorted Fecha_le l); [constructor | | exact H].
    intros a l' _ IH Hhd. constructor; [exact IH |].
    destruct Hhd as [|b l'' Hab]; constructor.
    unfold Fecha_le, Fecha_leb in *. lia.
Qed.

(** ** [float()] never gives NaN *)

Lemma shr_1_nonneg (mrs : shr_record) :
  (0 <= shr_m mrs)%Z -> (0 <= shr_m (shr_1 mrs))%Z.
Proof.
  destruct mrs as [m r s]. simpl. intros H.
  destruct m as [|[p|p|]|p]; simpl; lia.
Qed.

Lemma iter_pos_shr_1_nonneg (p : positive) :
  forall mrs, (0 <= shr_m mrs)%Z -> (0 <= shr_m (iter_pos shr_1 p mrs))%Z.
Proof.
  induction p as [p IH|p IH|]; intros mrs H; simpl.
  - apply IH, IH, shr_1_nonneg, H.
  - apply IH, IH, H.
  - apply shr_1_nonneg, H.
Qed.

Lemma shr_fexp_nonneg (m e : Z) (l : location) :
  (0 <= m)%Z -> (0 <= shr_m (fst (shr_fexp F64.prec F64.emax m e l)))%Z.
Proof.
  intros H. unfold shr_fexp, shr.
  assert (H0 : (0 <= shr_m (shr_record_of_loc m l))%Z).
  { destruct l as [|[| |]]; exact H. }
  destruct (_ - e)%Z; simpl; try exact H0.
  apply iter_pos_shr_1_nonneg, H0.
Qed.

Lemma round_nearest_even_nonneg (m : Z) (l : location) :
  (0 <= m)%Z -> (0 <= round_nearest_even m l)%Z.
Proof.
  intros H. destruct l as [|[| |]]; simpl; try lia.
  destruct (Z.even m); lia.
Qed.

Lemma binary_round_aux_not_nan (s : bool) (m e : Z) (l : location) :
  (0 <= m)%Z -> F64.isna (binary_round_aux F64.prec F64.emax s m e l) = false.
Proof.
  intros H. unfold binary_round_aux.
  pose proof (shr_fexp_nonneg m e l H) as H1.
  destruct (shr_fexp F64.prec F64.emax m e l) as [mrs' e']. simpl in H1.
  pose proof (shr_fexp_nonneg _ e' loc_Exact
                (round_nearest_even_nonneg _ (loc_of_shr_record mrs') H1)) as H2.
  destruct (shr_fexp F64.prec F64.emax _ e' loc_Exact) as [mrs'' e'']. simpl in H2.
  destruct (shr_m mrs'') as [|p|p]; try reflexivity; [| lia].
  destruct (Z.leb e'' _); reflexivity.
Qed.

Lemma decimal_to_float_not_nan (neg : bool) (m : Z) (k : nat) :
  F64.isna (decimal_to_float neg m k) = false.
Proof.
  unfold decimal_to_float. destruct m as [|p|p]; try reflexivity.
  unfold SFdiv_core_binary.
  set (m' := match _ with Zpos _ => _ | Z0 => _ | Zneg _ => _ end).
  assert (Hm' : (0 <= m')%Z).
  { subst m'. destruct (_ - _ - _)%Z; try lia.
    apply Z.shiftl_nonneg. lia. }
  pose proof (Z_div_mod m' (10 ^ Z.of_nat k)) as Hdiv.
  assert (Hpos : (10 ^ Z.of_nat k > 0)%Z).
  { apply Z.lt_gt, Z.pow_pos_nonneg; lia. }
  specialize (Hdiv Hpos).
  destruct (Z.div_eucl m' (10 ^ Z.of_nat k)) as [q r].
  apply binary_round_aux_not_nan. nia.
Qed.

Lemma parse_decimal_not_nan (s : string) (x : float) :
  parse_decimal s = Some x -> F64.isna x = false.
Proof.
  unfold parse_decimal.
  destruct (match s with String "-" rest => (true, rest) | _ => (false, s) end) as [neg body].
  destruct (split_point body) as [int_part frac].
  destruct (_ + _)%nat; [discriminate |].
  destruct (digits_value 0 _) as [m|]; [| discriminate].
  intros H. injection H as <-. apply decimal_to_float_not_nan.
Qed.

Lemma python_float_not_nan (digit_zeros : list Z) (s : string) (x : float) :
  python_float digit_zeros s = Some x -> F64.isna x = false.
Proof. apply parse_decimal_not_nan. Qed.

(** [inflow - outflow == value] for every value that is not NaN. *)
Lemma inflow_minus_outflow (v : float) :
  F64.isna v = false -> F64.eqb (F64.sub (inflow v) (outflow v)) v = true.
Proof.
  intros Hv. destruct v as [s|s| |s m e]; try discriminate.
  - destruct s; reflexivity.
  - destruct s; reflexivity.
  - destruct s.
    + change (F64.eqb (S754_finite true m e) (S754_finite true m e) = true).
      apply F64Facts.eqb_refl. reflexivity.
    + change (F64.eqb (S754_finite false m e) (S754_finite false m e) = true).
      apply F64Facts.eqb_refl. reflexivity.
Qed.

(** ** [process_transactions] *)

(** [astype(float)] leaves the world alone; it returns the floats of all
    the cells, or raises at the first text that is not a number. *)
Lemma astype_float_inr (digit_zeros : list Z) (col : list (option string)) :
  forall w xs w',
    astype_float digit_zeros col w = (inr xs, w') ->
    w' = w /\ Forall2 (fun c x => float_cell digit_zeros c = Some x) col xs.
Proof.
  induction col as [|c col IH]; intros w xs w' H; simpl in H.
  - injection H as <- <-. split; [reflexivity | constructor].
  - destruct c as [s|].
    + destruct (python_float digit_zeros s) as [x|] eqn:Hs; [| discriminate].
      unfold bind in H.
      destruct (astype_float digit_zeros col w) as [[e|ys] w1] eqn:Hc; [discriminate |].
      injection H as <- <-. destruct (IH w ys w1 Hc) as [-> HF].
      split; [reflexivity | constructor; assumption].
    + unfold bind in H.
      destruct (astype_float digit_zeros col w) as [[e|ys] w1] eqn:Hc; [discriminate |].
      injection H as <- <-. destruct (IH w ys w1 Hc) as [-> HF].
      split; [reflexivity | constructor; [reflexivity | assumption]].
Qed.

Lemma astype_float_inl (digit_zeros : list Z) (col : list (option string)) :
  forall w e w',
    astype_float digit_zeros col w = (inl e, w') ->
    w' = w /\ exists s, In (Some s) col /\ python_float digit_zeros s = None
                        /\ e = ValueError ("could not convert string to float: '" ++ s ++ "'").
Proof.
  induction col as [|c col IH]; intros w e w' H; simpl in H.
  - discriminate.
  - destruct c as [s|].
    + destruct (python_float digit_zeros s) as [x|] eqn:Hs.
      * unfold bind in H.
        destruct (astype_float digit_zeros col w) as [[e1|ys] w1] eqn:Hc; [| discriminate].
        injection H as <- <-. destruct (IH w e1 w1 Hc) as [-> [s' [Hin [Hn He]]]].
        split; [reflexivity |]. exists s'. split; [right; exact Hin | split; assumption].
      * injection H as <- <-. split; [reflexivity |].
        exists s. split; [left; reflexivity | split; [exact Hs | reflexivity]].
    + unfold bind in H.
      destruct (astype_float digit_zeros col w) as [[e1|ys] w1] eqn:Hc; [| discriminate].
      injection H as <- <-. destruct (IH w e1 w1 Hc) as [-> [s' [Hin [Hn He]]]].
      split; [reflexivity |]. exists s'. split; [right; exact Hin | split; assumption].
Qed.

Lemma Forall2_map_left {A B C : Type} (f : A -> B) (P : B -> C -> Prop)
      (l : list A) (l' : list C) :
  Forall2 P (map f l) l' -> Forall2 (fun a c => P (f a) c) l l'.
Proof.
  revert l'. induction l as [|a l IH]; intros l' H; inversion H; subst; constructor.
  - assumption.
  - apply IH. assumption.
Qed.

(** The cell of the column "Valor" is the fifth of the row, that of
    "Saldo" the sixth, and what [astype(float)] makes of them. *)
Lemma float_cell_Valor (digit_zeros : list Z) (row : list (option string)) :
  float_cell digit_zeros (currency_text digit_zeros "Valor" row)
  = converted_amount digit_zeros (raw_cell 4 row).
Proof.
  unfold currency_text, converted_amount, written_amount, raw_cell.
  change (cell row "Valor") with (nth 4 row None).
  destruct (nth 4 row None); reflexivity.
Qed.

Lemma float_cell_Saldo (digit_zeros : list Z) (row : list (option string)) :
  float_cell digit_zeros (currency_text digit_zeros "Saldo" row)
  = converted_amount digit_zeros (raw_cell 5 row).
Proof.
  unfold currency_text, converted_amount, written_amount, raw_cell.
  change (cell row "Saldo") with (nth 5 row None).
  destruct (nth 5 row None); reflexivity.
Qed.

(** What [dropna] leaves: the rows that have a date, in their order, each
    with its date. *)
Lemma dated_rows_rows (to_datetime : string -> option Timestamp) (raw : RawTable) :
  map snd (dated_rows to_datetime raw) = filter (has_date to_datetime) (raw_rows raw).
Proof.
  unfold dated_rows. generalize (raw_rows raw). intros rs.
  induction rs as [|row rs IH]; [reflexivity |].
  cbn [map combine filter]. unfold has_date at 1.
  change (cell row "Fecha") with (raw_cell 0 row).
  unfold coerce_datetime at 1.
  destruct (raw_cell 0 row) as [s|]; [destruct (to_datetime s) |];
    cbn [dropna map snd]; rewrite IH; reflexivity.
Qed.

Lemma dated_rows_in (to_datetime : string -> option Timestamp) (raw : RawTable)
      (p : Timestamp * list (option string)) :
  In p (dated_rows to_datetime raw) ->
  In (snd p) (raw_rows raw)
  /\ has_date to_datetime (snd p) = true
  /\ coerce_datetime to_datetime (raw_cell 0 (snd p)) = Some (fst p).
Proof.
  unfold dated_rows. generalize (raw_rows raw). intros rs.
  induction rs as [|row rs IH]; [intros [] |].
  cbn [map combine]. change (cell row "Fecha") with (raw_cell 0 row).
  destruct (coerce_datetime to_datetime (raw_cell 0 row)) as [t|] eqn:Ht; cbn [dropna].
  - intros [<- | Hin].
    + cbn [fst snd]. split; [left; reflexivity | split; [| exact Ht]].
      unfold has_date. unfold coerce_datetime in Ht.
      destruct (raw_cell 0 row) as [s|]; [rewrite Ht; reflexivity | discriminate].
    + destruct (IH Hin) as [H1 H2]. split; [right; exact H1 | exact H2].
  - intros Hin. destruct (IH Hin) as [H1 H2]. split; [right; exact H1 | exact H2].
Qed.

Lemma build_rows_invariant (kept : list (Timestamp * list (option string))) :
  forall valor saldo,
    Forall (fun x => F64.isna x = false) valor ->
    Forall flow_invariant (build_rows kept valor saldo).
Proof.
  induction kept as [|[t row] kept IH]; intros valor saldo Hv; simpl.
  - constructor.
  - destruct valor as [|v valor]; [constructor |].
    destruct saldo as [|s saldo]; [constructor |].
    inversion Hv as [|? ? Hnan Hv']; subst.
    constructor; [| apply IH, Hv'].
    unfold flow_invariant. simpl.
    repeat split. apply inflow_minus_outflow, Hnan.
Qed.

Lemma build_rows_length (kept : list (Timestamp * list (option string))) :
  forall valor saldo,
    List.length valor = List.length kept ->
    List.length saldo = List.length kept ->
    List.length (build_rows kept valor saldo) = List.length kept.
Proof.
  induction kept as [|[t row] kept IH]; intros [|v valor] [|s saldo] Hv Hs;
    simpl in *; try discriminate; try reflexivity.
  rewrite IH; auto.
Qed.

Lemma Forall_Permutation_flow (l l' : list Transaction) :
  Permutation l l' -> Forall flow_invariant l -> Forall flow_invariant l'.
Proof.
  intros Hp Hf. apply Forall_forall. intros r Hin.
  rewrite Forall_forall in Hf. apply Hf.
  apply (Permutation_in r (Permutation_sym Hp)), Hin.
Qed.

Section NormalizerFacts.

Variable digit_zeros : list Z.
Variable to_datetime : string -> option Timestamp.

Lemma setitem_Fecha_cells (rs : list (list (option string))) :
  map2 (fun c row => replace_nth 0 c row)
    (map Datetime (map (fun row => coerce_datetime to_datetime (cell row "Fecha")) rs))
    (map (map cell_of) rs)
  = map (fun row => match row with
                    | [] => []
                    | c :: rest =>
                        Datetime (coerce_datetime to_datetime c) :: map cell_of rest
                    end) rs.
Proof.
  induction rs as [|row rs IH]; [reflexivity |].
  cbn [map map2]. rewrite IH. destruct row; reflexivity.
Qed.

(** The body on a table that does not have six columns: the renaming
    raises and nothing has changed. *)
Lemma process_body_mismatch (raw : RawTable) (w : World) :
  List.length (raw_columns raw) <> 6%nat ->
  process_body digit_zeros to_datetime raw (with_arg (frame_of_raw raw) w)
  = (inl (ValueError ("Length mismatch: Expected axis has "
                      ++ str_nat (List.length (raw_columns raw))
                      ++ " elements, new values have 6 elements")),
     with_arg (frame_of_raw raw) w).
Proof.
  intros Hn. unfold process_body, bind, set_columns. simpl.
  destruct (Nat.eqb_spec (List.length (raw_columns raw)) 6) as [He | _];
    [contradiction | reflexivity].
Qed.

(** The body on a six-column table: the caller's table is renamed and
    its dates parsed in place, then the work goes on on a copy. *)
Lemma process_body_six (raw : RawTable) (w : World) :
  List.length (raw_columns raw) = 6%nat ->
  process_body digit_zeros to_datetime raw (with_arg (frame_of_raw raw) w)
  = bind (astype_float digit_zeros (map (fun r => currency_text digit_zeros "Valor" (snd r))
                          (dated_rows to_datetime raw)))
      (fun valor =>
         bind (astype_float digit_zeros (map (fun r => currency_text digit_zeros "Saldo" (snd r))
                               (dated_rows to_datetime raw)))
           (fun saldo =>
              ret (mkDataFrame (canonical_names ++ derived_names)
                     (sort_values Fecha_leb
                        (build_rows (dated_rows to_datetime raw) valor saldo)))))
      (with_arg (frame_after to_datetime raw) w).
Proof.
  intros Hn. unfold process_body.
  unfold bind at 1. unfold set_columns. cbn [arg with_arg labels frame_of_raw].
  rewrite Hn. cbn [List.length canonical_names Nat.eqb].
  unfold bind at 1. unfold setitem.
  cbn [arg with_arg labels cells diagnostics files map canonical_names index_of Label_eqb].
  rewrite String.eqb_refl.
  rewrite setitem_Fecha_cells. reflexivity.
Qed.

Lemma process_body_six_result (raw : RawTable) (w : World) :
  List.length (raw_columns raw) = 6%nat ->
  let w0 := with_arg (frame_of_raw raw) w in
  let w2 := with_arg (frame_after to_datetime raw) w in
  (exists e, process_body digit_zeros to_datetime raw w0 = (inl e, w2)
      /\ exists p, In p (dated_rows to_datetime raw)
            /\ (converted_amount digit_zeros (raw_cell 4 (snd p)) = None
                \/ converted_amount digit_zeros (raw_cell 5 (snd p)) = None))
  \/ (exists valor saldo,
        Forall2 (fun p v => converted_amount digit_zeros (raw_cell 4 (snd p)) = Some v)
          (dated_rows to_datetime raw) valor
        /\ Forall2 (fun p s => converted_amount digit_zeros (raw_cell 5 (snd p)) = Some s)
             (dated_rows to_datetime raw) saldo
        /\ process_body digit_zeros to_datetime raw w0
           = (inr (mkDataFrame (canonical_names ++ derived_names)
                     (sort_values Fecha_leb
                        (build_rows (dated_rows to_datetime raw) valor saldo))),
              w2)).
Proof.
  intros Hn. cbv zeta. rewrite (process_body_six raw w Hn).
  set (w2 := with_arg (frame_after to_datetime raw) w).
  unfold bind at 1 3.
  destruct (astype_float _ _ w2) as [[e|valor] w3] eqn:Hv.
  { left. apply astype_float_inl in Hv. destruct Hv as [-> [s [Hin [Hs He']]]].
    exists e. split; [reflexivity |].
    apply in_map_iff in Hin. destruct Hin as [p [Hp Hin]].
    exists p. split; [exact Hin | left].
    rewrite <- float_cell_Valor, Hp. exact Hs. }
  pose proof Hv as Hv'.
  apply astype_float_inr in Hv'. destruct Hv' as [-> HFv].
  unfold bind.
  destruct (astype_float digit_zeros
              (map (fun r => currency_text digit_zeros "Saldo" (snd r)) _) w2)
    as [[e|saldo] w3] eqn:Hs.
  { left. apply astype_float_inl in Hs. destruct Hs as [-> [s [Hin [Hs He']]]].
    exists e. split; [reflexivity |].
    apply in_map_iff in Hin. destruct Hin as [p [Hp Hin]].
    exists p. split; [exact Hin | right].
    rewrite <- float_cell_Saldo, Hp. exact Hs. }
  pose proof Hs as Hs'.
  apply astype_float_inr in Hs'. destruct Hs' as [-> HFs].
  right. exists valor, saldo. split; [| split].
  - apply Forall2_map_left in HFv.
    eapply Forall2_impl; [| exact HFv]. intros p v H. cbv beta in H.
    rewrite float_cell_Valor in H. exact H.
  - apply Forall2_map_left in HFs.
    eapply Forall2_impl; [| exact HFs]. intros p v H. cbv beta in H.
    rewrite float_cell_Saldo in H. exact H.
  - reflexivity.
Qed.

(** Every run of [process_transactions] returns, and what it returns
    and leaves behind is one of four cases. *)
Lemma process_transactions_cases (raw : RawTable) (w : World) :
  let w0 := with_arg (frame_of_raw raw) w in
  let w2 := with_arg (frame_after to_datetime raw) w in
  (raw_empty raw = true
   /\ call_process_transactions digit_zeros to_datetime raw w = (inr empty_DataFrame, w0))
  \/ (raw_empty raw = false
      /\ List.length (raw_columns raw) <> 6%nat
      /\ exists e, process_body digit_zeros to_datetime raw w0 = (inl e, w0)
           /\ call_process_transactions digit_zeros to_datetime raw w
              = (inr empty_DataFrame,
                 mkWorld (arg w0) (diagnostics w ++ [processing_error e]) (files w)))
  \/ (raw_empty raw = false
      /\ List.length (raw_columns raw) = 6%nat
      /\ exists e, process_body digit_zeros to_datetime raw w0 = (inl e, w2)
           /\ (exists p, In p (dated_rows to_datetime raw)
                 /\ (converted_amount digit_zeros (raw_cell 4 (snd p)) = None
                     \/ converted_amount digit_zeros (raw_cell 5 (snd p)) = None))
           /\ call_process_transactions digit_zeros to_datetime raw w
              = (inr empty_DataFrame,
                 mkWorld (arg w2) (diagnostics w ++ [processing_error e]) (files w)))
  \/ (raw_empty raw = false
      /\ List.length (raw_columns raw) = 6%nat
      /\ exists valor saldo,
           Forall2 (fun p v => converted_amount digit_zeros (raw_cell 4 (snd p)) = Some v)
             (dated_rows to_datetime raw) valor
           /\ Forall2 (fun p s => converted_amount digit_zeros (raw_cell 5 (snd p)) = Some s)
                (dated_rows to_datetime raw) saldo
           /\ call_process_transactions digit_zeros to_datetime raw w
              = (inr (mkDataFrame (canonical_names ++ derived_names)
                        (sort_values Fecha_leb
                           (build_rows (dated_rows to_datetime raw) valor saldo))),
                 w2)).
Proof.
  cbv zeta. unfold call_process_transactions, process_transactions.
  destruct (raw_empty raw) eqn:He.
  { left. split; reflexivity. }
  right.
  destruct (Nat.eq_dec (List.length (raw_columns raw)) 6) as [Hn | Hn].
  2: { left. split; [reflexivity | split; [exact Hn |]].
       eexists. split; [apply process_body_mismatch, Hn |].
       unfold try_except. rewrite process_body_mismatch by exact Hn.
       reflexivity. }
  right. unfold try_except.
  destruct (process_body_six_result raw w Hn)
    as [[e [Hb Hp]] | [valor [saldo [HFv [HFs Hb]]]]]; rewrite Hb.
  - left. split; [reflexivity | split; [exact Hn |]].
    exists e. split; [reflexivity | split; [exact Hp | reflexivity]].
  - right. split; [reflexivity | split; [exact Hn |]].
    exists valor, saldo. repeat split; assumption.
Qed.

End NormalizerFacts.

Lemma dated_rows_all_NaT (to_datetime : string -> option Timestamp) (raw : RawTable) :
  (forall row, In row (raw_rows raw) ->
               coerce_datetime to_datetime (cell row "Fecha") = None) ->
  dated_rows to_datetime raw = [].
Proof.
  unfold dated_rows. generalize (raw_rows raw). intros rs H.
  induction rs as [|row rs IH]; [reflexivity |].
  cbn [map combine dropna]. rewrite (H row (or_introl eq_refl)).
  apply IH. intros row' Hin. apply H. right. exact Hin.
Qed.

(** What the handler makes of a failure of the body. *)
Lemma process_transactions_handler (digit_zeros : list Z)
      (to_datetime : string -> option Timestamp)
      (raw : RawTable) (w : World) (e : Exn) (w1 : World) :
  raw_empty raw = false ->
  process_body digit_zeros to_datetime raw (with_arg (frame_of_raw raw) w) = (inl e, w1) ->
  call_process_transactions digit_zeros to_datetime raw w
  = (inr empty_DataFrame,
     mkWorld (arg w1) (diagnostics w1 ++ [processing_error e]) (files w1)).
Proof.
  intros He Hb. unfold call_process_transactions, process_transactions, try_except.
  rewrite He, Hb. reflexivity.
Qed.

(** The scenario is a valid six-column table for the day-first reader,
    whatever the digits beyond ASCII are. *)
Lemma scenario_valid (digit_zeros : list Z) :
  valid_six_columns digit_zeros parse_dmy scenario.
Proof.
  split; [reflexivity | split; [reflexivity |]].
  intros row [<- | [<- | []]] _; split; vm_compute; discriminate.
Qed.

(** In a valid table no amount of a row with a date is NaN. *)
Lemma valid_amounts_not_nan (digit_zeros : list Z)
      (to_datetime : string -> option Timestamp) (raw : RawTable)
      (valor : list float) :
  valid_six_columns digit_zeros to_datetime raw ->
  Forall2 (fun p v => converted_amount digit_zeros (raw_cell 4 (snd p)) = Some v)
    (dated_rows to_datetime raw) valor ->
  Forall (fun x => F64.isna x = false) valor.
Proof.
  intros [_ [_ Hvalid]] HF.
  assert (Hin : forall p, In p (dated_rows to_datetime raw) ->
                          written_amount digit_zeros (raw_cell 4 (snd p)) <> None).
  { intros p Hp. destruct (dated_rows_in to_datetime raw p Hp) as [H1 [H2 _]].
    apply (Hvalid (snd p) H1 H2). }
  revert Hin. induction HF as [|p v ps vs Hv _ IH]; intros Hin; constructor.
  - specialize (Hin p (or_introl eq_refl)).
    unfold converted_amount in Hv. unfold written_amount in *.
    destruct (raw_cell 4 (snd p)) as [s|]; [| contradiction].
    apply (python_float_not_nan digit_zeros _ _ Hv).
  - apply IH. intros q Hq. apply Hin. right. exact Hq.
Qed.

Lemma Forall2_same_length {A B : Type} (P : A -> B -> Prop) (l : list A) (l' : list B) :
  Forall2 P l l' -> List.length l' = List.length l.
Proof. intros H. symmetry. apply (Forall2_length H). Qed.

(** C2: on a valid six-column raw table [process_transactions] reports
    nothing and returns a table with one row for each raw row that has a
    date, in non-decreasing order of date, every row of which satisfies
    [inflow - outflow == net_flow] with [inflow = value if value > 0 else 0],
    [outflow = |value| if value < 0 else 0] and [net_flow = value]. *)
Theorem process_transactions_sorted_flows
        (digit_zeros : list Z) (to_datetime : string -> option Timestamp)
        (raw : RawTable) (w : World) :
  valid_six_columns digit_zeros to_datetime raw ->
  exists df w',
    call_process_transactions digit_zeros to_datetime raw w = (inr df, w')
    /\ diagnostics w' = diagnostics w
    /\ columns df = canonical_names ++ derived_names
    /\ List.length (rows df) = List.length (filter (has_date to_datetime) (raw_rows raw))
    /\ StronglySorted Fecha_le (rows df)
    /\ Forall flow_invariant (rows df).
Proof.
  intros Hvalid. pose proof Hvalid as [He' [Hn' Hrows]].
  destruct (process_transactions_cases digit_zeros to_datetime raw w)
    as [[He Hc] | [[He [Hn [e [_ Hc]]]] | [[He [Hn [e [_ [Hp Hc]]]]]
                                          | [He [Hn [valor [saldo [HFv [HFs Hc]]]]]]]]].
  - congruence.
  - contradiction.
  - exfalso. destruct Hp as [p [Hin Hnone]].
    destruct (dated_rows_in to_datetime raw p Hin) as [H1 [H2 _]].
    destruct (Hrows (snd p) H1 H2) as [Hval Hsal].
    unfold converted_amount in Hnone.
    destruct Hnone as [Hnone | Hnone].
    + destruct (raw_cell 4 (snd p)); [contradiction | discriminate].
    + destruct (raw_cell 5 (snd p)); [contradiction | discriminate].
  - rewrite Hc. eexists. eexists. split; [reflexivity |].
    cbn [rows columns diagnostics with_arg].
    split; [reflexivity | split; [reflexivity | split; [| split]]].
    + rewrite <- (Permutation_length (sort_values_Permutation Fecha_leb _)).
      rewrite build_rows_length.
      * rewrite <- (dated_rows_rows to_datetime raw). rewrite length_map. reflexivity.
      * apply (Forall2_same_length _ _ _ HFv).
      * apply (Forall2_same_length _ _ _ HFs).
    + apply sort_values_Fecha.
    + apply (Forall_Permutation_flow _ _ (sort_values_Permutation Fecha_leb _)).
      apply build_rows_invariant.
      apply (valid_amounts_not_nan digit_zeros to_datetime raw valor Hvalid HFv).
Qed.

Lemma process_transactions_sorted_flows_witness :
  exists df w',
    call_process_transactions digit_zeros_14_0 parse_dmy scenario initial_world = (inr df, w')
    /\ diagnostics w' = []
    /\ columns df = canonical_names ++ derived_names
    /\ List.length (rows df) = 2%nat
    /\ StronglySorted Fecha_le (rows df)
    /\ Forall flow_invariant (rows df).
Proof.
  apply (process_transactions_sorted_flows digit_zeros_14_0 parse_dmy scenario initial_world).
  split; [reflexivity | split; [reflexivity |]].
  intros row [<- | [<- | []]] _; split; vm_compute; discriminate.
Defined.

(** C5: on a non-empty raw table whose column count is not six,
    [process_transactions] returns the empty table and reports an error. *)
Theorem process_transactions_column_mismatch
        (digit_zeros : list Z) (to_datetime : string -> option Timestamp)
        (raw : RawTable) (w : World) :
  raw_empty raw = false ->
  List.length (raw_columns raw) <> 6%nat ->
  exists msg,
    call_process_transactions digit_zeros to_datetime raw w
    = (inr empty_DataFrame,
       mkWorld (frame_of_raw raw)
         (diagnostics w ++ [st_error ("Error al procesar las transacciones: " ++ msg)])
         (files w))
    /\ msg = ("Length mismatch: Expected axis has "
              ++ str_nat (List.length (raw_columns raw))
              ++ " elements, new values have 6 elements")%string.
Proof.
  intros He Hn. eexists. split; [| reflexivity].
  rewrite (process_transactions_handler digit_zeros to_datetime raw w _ _ He
             (process_body_mismatch digit_zeros to_datetime raw w Hn)).
  reflexivity.
Qed.

Lemma process_transactions_column_mismatch_witness :
  exists msg,
    call_process_transactions digit_zeros_14_0 parse_dmy five_columns initial_world
    = (inr empty_DataFrame,
       mkWorld (frame_of_raw five_columns)
         [st_error ("Error al procesar las transacciones: " ++ msg)] [])
    /\ msg = "Length mismatch: Expected axis has 5 elements, new values have 6 elements".
Proof.
  apply (process_transactions_column_mismatch digit_zeros_14_0 parse_dmy five_columns
           initial_world).
  - reflexivity.
  - simpl. lia.
Defined.

(** C6: [process_transactions] never raises: every call returns a table.
    On an empty input it is [pd.DataFrame()] and nothing is reported; on
    an input whose date cells are all unparseable the table is empty; and
    whenever the body of the [try] raises, the call returns
    [pd.DataFrame()] and reports the cause. *)
Theorem process_transactions_never_raises
        (digit_zeros : list Z) (to_datetime : string -> option Timestamp)
        (raw : RawTable) (w : World) :
  exists df w',
    call_process_transactions digit_zeros to_datetime raw w = (inr df, w')
    /\ (raw_empty raw = true -> df = empty_DataFrame /\ diagnostics w' = diagnostics w)
    /\ ((forall row, In row (raw_rows raw) ->
                     coerce_datetime to_datetime (cell row "Fecha") = None) ->
        empty df = true)
    /\ (forall e w1,
          raw_empty raw = false ->
          process_body digit_zeros to_datetime raw (with_arg (frame_of_raw raw) w)
          = (inl e, w1) ->
          df = empty_DataFrame
          /\ diagnostics w' = diagnostics w1 ++ [processing_error e]).
Proof.
  destruct (process_transactions_cases digit_zeros to_datetime raw w)
    as [[He Hc] | [[He [Hn [e [_ Hc]]]] | [[He [Hn [e [_ [Hp Hc]]]]]
                                          | [He [Hn [valor [saldo [HFv [HFs Hc]]]]]]]]].
  - exists empty_DataFrame. eexists. split; [exact Hc |].
    split; [intros _; split; reflexivity |].
    split; [intros _; reflexivity |].
    intros e' w1 He' _. congruence.
  - exists empty_DataFrame. eexists. split; [exact Hc |].
    split; [intros He'; congruence |].
    split; [intros _; reflexivity |].
    intros e' w1 He' Hb.
    rewrite (process_transactions_handler digit_zeros to_datetime raw w e' w1 He' Hb) in Hc.
    injection Hc as Hc1 Hc2. split; [reflexivity |].
    cbn [diagnostics]. rewrite <- Hc2. reflexivity.
  - exists empty_DataFrame. eexists. split; [exact Hc |].
    split; [intros He'; congruence |].
    split; [intros _; reflexivity |].
    intros e' w1 He' Hb.
    rewrite (process_transactions_handler digit_zeros to_datetime raw w e' w1 He' Hb) in Hc.
    injection Hc as Hc1 Hc2. split; [reflexivity |].
    cbn [diagnostics]. rewrite <- Hc2. reflexivity.
  - eexists; eexists; split; [exact Hc |].
    split; [intros He'; congruence |]. split.
    + intros Hnat. cbn [rows]. rewrite (dated_rows_all_NaT to_datetime raw Hnat).
      reflexivity.
    + intros e' w1 He' Hb.
      rewrite (process_transactions_handler digit_zeros to_datetime raw w e' w1 He' Hb) in Hc.
      discriminate Hc.
Qed.

(** C9 as stated fails: after the call on the scenario table the caller's
    table carries the six names instead of camelot's numbers, and dates
    instead of texts in its first column. *)
Lemma process_transactions_changes_argument :
  let w' := snd (call_process_transactions digit_zeros_14_0 parse_dmy scenario
                   initial_world) in
  arg w' <> frame_of_raw scenario
  /\ labels (arg w') = map LStr canonical_names
  /\ map (hd (Str "")) (cells (arg w')) = [Datetime (Some 19723%Z); Datetime (Some 19724%Z)].
Proof.
  cbv zeta. split; [| split; reflexivity].
  vm_compute. discriminate.
Qed.

(** C9 (amended): [process_transactions] changes the table it is given.
    For a non-empty input with six columns, when the call returns the
    caller's table has the six canonical names as labels and the parsed
    date ([NaT] where there is none) as the first cell of each row, every
    other cell and the number of rows being as before; an empty input and
    one whose column count is not six are left as they were. Temporary
    files are not touched. *)
Theorem process_transactions_argument_after
        (digit_zeros : list Z) (to_datetime : string -> option Timestamp)
        (raw : RawTable) (w : World) :
  let w' := snd (call_process_transactions digit_zeros to_datetime raw w) in
  arg w' = (if raw_empty raw || negb (Nat.eqb (List.length (raw_columns raw)) 6)
            then frame_of_raw raw
            else frame_after to_datetime raw)
  /\ files w' = files w.
Proof.
  cbv zeta.
  destruct (process_transactions_cases digit_zeros to_datetime raw w)
    as [[He Hc] | [[He [Hn [e [_ Hc]]]] | [[He [Hn [e [_ [Hp Hc]]]]]
                                          | [He [Hn [valor [saldo [HFv [HFs Hc]]]]]]]]];
    rewrite Hc, He; cbn [snd arg files with_arg orb].
  - split; reflexivity.
  - apply Nat.eqb_neq in Hn. rewrite Hn. split; reflexivity.
  - rewrite Hn. split; reflexivity.
  - rewrite Hn. split; reflexivity.
Qed.

(** ** The end-to-end scenario *)

Lemma sort_values_two (a b : Transaction) :
  (Fecha a <= Fecha b)%Z -> sort_values Fecha_leb [a; b] = [a; b].
Proof.
  intros H. simpl. unfold Fecha_leb. apply Z.leb_le in H. rewrite H. reflexivity.
Qed.

(** A body that returns is a call that returns the same. *)
Lemma process_transactions_returns (digit_zeros : list Z)
      (to_datetime : string -> option Timestamp)
      (raw : RawTable) (w : World) (df : DataFrame) (w1 : World) :
  raw_empty raw = false ->
  process_body digit_zeros to_datetime raw (with_arg (frame_of_raw raw) w) = (inr df, w1) ->
  call_process_transactions digit_zeros to_datetime raw w = (inr df, w1).
Proof.
  intros He Hb. unfold call_process_transactions, process_transactions, try_except.
  rewrite He, Hb. reflexivity.
Qed.

(** C4 as stated fails: commas go as thousands separators, so "100,00"
    reads 10000.0 and "1.000,00" reads 1.0; the net flows are
    [10000.0, -5000.0], not [100.0, -50.0], and [validate_balances] reports
    the second row. *)
Lemma scenario_not_as_stated :
  match call_process_transactions digit_zeros_14_0 parse_dmy scenario initial_world with
  | (inr df, _) =>
      map Categoria (rows df) = ["Ingresos"; "Egresos"]
      /\ map Flujo_Neto (rows df) = [F64.of_Z 10000; F64.of_Z (-5000)]
      /\ map Flujo_Neto (rows df) <> [F64.of_Z 100; F64.of_Z (-50)]
      /\ map Descripcion (rows (validate_balances df)) = [Some "COMISIÓN Y"]
      /\ rows (validate_balances df) <> []
  | (inl _, _) => False
  end.
Proof.
  vm_compute. repeat split; discriminate.
Qed.

(** C4 (amended): with a date reader that reads "01/01/2024" as a day
    before "02/01/2024", the scenario table gives two rows, of categories
    [Ingresos, Egresos] (Income, Expense), with net flows
    [10000.0, -5000.0] and balances [1.0, 95000.0], no error is reported,
    and [validate_balances] on that table returns one discrepancy, the
    second row. *)
Theorem scenario_end_to_end
        (digit_zeros : list Z) (to_datetime : string -> option Timestamp)
        (d1 d2 : Timestamp) (w : World) :
  to_datetime "01/01/2024" = Some d1 ->
  to_datetime "02/01/2024" = Some d2 ->
  (d1 < d2)%Z ->
  exists df w',
    call_process_transactions digit_zeros to_datetime scenario w = (inr df, w')
    /\ diagnostics w' = diagnostics w
    /\ map Fecha (rows df) = [d1; d2]
    /\ map Categoria (rows df) = ["Ingresos"; "Egresos"]
    /\ map Flujo_Neto (rows df) = [F64.of_Z 10000; F64.of_Z (-5000)]
    /\ map Saldo (rows df) = [F64.of_Z 1; F64.of_Z 95000]
    /\ discrepancy_mask df = [false; true]
    /\ map Descripcion (rows (validate_balances df)) = [Some "COMISIÓN Y"].
Proof.
  intros H1 H2 Hlt.
  assert (Hd : dated_rows to_datetime scenario
               = [ (d1, texts ["01/01/2024"; "ABONO X"; ""; ""; "100,00"; "1.000,00"]);
                   (d2, texts ["02/01/2024"; "COMISIÓN Y"; ""; ""; "-50,00"; "950,00"]) ]).
  { unfold dated_rows, scenario. cbn [raw_rows map combine].
    change (coerce_datetime to_datetime
              (cell (texts ["01/01/2024"; "ABONO X"; ""; ""; "100,00"; "1.000,00"]) "Fecha"))
      with (to_datetime "01/01/2024").
    change (coerce_datetime to_datetime
              (cell (texts ["02/01/2024"; "COMISIÓN Y"; ""; ""; "-50,00"; "950,00"]) "Fecha"))
      with (to_datetime "02/01/2024").
    rewrite H1, H2. reflexivity. }
  set (w2 := with_arg (frame_after to_datetime scenario) w).
  set (r1 := mkTransaction d1 (Some "ABONO X") (Some "") (Some "")
               (F64.of_Z 10000) (F64.of_Z 1) "Ingresos"
               (F64.of_Z 10000) F64.zero (F64.of_Z 10000) (F64.of_Z 1) "").
  set (r2 := mkTransaction d2 (Some "COMISIÓN Y") (Some "") (Some "")
               (F64.of_Z (-5000)) (F64.of_Z 95000) "Egresos"
               F64.zero (F64.of_Z 5000) (F64.of_Z (-5000)) (F64.of_Z 95000) "").
  assert (Hb : process_body digit_zeros to_datetime scenario
                 (with_arg (frame_of_raw scenario) w)
               = (inr (mkDataFrame (canonical_names ++ derived_names)
                         (sort_values Fecha_leb [r1; r2])), w2)).
  { rewrite (process_body_six digit_zeros to_datetime scenario w eq_refl). rewrite Hd.
    subst r1 r2 w2. vm_compute. reflexivity. }
  rewrite sort_values_two in Hb by (subst r1 r2; cbn [Fecha]; lia).
  exists (mkDataFrame (canonical_names ++ derived_names) [r1; r2]), w2.
  split.
  - apply process_transactions_returns; [reflexivity | exact Hb].
  - subst r1 r2. repeat split; vm_compute; reflexivity.
Qed.

Lemma scenario_end_to_end_witness :
  exists df w',
    call_process_transactions digit_zeros_14_0 parse_dmy scenario initial_world = (inr df, w')
    /\ diagnostics w' = []
    /\ map Fecha (rows df) = [19723%Z; 19724%Z]
    /\ map Categoria (rows df) = ["Ingresos"; "Egresos"]
    /\ map Flujo_Neto (rows df) = [F64.of_Z 10000; F64.of_Z (-5000)]
    /\ map Saldo (rows df) = [F64.of_Z 1; F64.of_Z 95000]
    /\ discrepancy_mask df = [false; true]
    /\ map Descripcion (rows (validate_balances df)) = [Some "COMISIÓN Y"].
Proof.
  apply (scenario_end_to_end digit_zeros_14_0 parse_dmy 19723%Z 19724%Z initial_world).
  - reflexivity.
  - reflexivity.
  - lia.
Defined.

(** ** The temporary file of [load_and_process_bank_statement] *)

Lemma bind_inr {A B : Type} (c : Py A) (k : A -> Py B) (w w' : World) (a : A) :
  c w = (inr a, w') -> bind c k w = k a w'.
Proof. intros H. unfold bind. rewrite H. reflexivity. Qed.

Lemma bind_inl {A B : Type} (c : Py A) (k : A -> Py B) (w w' : World) (e : Exn) :
  c w = (inl e, w') -> bind c k w = (inl e, w').
Proof. intros H. unfold bind. rewrite H. reflexivity. Qed.

Section LoaderFacts.

Variable digit_zeros : list Z.
Variable to_datetime : string -> option Timestamp.
Variable env : Env.

(** Once [camelot] is imported the extractor returns, whatever reading
    the PDF does, and touches no file. *)
Lemma extract_bank_data_returns (pdf_path : string) (w : World) :
  import_camelot env = None ->
  exists raw w',
    extract_bank_data env pdf_path w = (inr raw, w') /\ files w' = files w.
Proof.
  intros Himp. unfold extract_bank_data. rewrite Himp.
  unfold fail_if, bind at 1, ret at 1, try_except.
  unfold bind at 1. destruct (read_pdf env pdf_path) as [e | tables]; simpl.
  - eexists. eexists. split; reflexivity.
  - destruct (0 <? List.length tables)%nat.
    + unfold drop_header_rows.
      destruct (index_of (LInt 0) (raw_columns (pd_concat tables))); simpl;
        eexists; eexists; split; reflexivity.
    + simpl. eexists. eexists. split; reflexivity.
Qed.

Lemma call_process_transactions_returns (raw : RawTable) (w : World) :
  exists df w',
    call_process_transactions digit_zeros to_datetime raw w = (inr df, w') /\ files w' = files w.
Proof.
  destruct (process_transactions_cases digit_zeros to_datetime raw w)
    as [[_ Hc] | [[_ [_ [e [_ Hc]]]] | [[_ [_ [e [_ [_ Hc]]]]]
                                       | [_ [_ [valor [saldo [_ [_ Hc]]]]]]]]];
    rewrite Hc; eexists; eexists; split; reflexivity.
Qed.

(** What follows [os.unlink] returns and touches no file. *)
Lemma after_unlink_returns (processed_data : DataFrame) (w : World) :
  exists r w',
    (if negb (empty processed_data)
     then
       bind (if negb (empty (validate_balances processed_data))
             then emit (st_warning ("Se encontraron "
                         ++ str_nat (List.length (rows (validate_balances processed_data)))
                         ++ " registros con discrepancias en saldos. Puede afectar la precisión del análisis."))
             else ret tt)
         (fun _ =>
            ret (add_FechaStr env processed_data,
                 match has_column "Fecha" processed_data, rows processed_data with
                 | true, r :: _ => strftime_B_Y env (Fecha r)
                 | _, _ => "Desconocido"
                 end))
     else
       bind (emit (st_error "No se pudieron extraer datos válidos del extracto bancario."))
         (fun _ => ret (empty_DataFrame, EmptyString))) w
    = (inr r, w') /\ files w' = files w.
Proof.
  destruct (negb (empty processed_data)).
  - destruct (negb (empty (validate_balances processed_data)));
      eexists; eexists; split; reflexivity.
  - eexists. eexists. split; reflexivity.
Qed.

(** When the upload is written and [camelot] is imported, the call
    returns and the temporary file is gone, whatever extraction and
    normalisation do. *)
Lemma temporary_file_deleted (upload : string) (w : World) :
  create_tmp env = None ->
  write_tmp env = None ->
  import_camelot env = None ->
  exists r w',
    load_and_process_bank_statement digit_zeros to_datetime env (Some upload) w = (inr r, w')
    /\ files w' = filter (fun p => negb (String.eqb (tmp_name env) p)) (files w)
    /\ ~ In (tmp_name env) (files w').
Proof.
  intros Hc Hw Hi.
  unfold load_and_process_bank_statement, try_except.
  set (w1 := with_files (tmp_name env :: files w) w).
  assert (Htmp : write_temporary_file env w = (inr (tmp_name env), w1)).
  { unfold write_temporary_file. rewrite Hc, Hw. reflexivity. }
  rewrite (bind_inr _ _ _ _ _ Htmp).
  destruct (extract_bank_data_returns (tmp_name env) w1 Hi) as [raw [w2 [He Hf2]]].
  rewrite (bind_inr _ _ _ _ _ He).
  destruct (call_process_transactions_returns raw w2) as [df [w3 [Hp Hf3]]].
  rewrite (bind_inr _ _ _ _ _ Hp).
  assert (Hu : os_unlink (tmp_name env) w3
               = (inr tt, with_files
                            (filter (fun p => negb (String.eqb (tmp_name env) p)) (files w))
                            w3)).
  { unfold os_unlink. rewrite Hf3, Hf2. subst w1. cbn [files with_files existsb filter].
    rewrite String.eqb_refl. reflexivity. }
  rewrite (bind_inr _ _ _ _ _ Hu).
  destruct (after_unlink_returns df
              (with_files (filter (fun p => negb (String.eqb (tmp_name env) p)) (files w)) w3))
    as [r [w4 [Ha Hf4]]].
  rewrite Ha. exists r, w4. split; [reflexivity |]. split.
  - rewrite Hf4. reflexivity.
  - rewrite Hf4. cbn [files with_files]. intros Hin.
    apply filter_In in Hin. destruct Hin as [_ Hin].
    rewrite String.eqb_refl in Hin. discriminate.
Qed.

End LoaderFacts.

(** C8: the claim holds of the intent and fails of the code. With
    [camelot] missing, [import camelot] raises before the [try] of
    [extract_bank_data]; the exception reaches the handler of
    [load_and_process_bank_statement] past [os.unlink], and the temporary
    file is still there when the call returns. The same happens when
    writing the upload fails. *)
Theorem temporary_file_left_behind :
  load_and_process_bank_statement digit_zeros_14_0 parse_dmy env_without_camelot
    (Some "%PDF-1.4") initial_world
  = (inr (empty_DataFrame, EmptyString),
     mkWorld (mkFrame [] [])
       [st_error "Error procesando el extracto bancario: No module named 'camelot'"]
       ["/tmp/tmpk3x9a1.pdf"])
  /\ load_and_process_bank_statement digit_zeros_14_0 parse_dmy env_disk_full
       (Some "%PDF-1.4") initial_world
     = (inr (empty_DataFrame, EmptyString),
        mkWorld (mkFrame [] [])
          [st_error "Error procesando el extracto bancario: [Errno 28] No space left on device"]
          ["/tmp/tmpk3x9a1.pdf"]).
Proof. split; reflexivity. Qed.

(** ** [cargar_datos_historicos] *)
















Lemma mem_string_true_iff (c : string) (l : list string) :
  mem_string c l = true <-> In c l.
Proof.
  unfold mem_string. rewrite existsb_exists. split.
  - intros [x [Hin Hx]]. apply String.eqb_eq in Hx. subst x. exact Hin.
  - intros Hin. exists c. split; [exact Hin | apply String.eqb_refl].
Qed.


(** The loop over the files never raises: a file that cannot be read is
    reported and skipped. *)
Lemma load_snapshots_returns (rd : string -> Exn + Timestamp)
      (entries : list (string * (Exn + CsvTable))) :
  forall w, exists dfs w', load_snapshots rd entries w = (inr dfs, w').
Proof.
  induction entries as [|entry entries IH]; intros w.
  - exists [], w. reflexivity.
  - cbn [load_snapshots].
    assert (Hone : exists o w1, load_snapshot rd entry w = (inr o, w1)).
    { unfold load_snapshot, try_except.
      match goal with |- context [match ?c w with _ => _ end] => destruct (c w) as [[e|a] w1] end.
      - eexists. eexists. reflexivity.
      - eexists. eexists. reflexivity. }
    destruct Hone as [o [w1 Hone]]. rewrite (bind_inr _ _ _ _ _ Hone).
    destruct (IH w1) as [dfs [w2 Hrest]]. rewrite (bind_inr _ _ _ _ _ Hrest).
    eexists. eexists. reflexivity.
Qed.



(** * Further properties of the pipeline *)

(** ** [validate_balances]: when nothing is reported *)

Lemma rows_where_nil_inv {A : Type} (f : nat -> bool) (l : list A) :
  rows_where f l = [] -> forall i, (i < List.length l)%nat -> f i = false.
Proof.
  intros H i Hi. destruct (f i) eqn:Hf; [| reflexivity].
  destruct (nth_error l i) as [x|] eqn:Hx.
  - pose proof (rows_where_in f l i x Hx Hf) as Hin. rewrite H in Hin. contradiction.
  - apply nth_error_None in Hx. lia.
Qed.

(** The result of the check is [.empty] exactly when no row is off by more
    than 1.0 (it then still carries the columns of the input). *)
Theorem validate_balances_empty_iff (df : DataFrame) :
  empty df = false ->
  has_column "Valor" df = true ->
  has_column "Saldo" df = true ->
  (empty (validate_balances df) = true
   <-> forall i, (i < List.length (rows df))%nat -> off_balance df i = false).
Proof.
  intros He Hv Hs. rewrite validate_balances_rows by assumption.
  unfold empty in *. cbn [columns rows].
  destruct (columns df) as [|c cs]; [discriminate |].
  split.
  - intros H. apply rows_where_nil_inv.
    destruct (rows_where (off_balance df) (rows df)); [reflexivity | discriminate].
  - intros H. rewrite (rows_where_nil _ _ H). reflexivity.
Qed.

Lemma validate_balances_empty_iff_witness :
  empty (validate_balances
           (mkDataFrame ["Valor"; "Saldo"] [movement 100 1000; movement (-50) 950])) = true
  <-> forall i, (i < 2)%nat ->
        off_balance (mkDataFrame ["Valor"; "Saldo"] [movement 100 1000; movement (-50) 950]) i
        = false.
Proof.
  apply (validate_balances_empty_iff
           (mkDataFrame ["Valor"; "Saldo"] [movement 100 1000; movement (-50) 950]));
    reflexivity.
Defined.

Lemma sub_nan_r (x : float) : F64.sub x F64.nan = F64.nan.
Proof. destruct x; reflexivity. Qed.

Lemma sub_nan_l (x : float) : F64.sub F64.nan x = F64.nan.
Proof. destruct x; reflexivity. Qed.

Lemma add_nan_r (x : float) : F64.add x F64.nan = F64.nan.
Proof. destruct x; reflexivity. Qed.

Lemma isna_true (x : float) : F64.isna x = true -> x = F64.nan.
Proof. destruct x; try discriminate. reflexivity. Qed.

(** A missing (NaN) amount or balance in the first row silences the
    check: the recomputed balance of every row is NaN, no comparison with it
    holds, and no row is reported, whatever the other rows say. A row whose
    own balance is NaN is never reported either. *)
Theorem validate_balances_nan (df : DataFrame) (r : Transaction) (rest : list Transaction) :
  empty df = false ->
  has_column "Valor" df = true ->
  has_column "Saldo" df = true ->
  rows df = r :: rest ->
  (F64.isna (Valor r) = true \/ F64.isna (Saldo r) = true ->
   rows (validate_balances df) = [])
  /\ (forall i, F64.isna (stated df i) = true -> off_balance df i = false).
Proof.
  intros He Hv Hs Hrows. split.
  - intros Hnan. rewrite validate_balances_rows by assumption. cbn [rows].
    apply rows_where_nil. intros i _. unfold off_balance, recomputed.
    rewrite Hrows. cbn [map iloc0 hd].
    destruct Hnan as [Hn | Hn]; apply isna_true in Hn; rewrite Hn.
    + rewrite sub_nan_r, ?sub_nan_l. reflexivity.
    + rewrite add_nan_r, ?sub_nan_l. reflexivity.
  - intros i Hn. unfold off_balance. apply isna_true in Hn. rewrite Hn.
    rewrite sub_nan_r. reflexivity.
Qed.

Lemma validate_balances_nan_witness :
  rows (validate_balances
          (mkDataFrame ["Valor"; "Saldo"]
             [set_Saldo F64.nan (movement 100 1000); movement (-50) 7])) = [].
Proof.
  apply (proj1 (validate_balances_nan
                  (mkDataFrame ["Valor"; "Saldo"]
                     [set_Saldo F64.nan (movement 100 1000); movement (-50) 7])
                  (set_Saldo F64.nan (movement 100 1000)) [movement (-50) 7]
                  eq_refl eq_refl eq_refl eq_refl)).
  right. reflexivity.
Defined.

(** ** Categories: the whole decision table *)

(** The category is always one of the four. *)
Theorem categorize_range (x : string) :
  In (categorize x) ["Ingresos"; "Egresos"; "Servicios"; "Otros"].
Proof.
  unfold categorize, patterns. cbn [first_match].
  repeat match goal with
         | |- context [re_search ?p x] => destruct (re_search p x)
         end; simpl; auto.
Qed.

Lemma re_search_mentions (pat : string) (words : list string) (x : string) :
  alternatives pat = words ->
  (re_search pat x = true <-> mentions words x).
Proof.
  intros <-. apply re_search_true_iff.
Qed.

Lemma re_search_not_mentions (pat : string) (words : list string) (x : string) :
  alternatives pat = words ->
  (re_search pat x = false <-> ~ mentions words x).
Proof.
  intros H. rewrite <- (re_search_mentions pat words x H).
  destruct (re_search pat x); split; congruence.
Qed.

(** Which descriptions get which category: Income when an Income text
    occurs; Expense when an Expense text occurs and no Income text;
    Services when a Services text occurs and none of the others; Other
    exactly when none of the sixteen texts occurs. The matching is on the
    text as it is (upper case, accents included). *)
Theorem categorize_decision_table (x : string) :
  (categorize x = "Ingresos" <-> mentions income_words x)
  /\ (categorize x = "Egresos" <->
      ~ mentions income_words x /\ mentions expense_words x)
  /\ (categorize x = "Servicios" <->
      ~ mentions income_words x /\ ~ mentions expense_words x
      /\ mentions service_words x)
  /\ (categorize x = "Otros" <->
      ~ mentions income_words x /\ ~ mentions expense_words x
      /\ ~ mentions service_words x).
Proof.
  pose proof (re_search_mentions
                "PAGO INTERBANC|ABONO|DEPÓSITO|NÓMINA|TRANSFERENCIA A FAVOR"
                income_words x eq_refl) as Hi.
  pose proof (re_search_mentions
                "IMPUESTO|COMISIÓN|RETIRO|PAGO A PROVE|TRANSFERENCIA"
                expense_words x eq_refl) as He.
  pose proof (re_search_mentions
                "CUOTA MANEJO|SEGUROS|TARJETA|AGUA|LUZ|GAS"
                service_words x eq_refl) as Hs.
  unfold categorize, patterns. cbn [first_match].
  revert Hi He Hs.
  generalize (mentions income_words x), (mentions expense_words x),
    (mentions service_words x).
  intros MI ME MS Hi He Hs.
  destruct (re_search "PAGO INTERBANC|ABONO|DEPÓSITO|NÓMINA|TRANSFERENCIA A FAVOR" x);
    [| destruct (re_search "IMPUESTO|COMISIÓN|RETIRO|PAGO A PROVE|TRANSFERENCIA" x);
       [| destruct (re_search "CUOTA MANEJO|SEGUROS|TARJETA|AGUA|LUZ|GAS" x)]].
  - assert (HI : MI) by (apply Hi; reflexivity).
    split; [split; [intros _; exact HI | reflexivity] |].
    split; [split; [discriminate | intros [H _]; contradiction] |].
    split; [split; [discriminate | intros [H _]; contradiction] |].
    split; [discriminate | intros [H _]; contradiction].
  - assert (HI : ~ MI) by (intros H; apply Hi in H; discriminate H).
    assert (HE : ME) by (apply He; reflexivity).
    split; [split; [discriminate | intros H; contradiction] |].
    split; [split; [intros _; split; [exact HI | exact HE] | reflexivity] |].
    split; [split; [discriminate | intros [_ [H _]]; contradiction] |].
    split; [discriminate | intros [_ [H _]]; contradiction].
  - assert (HI : ~ MI) by (intros H; apply Hi in H; discriminate H).
    assert (HE : ~ ME) by (intros H; apply He in H; discriminate H).
    assert (HS : MS) by (apply Hs; reflexivity).
    split; [split; [discriminate | intros H; contradiction] |].
    split; [split; [discriminate | intros [_ H]; contradiction] |].
    split; [split; [intros _; split; [exact HI | split; [exact HE | exact HS]]
                   | reflexivity] |].
    split; [discriminate | intros [_ [_ H]]; contradiction].
  - assert (HI : ~ MI) by (intros H; apply Hi in H; discriminate H).
    assert (HE : ~ ME) by (intros H; apply He in H; discriminate H).
    assert (HS : ~ MS) by (intros H; apply Hs in H; discriminate H).
    split; [split; [discriminate | intros H; contradiction] |].
    split; [split; [discriminate | intros [_ H]; contradiction] |].
    split; [split; [discriminate | intros [_ [_ H]]; contradiction] |].
    split; [intros _; split; [exact HI | split; [exact HE | exact HS]] | reflexivity].
Qed.

(** ** [process_transactions]: what is kept, and when it fails *)

Lemma Forall2_in_left {A B : Type} (P : A -> B -> Prop) (l : list A) (l' : list B) (a : A) :
  Forall2 P l l' -> In a l -> exists b, P a b.
Proof.
  induction 1 as [|x y l l' Hxy _ IH]; intros Hin; [contradiction |].
  destruct Hin as [<- | Hin]; [exists y; exact Hxy | apply IH, Hin].
Qed.

(** The rows that [build_rows] makes are the movements of the raw rows. *)
Lemma build_rows_transaction_of (digit_zeros : list Z)
      (to_datetime : string -> option Timestamp)
      (kept : list (Timestamp * list (option string))) :
  forall valor saldo,
    (forall p, In p kept -> coerce_datetime to_datetime (raw_cell 0 (snd p)) = Some (fst p)) ->
    Forall2 (fun p v => converted_amount digit_zeros (raw_cell 4 (snd p)) = Some v)
      kept valor ->
    Forall2 (fun p s => converted_amount digit_zeros (raw_cell 5 (snd p)) = Some s)
      kept saldo ->
    map Some (build_rows kept valor saldo)
    = map (fun p => transaction_of digit_zeros to_datetime (snd p)) kept.
Proof.
  induction kept as [|[t row] kept IH]; intros valor saldo Hd Hv Hs.
  - reflexivity.
  - inversion Hv as [|? v ? valor' Hv1 Hv2]; subst.
    inversion Hs as [|? s ? saldo' Hs1 Hs2]; subst.
    cbn [build_rows map]. f_equal.
    + pose proof (Hd (t, row) (or_introl eq_refl)) as Ht.
      unfold transaction_of. cbn [fst snd] in *. rewrite Ht, Hv1, Hs1. reflexivity.
    + apply IH; [| assumption | assumption].
      intros p Hp. apply Hd. right. exact Hp.
Qed.

(** What a call that converts every amount returns: the movements of the
    raw rows that have a date, each made of its own row, rearranged by
    date. A row without a date is left out, no other row is lost, added or
    mixed with another, and a missing amount is kept as NaN. *)
Theorem process_transactions_keeps_dated_rows
        (digit_zeros : list Z) (to_datetime : string -> option Timestamp)
        (raw : RawTable) (w : World) :
  raw_empty raw = false ->
  convertible_six_columns digit_zeros to_datetime raw ->
  exists df w',
    call_process_transactions digit_zeros to_datetime raw w = (inr df, w')
    /\ Permutation (map Some (rows df))
         (map (transaction_of digit_zeros to_datetime)
            (filter (has_date to_datetime) (raw_rows raw))).
Proof.
  intros He [Hn Hconv].
  destruct (process_body_six_result digit_zeros to_datetime raw w Hn)
    as [[e [_ [p [Hin Hnone]]]] | [valor [saldo [HFv [HFs Hb]]]]].
  - exfalso. destruct (dated_rows_in to_datetime raw p Hin) as [H1 [H2 _]].
    destruct (Hconv (snd p) H1 H2) as [Hv Hs]. destruct Hnone; contradiction.
  - eexists. eexists. split.
    + apply process_transactions_returns; [exact He | exact Hb].
    + cbn [rows].
      rewrite <- (dated_rows_rows to_datetime raw), map_map.
      rewrite <- (build_rows_transaction_of digit_zeros to_datetime _ _ _
                    (fun p Hp => proj2 (proj2 (dated_rows_in to_datetime raw p Hp)))
                    HFv HFs).
      apply Permutation_map, Permutation_sym, sort_values_Permutation.
Qed.

Lemma process_transactions_keeps_dated_rows_witness :
  exists df w',
    call_process_transactions digit_zeros_14_0 parse_dmy page_with_gaps initial_world
    = (inr df, w')
    /\ Permutation (map Some (rows df))
         (map (transaction_of digit_zeros_14_0 parse_dmy)
            (filter (has_date parse_dmy) (raw_rows page_with_gaps))).
Proof.
  apply (process_transactions_keeps_dated_rows digit_zeros_14_0 parse_dmy page_with_gaps
           initial_world).
  - reflexivity.
  - split; [reflexivity |].
    intros row [<- | [<- | [<- | []]]] Hd; try discriminate Hd;
      split; vm_compute; discriminate.
Defined.

(** When the normaliser reports: on a non-empty table it reports an error
    (one message) and returns [pd.DataFrame()] exactly when the table does
    not have six columns or a row that has a date has, as its amount or its
    balance, a text that is not a number; otherwise it reports nothing. A
    bad amount in a row without a date does no harm, and a missing amount
    does none. *)
Theorem process_transactions_failure
        (digit_zeros : list Z) (to_datetime : string -> option Timestamp)
        (raw : RawTable) (w : World) :
  raw_empty raw = false ->
  exists df w',
    call_process_transactions digit_zeros to_datetime raw w = (inr df, w')
    /\ (convertible_six_columns digit_zeros to_datetime raw ->
        diagnostics w' = diagnostics w
        /\ columns df = canonical_names ++ derived_names)
    /\ (~ convertible_six_columns digit_zeros to_datetime raw ->
        df = empty_DataFrame
        /\ exists e, diagnostics w' = diagnostics w ++ [processing_error e]).
Proof.
  intros He.
  destruct (Nat.eq_dec (List.length (raw_columns raw)) 6) as [Hn | Hn].
  - destruct (process_body_six_result digit_zeros to_datetime raw w Hn)
      as [[e [Hb [p [Hin Hnone]]]] | [valor [saldo [HFv [HFs Hb]]]]].
    + eexists. eexists.
      split; [apply (process_transactions_handler _ _ _ _ _ _ He Hb) |].
      split.
      * intros [_ Hconv]. exfalso.
        destruct (dated_rows_in to_datetime raw p Hin) as [H1 [H2 _]].
        destruct (Hconv (snd p) H1 H2) as [Hv Hs]. destruct Hnone; contradiction.
      * intros _. split; [reflexivity |]. exists e. reflexivity.
    + eexists. eexists.
      split; [apply (process_transactions_returns _ _ _ _ _ _ He Hb) |].
      split; [intros _; split; reflexivity |].
      intros Hnot. exfalso. apply Hnot. split; [exact Hn |].
      intros row Hrow Hd.
      assert (Hin : In row (map snd (dated_rows to_datetime raw))).
      { rewrite dated_rows_rows. apply filter_In. split; assumption. }
      apply in_map_iff in Hin. destruct Hin as [p [<- Hp]].
      destruct (Forall2_in_left _ _ _ p HFv Hp) as [v Hv].
      destruct (Forall2_in_left _ _ _ p HFs Hp) as [s Hs].
      cbv beta in Hv, Hs. rewrite Hv, Hs. split; discriminate.
  - pose proof (process_body_mismatch digit_zeros to_datetime raw w Hn) as Hb.
    eexists. eexists.
    split; [apply (process_transactions_handler _ _ _ _ _ _ He Hb) |].
    split.
    + intros [Hn' _]. contradiction.
    + intros _. split; [reflexivity |]. eexists. reflexivity.
Qed.

Lemma process_transactions_failure_witness :
  exists df w',
    call_process_transactions digit_zeros_14_0 parse_dmy amount_not_a_number initial_world
    = (inr df, w')
    /\ df = empty_DataFrame
    /\ exists e, diagnostics w' = [processing_error e].
Proof.
  destruct (process_transactions_failure digit_zeros_14_0 parse_dmy amount_not_a_number
              initial_world eq_refl)
    as [df [w' [Hc [_ Hfail]]]].
  exists df, w'. split; [exact Hc |].
  apply Hfail. intros [_ Hconv].
  destruct (Hconv (texts ["01/01/2024"; "ABONO X"; ""; ""; "N/A"; "1,000.00"])) as [H _].
  - left. reflexivity.
  - reflexivity.
  - apply H. reflexivity.
Defined.

Lemma build_rows_derived (kept : list (Timestamp * list (option string))) :
  forall valor saldo,
    Forall (fun r => Ingresos r = inflow (Valor r)
                     /\ Egresos r = outflow (Valor r)
                     /\ Flujo_Neto r = Valor r)
      (build_rows kept valor saldo).
Proof.
  induction kept as [|[t row] kept IH]; intros valor saldo; [constructor |].
  destruct valor as [|v valor]; [constructor |].
  destruct saldo as [|s saldo]; [constructor |].
  cbn [build_rows]. constructor; [repeat split | apply IH].
Qed.

(** A missing amount is no failure and is not reported: the row comes
    back with NaN as its value, with inflow and outflow both 0.0, and
    [inflow - outflow == net_flow] is false of it. *)
Theorem missing_amount_breaks_flow
        (digit_zeros : list Z) (to_datetime : string -> option Timestamp)
        (raw : RawTable) (w : World) (df : DataFrame) (w' : World) (r : Transaction) :
  call_process_transactions digit_zeros to_datetime raw w = (inr df, w') ->
  In r (rows df) ->
  F64.isna (Valor r) = true ->
  diagnostics w' = diagnostics w
  /\ Ingresos r = F64.zero
  /\ Egresos r = F64.zero
  /\ F64.isna (Flujo_Neto r) = true
  /\ F64.eqb (F64.sub (Ingresos r) (Egresos r)) (Flujo_Neto r) = false.
Proof.
  intros Hcall Hin Hnan.
  destruct (process_transactions_cases digit_zeros to_datetime raw w)
    as [[_ Hc] | [[_ [_ [e [_ Hc]]]] | [[_ [_ [e [_ [_ Hc]]]]]
                                       | [_ [_ [valor [saldo [_ [_ Hc]]]]]]]]];
    rewrite Hc in Hcall; injection Hcall as <- <-; try contradiction.
  cbn [rows] in Hin.
  apply (Permutation_in r (Permutation_sym (sort_values_Permutation Fecha_leb _))) in Hin.
  pose proof (build_rows_derived (dated_rows to_datetime raw) valor saldo) as Hd.
  rewrite Forall_forall in Hd. destruct (Hd r Hin) as [Hi [He Hf]].
  rewrite Hi, He, Hf.
  destruct (Valor r); try discriminate Hnan.
  repeat split.
Qed.

Lemma missing_amount_breaks_flow_witness :
  let r := mkTransaction 19723%Z (Some "ABONO X") None None F64.nan F64.nan "Ingresos"
             F64.zero F64.zero F64.nan F64.nan EmptyString in
  diagnostics (snd (call_process_transactions digit_zeros_14_0 parse_dmy page_with_gaps
                      initial_world))
  = diagnostics initial_world
  /\ Ingresos r = F64.zero
  /\ Egresos r = F64.zero
  /\ F64.isna (Flujo_Neto r) = true
  /\ F64.eqb (F64.sub (Ingresos r) (Egresos r)) (Flujo_Neto r) = false.
Proof.
  cbv zeta.
  apply (missing_amount_breaks_flow digit_zeros_14_0 parse_dmy page_with_gaps initial_world
           (match fst (call_process_transactions digit_zeros_14_0 parse_dmy page_with_gaps
                         initial_world) with
            | inr df => df
            | inl _ => empty_DataFrame
            end)).
  - vm_compute. reflexivity.
  - vm_compute. left. reflexivity.
  - reflexivity.
Defined.

(** ** Currency cells and [float()] *)





(** A leading ["-"] is the sign; any other text is all body. *)
Lemma sign_and_body_cases (t : string) :
  (exists rest, t = String "-" rest
     /\ (match t with
         | String "-" rest => (true, rest)
         | _ => (false, t)
         end) = (true, rest))
  \/ ((forall rest, t <> String "-" rest)
      /\ (match t with
          | String "-" rest => (true, rest)
          | _ => (false, t)
          end) = (false, t)).
Proof.
  destruct t as [|c rest]; [right; split; [discriminate | reflexivity] |].
  destruct (Ascii.ascii_dec c "-") as [-> | Hc].
  - left. exists rest. split; reflexivity.
  - right. split; [intros r H; injection H as H _; contradiction |].
    destruct c as [[] [] [] [] [] [] [] []]; try reflexivity.
    exfalso. apply Hc. reflexivity.
Qed.



(** *** Characters *)








Lemma decimal_range (digit_zeros : list Z) (cp d : Z) :
  decimal digit_zeros cp = Some d -> (0 <= cp /\ 0 <= d <= 9)%Z.
Proof.
  unfold decimal.
  destruct ((48 <=? cp) && (cp <=? 57))%Z eqn:H1.
  - intros H. injection H as <-. apply andb_true_iff in H1. lia.
  - destruct (cp <? 128)%Z eqn:H2; [discriminate |].
    destruct (find _ digit_zeros) as [z|] eqn:Hf; [| discriminate].
    intros H. injection H as <-. apply find_some in Hf. destruct Hf as [_ Hz].
    apply andb_true_iff in Hz. lia.
Qed.













Lemma decimal_to_float_opp (m : Z) (k : nat) :
  decimal_to_float true m k = F64.opp (decimal_to_float false m k).
Proof.
  unfold decimal_to_float. destruct m as [|p|p]; try reflexivity.
  destruct (SFdiv_core_binary F64.prec F64.emax (Z.pos p) 0 (10 ^ Z.of_nat k) 0)
    as [[q e] l].
  apply (F64Facts.binary_round_aux_opp false).
Qed.

Lemma parse_decimal_minus (s : string) :
  (forall rest, s <> String "-" rest) ->
  parse_decimal (String "-" s) = option_map F64.opp (parse_decimal s).
Proof.
  intros H. unfold parse_decimal at 2.
  destruct (sign_and_body_cases s) as [[rest [Hs _]] | [_ ->]];
    [exfalso; apply (H rest Hs) |].
  unfold parse_decimal.
  destruct (split_point s) as [int_part frac].
  cbv zeta.
  set (frac_part := match frac with Some f => f | None => EmptyString end).
  destruct (String.length int_part + String.length frac_part)%nat; [reflexivity |].
  destruct (digits_value 0 (int_part ++ frac_part)) as [m|]; [| reflexivity].
  cbn [option_map]. rewrite decimal_to_float_opp. reflexivity.
Qed.

Lemma ascii_of_digit_no_minus (d : Z) :
  (0 <= d <= 9)%Z -> ascii_of_digit d <> "-"%char.
Proof.
  intros H.
  assert (Hd : d = 0%Z \/ d = 1%Z \/ d = 2%Z \/ d = 3%Z \/ d = 4%Z \/ d = 5%Z
               \/ d = 6%Z \/ d = 7%Z \/ d = 8%Z \/ d = 9%Z) by lia.
  repeat (destruct Hd as [-> | Hd]; [discriminate |]). subst d. discriminate.
Qed.

Lemma transform_decimal_no_minus (digit_zeros : list Z) (c : ascii) (t : string) :
  c <> "-"%char ->
  forall rest, transform_decimal digit_zeros (String c t) <> String "-" rest.
Proof.
  intros Hc rest. unfold transform_decimal.
  destruct (decimal digit_zeros (code_point (String c t))) as [d|] eqn:Hd.
  - apply decimal_range in Hd. destruct Hd as [_ Hd].
    intros E. injection E as E _. apply (ascii_of_digit_no_minus d Hd E).
  - destruct t as [|b t]; [| discriminate].
    destruct (byte c <? 127)%Z; [| discriminate].
    intros E. injection E as E _. contradiction.
Qed.

Lemma to_ascii_decimal_no_minus (digit_zeros : list Z) (s : string) :
  (forall rest, s <> String "-" rest) ->
  forall rest, to_ascii_decimal digit_zeros s <> String "-" rest.
Proof.
  intros H rest. destruct s as [|c s]; [discriminate |].
  assert (Hc : c <> "-"%char).
  { intros ->. apply (H s). reflexivity. }
  unfold to_ascii_decimal. cbn [characters].
  destruct (take_continuation (continuation_bytes c) (characters s)) as [t r].
  cbn [map]. unfold join. cbn [fold_right].
  pose proof (transform_decimal_no_minus digit_zeros c t Hc) as Ht.
  destruct (transform_decimal digit_zeros (String c t)) as [|a u] eqn:E.
  - exfalso. unfold transform_decimal in E.
    destruct (decimal digit_zeros (code_point (String c t))); [discriminate |].
    destruct t as [|b t]; [| discriminate].
    destruct (byte c <? 127)%Z; discriminate.
  - cbn [append]. intros E'. injection E' as -> _. apply (Ht u). reflexivity.
Qed.

(** [float()] is symmetric in the sign: a leading minus negates the
    float of the rest, bit for bit (and a text that is no number stays
    none). *)
Theorem python_float_minus (digit_zeros : list Z) (s : string) :
  (forall rest, s <> String "-" rest) ->
  python_float digit_zeros (String "-" s)
  = option_map F64.opp (python_float digit_zeros s).
Proof.
  intros H. unfold python_float.
  assert (E : to_ascii_decimal digit_zeros (String "-" s)
              = String "-" (to_ascii_decimal digit_zeros s)).
  { unfold to_ascii_decimal.
    change (characters (String "-" s)) with (String "-" EmptyString :: characters s).
    reflexivity. }
  rewrite E. apply parse_decimal_minus.
  apply to_ascii_decimal_no_minus, H.
Qed.

Lemma python_float_minus_witness :
  python_float digit_zeros_14_0 "-١٢٣٤.50"
  = option_map F64.opp (python_float digit_zeros_14_0 "١٢٣٤.50").
Proof.
  apply (python_float_minus digit_zeros_14_0 "١٢٣٤.50"). intros rest H. discriminate H.
Defined.

(** ** [extract_bank_data] *)

Lemma drop_header_rows_run (full_df : RawTable) (w : World) :
  match index_of (LInt 0) (raw_columns full_df) with
  | None => drop_header_rows full_df w = (inl (KeyError "0"), w)
  | Some i =>
      drop_header_rows full_df w
      = (inr (mkRaw (raw_columns full_df)
                (filter (fun row => negb (str_contains "FECHA|DESCRIPCIÓN" (nth i row None)))
                   (raw_rows full_df))), w)
  end.
Proof.
  unfold drop_header_rows. destruct (index_of (LInt 0) (raw_columns full_df)); reflexivity.
Qed.

(** Once [camelot] is imported the extractor never raises and touches
    neither the files nor its caller's tables. It reports nothing, or else
    returns the empty table with one error message; and no row it returns
    has "FECHA" or "DESCRIPCIÓN" in its cell of column 0. *)
Theorem extract_bank_data_result (env : Env) (pdf_path : string) (w : World) :
  import_camelot env = None ->
  exists raw w',
    extract_bank_data env pdf_path w = (inr raw, w')
    /\ files w' = files w
    /\ arg w' = arg w
    /\ (diagnostics w' = diagnostics w
        \/ (raw = empty_RawTable
            /\ exists msg, diagnostics w' = diagnostics w ++ [st_error msg]))
    /\ (forall i, index_of (LInt 0) (raw_columns raw) = Some i ->
          Forall (fun row => str_contains "FECHA|DESCRIPCIÓN" (nth i row None) = false)
            (raw_rows raw)).
Proof.
  intros Himp. unfold extract_bank_data. rewrite Himp.
  unfold fail_if, bind at 1, ret at 1, try_except.
  unfold bind at 1. destruct (read_pdf env pdf_path) as [e | tables]; cbn [lift raise ret].
  - eexists. eexists. split; [reflexivity |]. cbn [files arg diagnostics].
    split; [reflexivity | split; [reflexivity | split]].
    + right. split; [reflexivity |]. eexists. reflexivity.
    + intros i Hi. discriminate Hi.
  - destruct (0 <? List.length tables)%nat.
    + pose proof (drop_header_rows_run (pd_concat tables) w) as Hrun.
      destruct (index_of (LInt 0) (raw_columns (pd_concat tables))) as [i0|] eqn:Hidx;
        rewrite Hrun.
      * eexists. eexists. split; [reflexivity |].
        split; [reflexivity | split; [reflexivity | split]].
        -- left. reflexivity.
        -- intros i Hi. cbn [raw_columns] in Hi. rewrite Hidx in Hi. injection Hi as <-.
           cbn [raw_rows]. apply Forall_forall. intros row Hin.
           apply filter_In in Hin. destruct Hin as [_ Hin].
           apply negb_true_iff in Hin. exact Hin.
      * eexists. eexists. split; [reflexivity |]. cbn [files arg diagnostics].
        split; [reflexivity | split; [reflexivity | split]].
        -- right. split; [reflexivity |]. eexists. reflexivity.
        -- intros i Hi. discriminate Hi.
    + eexists. eexists. split; [reflexivity |]. cbn [files arg diagnostics].
      split; [reflexivity | split; [reflexivity | split]].
      * right. split; [reflexivity |]. eexists. reflexivity.
      * intros i Hi. discriminate Hi.
Qed.

Lemma extract_bank_data_result_witness :
  exists raw w',
    extract_bank_data env_ok "/tmp/tmpk3x9a1.pdf" initial_world = (inr raw, w')
    /\ files w' = []
    /\ arg w' = mkFrame [] []
    /\ (diagnostics w' = []
        \/ (raw = empty_RawTable
            /\ exists msg, diagnostics w' = [] ++ [st_error msg]))
    /\ (forall i, index_of (LInt 0) (raw_columns raw) = Some i ->
          Forall (fun row => str_contains "FECHA|DESCRIPCIÓN" (nth i row None) = false)
            (raw_rows raw)).
Proof.
  apply (extract_bank_data_result env_ok "/tmp/tmpk3x9a1.pdf" initial_world).
  reflexivity.
Defined.

(** Tables of one width, as camelot labels them. *)

Lemma index_of_LInt_seq (n : nat) :
  forall a k, (a <= k < a + n)%nat ->
    index_of (LInt k) (map LInt (seq a n)) = Some (k - a)%nat.
Proof.
  induction n as [|n IH]; intros a k Hk; [lia |].
  cbn [seq map index_of Label_eqb].
  destruct (Nat.eqb_spec k a) as [-> | Hne].
  - rewrite Nat.sub_diag. reflexivity.
  - rewrite (IH (S a) k) by lia. f_equal. lia.
Qed.

Lemma map_nth_seq (row : list (option string)) :
  forall a, map (fun k => nth (k - a) row None) (seq a (List.length row)) = row.
Proof.
  induction row as [|x row IH]; intros a; [reflexivity |].
  cbn [List.length seq map]. rewrite Nat.sub_diag. cbn [nth]. f_equal.
  transitivity (map (fun k => nth (k - S a) row None) (seq (S a) (List.length row)));
    [| apply IH].
  apply map_ext_in. intros k Hk.
  apply in_seq in Hk. replace (k - a)%nat with (S (k - S a)) by lia. reflexivity.
Qed.

Lemma reindex_row_same (n : nat) (t : RawTable) (row : list (option string)) :
  raw_columns t = map LInt (seq 0 n) ->
  List.length row = n ->
  reindex_row (map LInt (seq 0 n)) t row = row.
Proof.
  intros Hc Hlen. unfold reindex_row. rewrite Hc, map_map.
  transitivity (map (fun k => nth (k - 0) row None) (seq 0 (List.length row)));
    [| apply map_nth_seq].
  rewrite Hlen. apply map_ext_in. intros k Hk. apply in_seq in Hk.
  rewrite (index_of_LInt_seq n 0 k) by lia. reflexivity.
Qed.

Lemma mem_label_in (l : Label) (ls : list Label) : In l ls -> mem_label l ls = true.
Proof.
  intros Hin. unfold mem_label. apply existsb_exists. exists l. split; [exact Hin |].
  destruct l; simpl; [apply Nat.eqb_refl | apply String.eqb_refl].
Qed.

Lemma filter_new_labels_nil (cols : list Label) :
  filter (fun l => negb (mem_label l cols)) cols = [].
Proof.
  assert (H : forall sub, (forall l, In l sub -> In l cols) ->
                          filter (fun l => negb (mem_label l cols)) sub = []).
  { induction sub as [|l sub IH]; intros Hsub; [reflexivity |].
    cbn [filter]. rewrite (mem_label_in l cols) by (apply Hsub; left; reflexivity).
    cbn [negb]. apply IH. intros l' Hl'. apply Hsub. right. exact Hl'. }
  apply H. auto.
Qed.

Lemma concat_columns_same (cols : list Label) (tables : list RawTable) :
  Forall (fun t => raw_columns t = cols) tables ->
  concat_columns cols tables = cols.
Proof.
  induction 1 as [|t tables Ht _ IH]; [reflexivity |].
  cbn [concat_columns]. rewrite Ht, filter_new_labels_nil, app_nil_r. exact IH.
Qed.

Lemma filter_all_labels (cols : list Label) :
  filter (fun l => negb (mem_label l [])) cols = cols.
Proof.
  induction cols as [|l cols IH]; [reflexivity |].
  change (filter (fun l => negb (mem_label l [])) (l :: cols))
    with (l :: filter (fun l => negb (mem_label l [])) cols).
  rewrite IH. reflexivity.
Qed.

Lemma pd_concat_same_width (n : nat) (tables : list RawTable) :
  tables <> [] ->
  Forall (fun t => raw_columns t = map LInt (seq 0 n)
                   /\ Forall (fun row => List.length row = n) (raw_rows t)) tables ->
  pd_concat tables = mkRaw (map LInt (seq 0 n)) (flat_map raw_rows tables).
Proof.
  intros Hne Hall. unfold pd_concat.
  assert (Hcols : concat_columns [] tables = map LInt (seq 0 n)).
  { destruct tables as [|t tables]; [contradiction |].
    inversion Hall as [|? ? [Ht _] Hrest]; subst.
    cbn [concat_columns]. rewrite filter_all_labels. cbn [app]. rewrite Ht.
    apply concat_columns_same.
    apply Forall_forall. intros t' Hin.
    rewrite Forall_forall in Hrest. apply (Hrest t' Hin). }
  rewrite Hcols. f_equal.
  clear Hne Hcols. induction Hall as [|t tables [Ht Hrows] _ IH]; [reflexivity |].
  cbn [flat_map]. rewrite IH. f_equal.
  transitivity (map (fun row => row) (raw_rows t)); [| apply map_id].
  apply map_ext_in. intros row Hin.
  rewrite Forall_forall in Hrows. apply (reindex_row_same n t row Ht (Hrows row Hin)).
Qed.

(** When the pages give tables of one width, the extractor returns the
    rows of all the tables, in their order, without those whose first cell
    has "FECHA" or "DESCRIPCIÓN" in it, and reports nothing. *)
Theorem extract_bank_data_same_width
        (env : Env) (pdf_path : string) (w : World) (tables : list RawTable) (n : nat) :
  import_camelot env = None ->
  read_pdf env pdf_path = inr tables ->
  tables <> [] ->
  (0 < n)%nat ->
  Forall (fun t => raw_columns t = map LInt (seq 0 n)
                   /\ Forall (fun row => List.length row = n) (raw_rows t)) tables ->
  extract_bank_data env pdf_path w
  = (inr (mkRaw (map LInt (seq 0 n))
            (filter (fun row => negb (str_contains "FECHA|DESCRIPCIÓN" (nth 0 row None)))
               (flat_map raw_rows tables))), w).
Proof.
  intros Himp Hread Hne Hn Hall. unfold extract_bank_data. rewrite Himp, Hread.
  unfold fail_if, bind at 1, ret at 1, try_except.
  unfold bind at 1. cbn [lift ret].
  destruct tables as [|t tables]; [contradiction |].
  cbn [List.length Nat.ltb Nat.leb].
  rewrite (pd_concat_same_width n (t :: tables) Hne Hall).
  pose proof (drop_header_rows_run
                (mkRaw (map LInt (seq 0 n)) (flat_map raw_rows (t :: tables))) w) as Hrun.
  cbn [raw_columns raw_rows] in Hrun.
  rewrite (index_of_LInt_seq n 0 0) in Hrun by lia.
  rewrite Hrun. reflexivity.
Qed.

Lemma extract_bank_data_same_width_witness :
  extract_bank_data env_two_pages "/tmp/tmpk3x9a1.pdf" initial_world
  = (inr (mkRaw (map LInt (seq 0 6))
            (filter (fun row => negb (str_contains "FECHA|DESCRIPCIÓN" (nth 0 row None)))
               (flat_map raw_rows [page_with_header; scenario]))), initial_world).
Proof.
  apply (extract_bank_data_same_width env_two_pages "/tmp/tmpk3x9a1.pdf" initial_world
           [page_with_header; scenario] 6).
  - reflexivity.
  - reflexivity.
  - discriminate.
  - lia.
  - repeat constructor.
Defined.

(** ** [load_and_process_bank_statement] *)

Lemma bind_inr_inv {A B : Type} (c : Py A) (k : A -> Py B) (w w1 : World) (b : B) :
  bind c k w = (inr b, w1) ->
  exists a w0, c w = (inr a, w0) /\ k a w0 = (inr b, w1).
Proof.
  unfold bind. destruct (c w) as [[e|a] w0]; [discriminate |].
  intros H. exists a, w0. split; [reflexivity | exact H].
Qed.

Lemma empty_add_FechaStr (env : Env) (df : DataFrame) :
  empty df = false -> empty (add_FechaStr env df) = false.
Proof.
  unfold empty, add_FechaStr. cbn [columns rows].
  destruct (columns df) as [|c cs]; [discriminate |].
  destruct (rows df) as [|r rs]; [discriminate |]. reflexivity.
Qed.

Lemma has_column_add_FechaStr (env : Env) (df : DataFrame) :
  has_column "FechaStr" (add_FechaStr env df) = true.
Proof.
  unfold has_column, add_FechaStr. cbn [columns].
  rewrite existsb_app. cbn [existsb]. rewrite String.eqb_refl.
  rewrite orb_true_l, orb_true_r. reflexivity.
Qed.

(** The loader never raises. What it returns is either the pair of
    [pd.DataFrame()] and the empty label, and then an error message is the
    last thing reported, or a table that is not empty and has the column
    "FechaStr": a caller may rely on [df.empty] alone to tell failure. *)
Theorem load_and_process_never_raises
        (digit_zeros : list Z) (to_datetime : string -> option Timestamp) (env : Env)
        (upload : string) (w : World) :
  exists r w',
    load_and_process_bank_statement digit_zeros to_datetime env (Some upload) w = (inr r, w')
    /\ ((r = (empty_DataFrame, EmptyString)
         /\ exists ds msg, diagnostics w' = ds ++ [st_error msg])
        \/ (empty (fst r) = false /\ has_column "FechaStr" (fst r) = true)).
Proof.
  unfold load_and_process_bank_statement, try_except.
  match goal with
  | |- context [match ?body w with _ => _ end] => destruct (body w) as [[e|r] w1] eqn:Hb
  end.
  - eexists. eexists. split; [reflexivity |]. left. split; [reflexivity |].
    eexists. eexists. reflexivity.
  - exists r, w1. split; [reflexivity |].
    apply bind_inr_inv in Hb. destruct Hb as [tmp_path [w2 [_ Hb]]].
    apply bind_inr_inv in Hb. destruct Hb as [raw [w3 [_ Hb]]].
    apply bind_inr_inv in Hb. destruct Hb as [df [w4 [_ Hb]]].
    apply bind_inr_inv in Hb. destruct Hb as [u [w5 [_ Hb]]].
    destruct (negb (empty df)) eqn:He.
    + apply bind_inr_inv in Hb. destruct Hb as [u' [w6 [_ Hb]]].
      unfold ret in Hb. injection Hb as <- _. right. cbn [fst].
      apply negb_true_iff in He.
      split; [apply empty_add_FechaStr, He | apply has_column_add_FechaStr].
    + unfold bind, emit, ret in Hb. injection Hb as <- <-. left.
      split; [reflexivity |]. eexists. eexists. reflexivity.
Qed.

(** The temporary file is deleted on the paths where nothing escapes
    before [os.unlink]. *)
Lemma temporary_file_deleted_witness :
  exists r w',
    load_and_process_bank_statement digit_zeros_14_0 parse_dmy env_ok (Some "%PDF-1.4")
      initial_world
    = (inr r, w')
    /\ files w' = filter (fun p => negb (String.eqb (tmp_name env_ok) p)) (files initial_world)
    /\ ~ In (tmp_name env_ok) (files w').
Proof.
  apply (temporary_file_deleted digit_zeros_14_0 parse_dmy env_ok "%PDF-1.4" initial_world);
    reflexivity.
Defined.

Lemma StronglySorted_head_least (l : list Transaction) (first : Transaction) :
  StronglySorted Fecha_le l -> hd_error l = Some first ->
  forall r, In r l -> (Fecha first <= Fecha r)%Z.
Proof.
  intros Hs Hhd r Hin. destruct l as [|x l]; [discriminate |].
  injection Hhd as ->. inversion Hs as [|? ? _ Hall]; subst.
  destruct Hin as [<- | Hin]; [lia |].
  rewrite Forall_forall in Hall. apply (Hall r Hin).
Qed.

(** What a successful load returns: when the upload is written, the
    extractor returns a table and the normaliser makes a non-empty table of
    it, the loader returns that table with the column "FechaStr" added (the
    day of each row), labelled with the month of its first row, which is its
    earliest date; the temporary file is gone; and a warning is added
    exactly when [validate_balances] reports rows, with their number. *)
Theorem load_and_process_success
        (digit_zeros : list Z) (to_datetime : string -> option Timestamp)
        (env : Env) (upload : string)
        (w : World) (raw : RawTable) (w2 : World) (df : DataFrame) (w3 : World) :
  create_tmp env = None ->
  write_tmp env = None ->
  extract_bank_data env (tmp_name env) (with_files (tmp_name env :: files w) w)
  = (inr raw, w2) ->
  call_process_transactions digit_zeros to_datetime raw w2 = (inr df, w3) ->
  empty df = false ->
  exists first w',
    hd_error (rows df) = Some first
    /\ (forall r, In r (rows df) -> (Fecha first <= Fecha r)%Z)
    /\ load_and_process_bank_statement digit_zeros to_datetime env (Some upload) w
       = (inr (add_FechaStr env df, strftime_B_Y env (Fecha first)), w')
    /\ Forall (fun r => FechaStr r = strftime_Y_m_d env (Fecha r))
         (rows (add_FechaStr env df))
    /\ files w' = filter (fun p => negb (String.eqb (tmp_name env) p)) (files w)
    /\ diagnostics w'
       = diagnostics w3
         ++ (if empty (validate_balances df) then []
             else [st_warning ("Se encontraron "
                     ++ str_nat (List.length (rows (validate_balances df)))
                     ++ " registros con discrepancias en saldos. Puede afectar la precisión del análisis.")]).
Proof.
  intros Hc Hw Hext Hcall Hne.
  (* the extractor returned, so camelot was imported and no file was touched *)
  assert (Himp : import_camelot env = None).
  { destruct (import_camelot env) as [e|] eqn:Hi; [| reflexivity].
    unfold extract_bank_data in Hext. rewrite Hi in Hext. discriminate Hext. }
  destruct (extract_bank_data_returns env (tmp_name env)
              (with_files (tmp_name env :: files w) w) Himp) as [raw' [w2' [He' Hf2]]].
  rewrite Hext in He'. injection He' as <- <-.
  (* the normalised table: sorted, with its columns *)
  assert (Hdf : files w3 = files w2
                /\ StronglySorted Fecha_le (rows df)
                /\ has_column "Fecha" df = true).
  { destruct (process_transactions_cases digit_zeros to_datetime raw w2)
      as [[_ Hc1] | [[_ [_ [e [_ Hc1]]]] | [[_ [_ [e [_ [_ Hc1]]]]]
                                           | [_ [_ [valor [saldo [_ [_ Hc1]]]]]]]]];
      rewrite Hc1 in Hcall; injection Hcall as <- <-; try discriminate Hne.
    split; [reflexivity | split; [apply sort_values_Fecha | reflexivity]]. }
  destruct Hdf as [Hf3 [Hsorted Hcol]].
  destruct (rows df) as [|first rest] eqn:Hrows.
  { unfold empty in Hne. rewrite Hrows in Hne. destruct (columns df); discriminate. }
  exists first.
  unfold load_and_process_bank_statement, try_except.
  assert (Htmp : write_temporary_file env w
                 = (inr (tmp_name env), with_files (tmp_name env :: files w) w)).
  { unfold write_temporary_file. rewrite Hc, Hw. reflexivity. }
  rewrite (bind_inr _ _ _ _ _ Htmp).
  rewrite (bind_inr _ _ _ _ _ Hext).
  rewrite (bind_inr _ _ _ _ _ Hcall).
  assert (Hu : os_unlink (tmp_name env) w3
               = (inr tt, with_files
                            (filter (fun p => negb (String.eqb (tmp_name env) p)) (files w))
                            w3)).
  { unfold os_unlink. rewrite Hf3, Hf2. cbn [files with_files existsb filter].
    rewrite String.eqb_refl. reflexivity. }
  rewrite (bind_inr _ _ _ _ _ Hu).
  rewrite Hne, Hcol, Hrows. cbn [negb].
  destruct (empty (validate_balances df)) eqn:Hv; cbn [negb].
  - eexists. split; [reflexivity |].
    split; [intros r Hin; apply (StronglySorted_head_least _ first Hsorted eq_refl r Hin) |].
    split; [unfold bind, ret; reflexivity |].
    split; [| split; [reflexivity | cbn [diagnostics with_files]; rewrite app_nil_r; reflexivity]].
    unfold add_FechaStr. cbn [rows]. apply Forall_forall. intros r Hin.
    apply in_map_iff in Hin. destruct Hin as [r0 [<- _]]. reflexivity.
  - eexists. split; [reflexivity |].
    split; [intros r Hin; apply (StronglySorted_head_least _ first Hsorted eq_refl r Hin) |].
    split; [unfold bind, emit, ret; reflexivity |].
    split; [| split; reflexivity].
    unfold add_FechaStr. cbn [rows]. apply Forall_forall. intros r Hin.
    apply in_map_iff in Hin. destruct Hin as [r0 [<- _]]. reflexivity.
Qed.

Lemma load_and_process_success_witness :
  exists first w',
    hd_error (rows scenario_table) = Some first
    /\ (forall r, In r (rows scenario_table) -> (Fecha first <= Fecha r)%Z)
    /\ load_and_process_bank_statement digit_zeros_14_0 parse_dmy env_ok (Some "%PDF-1.4")
         initial_world
       = (inr (add_FechaStr env_ok scenario_table, strftime_B_Y env_ok (Fecha first)), w')
    /\ Forall (fun r => FechaStr r = strftime_Y_m_d env_ok (Fecha r))
         (rows (add_FechaStr env_ok scenario_table))
    /\ files w' = filter (fun p => negb (String.eqb (tmp_name env_ok) p)) (files initial_world)
    /\ diagnostics w'
       = diagnostics (snd (call_process_transactions digit_zeros_14_0 parse_dmy scenario
                             (with_files [tmp_name env_ok] initial_world)))
         ++ (if empty (validate_balances scenario_table) then []
             else [st_warning ("Se encontraron "
                     ++ str_nat (List.length (rows (validate_balances scenario_table)))
                     ++ " registros con discrepancias en saldos. Puede afectar la precisión del análisis.")]).
Proof.
  apply (load_and_process_success digit_zeros_14_0 parse_dmy env_ok "%PDF-1.4" initial_world
           scenario (with_files [tmp_name env_ok] initial_world)
           scenario_table
           (snd (call_process_transactions digit_zeros_14_0 parse_dmy scenario
                   (with_files [tmp_name env_ok] initial_world)))).
  - reflexivity.
  - reflexivity.
  - vm_compute. reflexivity.
  - vm_compute. reflexivity.
  - reflexivity.
Defined.

(** ** [cargar_datos_historicos]: files that fail, columns that miss *)

Lemma to_datetime_column_world (rd : string -> Exn + Timestamp) (rows : list CsvRow) :
  forall w, snd (to_datetime_column rd rows w) = w.
Proof.
  induction rows as [|r rows IH]; intros w; [reflexivity |].
  cbn [to_datetime_column]. unfold bind at 1.
  destruct (csv_Fecha r) as [s|].
  - unfold bind at 1. destruct (rd s) as [e|t]; cbn [lift raise ret]; [reflexivity |].
    unfold bind at 1. specialize (IH w).
    destruct (to_datetime_column rd rows w) as [[e|rs] w']; cbn [snd] in IH; subst w';
      reflexivity.
  - cbn [ret]. unfold bind at 1. specialize (IH w).
    destruct (to_datetime_column rd rows w) as [[e|rs] w']; cbn [snd] in IH; subst w';
      reflexivity.
Qed.

(** One file: it is appended and nothing is said, or it is skipped with a
    warning that names it. Nothing else changes. *)
Lemma load_snapshot_cases (rd : string -> Exn + Timestamp)
      (entry : string * (Exn + CsvTable)) (w : World) :
  (exists t, load_snapshot rd entry w = (inr (Some t), w)
             /\ exists df, snd entry = inr df)
  \/ (exists e,
        load_snapshot rd entry w
        = (inr None,
           mkWorld (arg w)
             (diagnostics w
              ++ [st_warning ("Error al cargar datos_bancarios/" ++ fst entry ++ ": "
                              ++ str_exn e)])
             (files w))
        /\ (forall e', snd entry = inl e' -> e = e')).
Proof.
  unfold load_snapshot, try_except, bind, lift, raise, emit, ret.
  destruct (snd entry) as [e|df] eqn:Hread.
  - right. exists e. split; [reflexivity |]. intros e' H. injection H as <-. reflexivity.
  - destruct (mem_string "Fecha" (csv_columns df)).
    + pose proof (to_datetime_column_world rd (csv_rows df) w) as Hw.
      destruct (to_datetime_column rd (csv_rows df) w) as [[e|rs] w'];
        cbn [snd] in Hw; subst w'.
      * right. exists e. split; [reflexivity |]. intros e' H. discriminate H.
      * left. eexists. split; [reflexivity |]. exists df. reflexivity.
    + left. eexists. split; [reflexivity |]. exists df. reflexivity.
Qed.

(** The loop over the snapshot files: every file is either loaded or
    reported by name in a warning, never both and never neither; a file that
    cannot be read is among the reported ones, with its own error; nothing
    but warnings is added and nothing else changes. *)
Theorem load_snapshots_accounting (rd : string -> Exn + Timestamp)
        (entries : list (string * (Exn + CsvTable))) (w : World) :
  exists dfs failed,
    load_snapshots rd entries w
    = (inr dfs,
       mkWorld (arg w)
         (diagnostics w
          ++ map (fun p => st_warning ("Error al cargar datos_bancarios/" ++ fst p ++ ": "
                                       ++ str_exn (snd p))) failed)
         (files w))
    /\ (List.length dfs + List.length failed = List.length entries)%nat
    /\ (forall name e, In (name, inl e) entries -> In (name, e) failed)
    /\ (forall p, In p failed -> In (fst p) (map fst entries)).
Proof.
  revert w. induction entries as [|entry entries IH]; intros w.
  - exists [], []. cbn [load_snapshots map ret]. rewrite app_nil_r.
    split; [destruct w; reflexivity |].
    split; [reflexivity | split; [intros name e [] | intros p []]].
  - cbn [load_snapshots].
    destruct (load_snapshot_cases rd entry w) as [[t [Hone [df Hdf]]] | [e [Hone Herr]]];
      rewrite (bind_inr _ _ _ _ _ Hone).
    + destruct (IH w) as [dfs [failed [Hrest [Hlen [Hfail Hnames]]]]].
      rewrite (bind_inr _ _ _ _ _ Hrest).
      exists (t :: dfs), failed. split; [reflexivity |].
      split; [cbn [List.length]; lia |]. split.
      * intros name e [Heq | Hin]; [| apply (Hfail name e Hin)].
        subst entry. cbn [snd] in Hdf. discriminate Hdf.
      * intros p Hp. right. apply (Hnames p Hp).
    + set (w1 := mkWorld (arg w)
                   (diagnostics w
                    ++ [st_warning ("Error al cargar datos_bancarios/" ++ fst entry ++ ": "
                                    ++ str_exn e)])
                   (files w)) in *.
      destruct (IH w1) as [dfs [failed [Hrest [Hlen [Hfail Hnames]]]]].
      rewrite (bind_inr _ _ _ _ _ Hrest).
      exists dfs, ((fst entry, e) :: failed). split.
      * unfold ret. subst w1. cbn [arg diagnostics files map fst snd].
        rewrite <- app_assoc. reflexivity.
      * split; [cbn [List.length]; lia |]. split.
        -- intros name e' [Heq | Hin]; [| right; apply (Hfail name e' Hin)].
           left. subst entry. cbn [fst snd] in *. rewrite (Herr e' eq_refl). reflexivity.
        -- intros p [<- | Hp]; [left; reflexivity | right; apply (Hnames p Hp)].
Qed.

(** The historical loader does raise: when files were loaded and none of
    them has one of the three key columns, [drop_duplicates] raises
    [KeyError] and nothing catches it. *)
Theorem cargar_datos_historicos_missing_column
        (rd : string -> Exn + Timestamp) (listing : list (string * (Exn + CsvTable)))
        (w : World) (all_dfs : list HistTable) (w1 : World) (c : string) :
  load_snapshots rd (filter (fun entry => endswith (fst entry) ".csv") listing) w
  = (inr all_dfs, w1) ->
  all_dfs <> [] ->
  In c ["Fecha"; "Valor"; "Descripción"] ->
  ~ In c (hist_columns (concat_hist all_dfs)) ->
  exists msg, cargar_datos_historicos rd (Some listing) w = (inl (KeyError msg), w1).
Proof.
  intros Hload Hne Hc Hmiss. unfold cargar_datos_historicos.
  destruct (filter (fun entry => endswith (fst entry) ".csv") listing) as [|f fs].
  { simpl in Hload. injection Hload as <- _. contradiction. }
  rewrite (bind_inr _ _ _ _ _ Hload).
  destruct all_dfs as [|d ds]; [contradiction |].
  set (combined := concat_hist (d :: ds)) in *.
  unfold bind at 1, drop_duplicates.
  destruct (filter (fun c0 => negb (mem_string c0 (hist_columns combined)))
              ["Fecha"; "Valor"; "Descripción"]) as [|m ms] eqn:Hf.
  - exfalso.
    assert (Hin : In c (filter (fun c0 => negb (mem_string c0 (hist_columns combined)))
                          ["Fecha"; "Valor"; "Descripción"])).
    { apply filter_In. split; [exact Hc |]. apply negb_true_iff.
      destruct (mem_string c (hist_columns combined)) eqn:Hm; [| reflexivity].
      apply mem_string_true_iff in Hm. contradiction. }
    rewrite Hf in Hin. contradiction.
  - eexists. reflexivity.
Qed.

Lemma cargar_datos_historicos_missing_column_witness :
  exists msg,
    cargar_datos_historicos strict_iso (Some snapshot_without_value) initial_world
    = (inl (KeyError msg), initial_world).
Proof.
  apply (cargar_datos_historicos_missing_column strict_iso snapshot_without_value
           initial_world
           [ mkHistTable ["Fecha"; "Descripción"]
               [ mkHistRow (Some 19723%Z) F64.nan (Some "ABONO X") [] ] ]
           initial_world "Valor").
  - vm_compute. reflexivity.
  - discriminate.
  - simpl. auto.
  - vm_compute. intros [H | [H | []]]; discriminate H.
Defined.

(** The loop over files of which none can be read. *)
Lemma load_snapshots_unreadable (rd : string -> Exn + Timestamp)
      (entries : list (string * (Exn + CsvTable))) :
  Forall (fun entry => exists e, snd entry = inl e) entries ->
  forall w,
    load_snapshots rd entries w
    = (inr [],
       mkWorld (arg w) (diagnostics w ++ map unreadable_warning entries) (files w)).
Proof.
  induction 1 as [|entry entries [e He] _ IH]; intros w.
  - cbn [load_snapshots map ret]. rewrite app_nil_r. destruct w; reflexivity.
  - cbn [load_snapshots].
    assert (Hone : load_snapshot rd entry w
                   = (inr None,
                      mkWorld (arg w) (diagnostics w ++ [unreadable_warning entry])
                        (files w))).
    { unfold load_snapshot, try_except, bind, lift, raise, emit, ret, unreadable_warning.
      rewrite He. reflexivity. }
    rewrite (bind_inr _ _ _ _ _ Hone), (bind_inr _ _ _ _ _ (IH _)).
    unfold ret. cbn [arg diagnostics files map]. rewrite <- app_assoc. reflexivity.
Qed.

(** When no file ending in ".csv" can be read, the loader returns
    [pd.DataFrame()] without raising, reports each of these files by name
    with its error, in the order of the listing, and says nothing of the
    other files. *)
Theorem cargar_datos_historicos_unreadable
        (rd : string -> Exn + Timestamp) (listing : list (string * (Exn + CsvTable)))
        (w : World) :
  Forall (fun entry => endswith (fst entry) ".csv" = true -> exists e, snd entry = inl e)
    listing ->
  cargar_datos_historicos rd (Some listing) w
  = (inr empty_HistTable,
     mkWorld (arg w)
       (diagnostics w
        ++ map unreadable_warning
             (filter (fun entry => endswith (fst entry) ".csv") listing))
       (files w)).
Proof.
  intros Hall. unfold cargar_datos_historicos.
  assert (Hcsv : Forall (fun entry => exists e, snd entry = inl e)
                   (filter (fun entry => endswith (fst entry) ".csv") listing)).
  { apply Forall_forall. intros entry Hin. apply filter_In in Hin.
    rewrite Forall_forall in Hall. apply (Hall entry); tauto. }
  destruct (filter (fun entry => endswith (fst entry) ".csv") listing) as [|f fs] eqn:Hf.
  - cbn [map]. rewrite app_nil_r. destruct w; reflexivity.
  - rewrite (bind_inr _ _ _ _ _ (load_snapshots_unreadable rd (f :: fs) Hcsv w)).
    reflexivity.
Qed.

Lemma cargar_datos_historicos_unreadable_witness :
  cargar_datos_historicos strict_iso (Some unreadable_listing) initial_world
  = (inr empty_HistTable,
     mkWorld (arg initial_world)
       (diagnostics initial_world
        ++ map unreadable_warning
             (filter (fun entry => endswith (fst entry) ".csv") unreadable_listing))
       (files initial_world)).
Proof.
  apply (cargar_datos_historicos_unreadable strict_iso unreadable_listing initial_world).
  unfold unreadable_listing.
  repeat (apply Forall_cons;
          [intros H; try (vm_compute in H; discriminate H); eexists; reflexivity |]).
  apply Forall_nil.
Defined.

(** ** The period filter: months, trimesters, semesters and the year *)

Lemma filter_split {A : Type} (f g h : A -> bool) (l : list A) :
  (forall x, In x l -> f x = g x || h x) ->
  (forall x, In x l -> g x && h x = false) ->
  Permutation (filter f l) (filter g l ++ filter h l).
Proof.
  induction l as [|x l IH]; intros Hf Hd; [constructor |].
  assert (IH' : Permutation (filter f l) (filter g l ++ filter h l)).
  { apply IH; intros y Hy; [apply Hf | apply Hd]; right; exact Hy. }
  specialize (Hf x (or_introl eq_refl)). specialize (Hd x (or_introl eq_refl)).
  cbn [filter]. rewrite Hf.
  destruct (g x), (h x); cbn [orb andb] in *; try discriminate Hd.
  - cbn [app]. apply perm_skip, IH'.
  - apply Permutation_cons_app, IH'.
  - exact IH'.
Qed.

Lemma filter_split3 {A : Type} (f g1 g2 g3 : A -> bool) (l : list A) :
  (forall x, In x l -> f x = g1 x || (g2 x || g3 x)) ->
  (forall x, In x l -> g1 x && (g2 x || g3 x) = false) ->
  (forall x, In x l -> g2 x && g3 x = false) ->
  Permutation (filter f l) (filter g1 l ++ filter g2 l ++ filter g3 l).
Proof.
  intros Hf H1 H2.
  apply Permutation_trans with (filter g1 l ++ filter (fun x => g2 x || g3 x) l).
  - apply filter_split; assumption.
  - apply Permutation_app_head. apply filter_split; [reflexivity | exact H2].
Qed.

Ltac month_cases m :=
  repeat match goal with
         | |- context [Z.eqb m ?c] => destruct (Z.eqb_spec m c) as [-> | ?]
         end;
  try reflexivity.

Ltac period_pointwise Fecha_of dt_month dt_year :=
  let r := fresh "r" in
  let t := fresh "t" in
  let m := fresh "m" in
  intros r _; unfold month_isin, month_eq, year_eq;
  destruct (Fecha_of r) as [t|]; [| reflexivity];
  cbn [existsb];
  repeat match goal with
         | |- context [(Z.of_nat ?n + 1)%Z] =>
             let v := eval vm_compute in (Z.of_nat n + 1)%Z in
             change (Z.of_nat n + 1)%Z with v
         end;
  generalize (dt_month t); intros m;
  match goal with
  | |- context [Z.eqb (dt_year t) ?y] => destruct (Z.eqb (dt_year t) y)
  end;
  rewrite ?andb_true_r, ?andb_false_r, ?orb_false_r;
  month_cases m.

(** A trimester shows the rows of its three months, each once: the rows
    shown for the k-th trimester of the sidebar are those shown for the
    months 3k+1, 3k+2 and 3k+3 of the sidebar, taken together, and none of
    these selections raises. *)
Theorem trimester_is_three_months
        {Row : Type} (Fecha_of : Row -> option Timestamp)
        (dt_month dt_year : Timestamp -> Z) (anio : Z) (df : list Row) (k : nat) :
  (k < 4)%nat ->
  exists t a b c,
    by_trimester Fecha_of dt_month dt_year (nth k trimestres EmptyString) anio df = inr t
    /\ by_month Fecha_of dt_month dt_year (nth (3 * k) meses EmptyString) anio df = inr a
    /\ by_month Fecha_of dt_month dt_year (nth (3 * k + 1) meses EmptyString) anio df = inr b
    /\ by_month Fecha_of dt_month dt_year (nth (3 * k + 2) meses EmptyString) anio df = inr c
    /\ Permutation t (a ++ b ++ c).
Proof.
  intros Hk.
  destruct k as [|[|[|[|k]]]]; [| | | | lia];
    (eexists; eexists; eexists; eexists;
     split; [reflexivity |]; split; [reflexivity |];
     split; [reflexivity |]; split; [reflexivity |];
     apply filter_split3; period_pointwise Fecha_of dt_month dt_year).
Qed.

Lemma trimester_is_three_months_witness :
  exists t a b c,
    by_trimester hFecha month_of_days year_of_days (nth 0 trimestres EmptyString)
      2024 history_rows = inr t
    /\ by_month hFecha month_of_days year_of_days (nth (3 * 0) meses EmptyString)
         2024 history_rows = inr a
    /\ by_month hFecha month_of_days year_of_days (nth (3 * 0 + 1) meses EmptyString)
         2024 history_rows = inr b
    /\ by_month hFecha month_of_days year_of_days (nth (3 * 0 + 2) meses EmptyString)
         2024 history_rows = inr c
    /\ Permutation t (a ++ b ++ c).
Proof.
  apply (trimester_is_three_months hFecha month_of_days year_of_days 2024 history_rows 0).
  lia.
Defined.

(** A semester shows the rows of its two trimesters, each once. *)
Theorem semester_is_two_trimesters
        {Row : Type} (Fecha_of : Row -> option Timestamp)
        (dt_month dt_year : Timestamp -> Z) (anio : Z) (df : list Row) (k : nat) :
  (k < 2)%nat ->
  exists s a b,
    by_semester Fecha_of dt_month dt_year (nth k semestres EmptyString) anio df = inr s
    /\ by_trimester Fecha_of dt_month dt_year (nth (2 * k) trimestres EmptyString) anio df
       = inr a
    /\ by_trimester Fecha_of dt_month dt_year (nth (2 * k + 1) trimestres EmptyString) anio df
       = inr b
    /\ Permutation s (a ++ b).
Proof.
  intros Hk.
  destruct k as [|[|k]]; [| | lia];
    (eexists; eexists; eexists;
     split; [reflexivity |]; split; [reflexivity |]; split; [reflexivity |];
     apply filter_split; period_pointwise Fecha_of dt_month dt_year).
Qed.

Lemma semester_is_two_trimesters_witness :
  exists s a b,
    by_semester hFecha month_of_days year_of_days (nth 1 semestres EmptyString)
      2024 history_rows = inr s
    /\ by_trimester hFecha month_of_days year_of_days (nth (2 * 1) trimestres EmptyString)
         2024 history_rows = inr a
    /\ by_trimester hFecha month_of_days year_of_days (nth (2 * 1 + 1) trimestres EmptyString)
         2024 history_rows = inr b
    /\ Permutation s (a ++ b).
Proof.
  apply (semester_is_two_trimesters hFecha month_of_days year_of_days 2024 history_rows 1).
  lia.
Defined.

(** The whole year shows the rows of its two semesters, each once, when
    the months of the dates are months of the calendar. *)
Theorem year_is_two_semesters
        {Row : Type} (Fecha_of : Row -> option Timestamp)
        (dt_month dt_year : Timestamp -> Z) (anio : Z) (df : list Row) :
  Forall (fun r => forall t, Fecha_of r = Some t -> (1 <= dt_month t <= 12)%Z) df ->
  exists y a b,
    whole_year Fecha_of dt_month dt_year anio df = inr y
    /\ by_semester Fecha_of dt_month dt_year "1er Semestre" anio df = inr a
    /\ by_semester Fecha_of dt_month dt_year "2do Semestre" anio df = inr b
    /\ Permutation y (a ++ b).
Proof.
  intros Hm. rewrite Forall_forall in Hm.
  eexists; eexists; eexists.
  split; [reflexivity |]. split; [reflexivity |]. split; [reflexivity |].
  apply filter_split.
  - intros r Hr. specialize (Hm r Hr). unfold month_isin, year_eq.
    destruct (Fecha_of r) as [t|]; [| reflexivity].
    specialize (Hm t eq_refl). cbn [existsb].
    revert Hm. generalize (dt_month t). intros m Hm.
    destruct (Z.eqb (dt_year t) anio);
      rewrite ?andb_true_r, ?andb_false_r, ?orb_false_r; [| reflexivity].
    month_cases m. lia.
  - period_pointwise Fecha_of dt_month dt_year.
Qed.

Lemma year_is_two_semesters_witness :
  exists y a b,
    whole_year hFecha month_of_days year_of_days 2024 history_rows = inr y
    /\ by_semester hFecha month_of_days year_of_days "1er Semestre" 2024 history_rows = inr a
    /\ by_semester hFecha month_of_days year_of_days "2do Semestre" 2024 history_rows = inr b
    /\ Permutation y (a ++ b).
Proof.
  apply (year_is_two_semesters hFecha month_of_days year_of_days 2024 history_rows).
  unfold history_rows.
  repeat (apply Forall_cons;
          [intros t H; try discriminate H; injection H as <-; vm_compute;
           split; discriminate |]).
  apply Forall_nil.
Defined.

(** Whatever is selected, what is shown is a selection of the rows of the
    table, in their order, and every row shown has a date of the selected
    year: a row without a date is never shown. *)
Theorem df_filtrado_within_year
        {Row : Type} (Fecha_of : Row -> option Timestamp)
        (dt_month dt_year : Timestamp -> Z)
        (periodo_opcion : string)
        (mes_seleccionado trimestre_seleccionado semestre_seleccionado : option string)
        (anio : Z) (df shown : list Row) :
  df_filtrado Fecha_of dt_month dt_year periodo_opcion
    mes_seleccionado trimestre_seleccionado semestre_seleccionado anio df = inr shown ->
  exists keep,
    shown = filter keep df
    /\ forall r, keep r = true -> exists t, Fecha_of r = Some t /\ dt_year t = anio.
Proof.
  assert (Hy : forall r, year_eq Fecha_of dt_year anio r = true ->
                         exists t, Fecha_of r = Some t /\ dt_year t = anio).
  { intros r H. unfold year_eq in H. destruct (Fecha_of r) as [t|]; [| discriminate H].
    exists t. split; [reflexivity | apply Z.eqb_eq, H]. }
  unfold df_filtrado.
  destruct (String.eqb periodo_opcion "Mes" && truthy mes_seleccionado).
  { destruct (list_index (selected mes_seleccionado) meses) as [e|i]; [discriminate |].
    intros H. injection H as <-. eexists. split; [reflexivity |].
    intros r Hr. apply andb_true_iff in Hr. apply Hy, Hr. }
  destruct (String.eqb periodo_opcion "Trimestre" && truthy trimestre_seleccionado).
  { destruct (getitem (selected trimestre_seleccionado) trimestre_map) as [e|ms];
      [discriminate |].
    intros H. injection H as <-. eexists. split; [reflexivity |].
    intros r Hr. apply andb_true_iff in Hr. apply Hy, Hr. }
  destruct (String.eqb periodo_opcion "Semestre" && truthy semestre_seleccionado).
  { destruct (getitem (selected semestre_seleccionado) semestre_map) as [e|ms];
      [discriminate |].
    intros H. injection H as <-. eexists. split; [reflexivity |].
    intros r Hr. apply andb_true_iff in Hr. apply Hy, Hr. }
  intros H. injection H as <-. eexists. split; [reflexivity |]. exact Hy.
Qed.

Lemma df_filtrado_within_year_witness :
  exists keep,
    [ mkHistRow (Some 19763%Z) (F64.of_Z (-50)) (Some "COMISIÓN Y") [] ]
    = filter keep history_rows
    /\ forall r, keep r = true -> exists t, hFecha r = Some t /\ year_of_days t = 2024%Z.
Proof.
  apply (df_filtrado_within_year hFecha month_of_days year_of_days
           "Mes" (Some "Febrero") None None 2024 history_rows).
  vm_compute. reflexivity.
Defined.

